(** * Image ingestion handler: resize dimensions and fallback logic

    A shallow embedding of [lambda_function.py].  The handler is one linear
    pipeline per S3 event record: fetch, try to resize with Pillow, fall back
    to a verbatim copy, write a DynamoDB item, publish an SNS message.

    Python's [int] is [Z]; Python's [float] is IEEE-754 binary64, modelled by
    the executable specification [SpecFloat] of the standard library (round to
    nearest, ties to even), so that [w / h], [MAX_WIDTH / aspect_ratio] and
    [int(...)] round exactly as the interpreter rounds them.  Dictionaries are
    [gmap]s with string keys.  The three AWS clients and Pillow are external:
    their state is an explicit store and their failures are oracles of the
    world the handler runs in.  The checks of [test_pipeline.py] are embedded
    over the same store ([TestPipeline]). *)

From Stdlib Require Import ZArith QArith Qround Lia Bool List.
From Stdlib.Strings Require Import Ascii String Byte.
From Stdlib Require Import Floats.SpecFloat.
From stdpp Require Import base option strings pretty gmap list fin_maps.

Local Open Scope Z_scope.

(** ** Python exceptions and results *)

Inductive exn : Type :=
  | ZeroDivisionError (msg : string)
  | OverflowError (msg : string)
  | ValueError (msg : string)
  | ClientError (msg : string)      (* botocore.exceptions.ClientError *)
  | ImageError (msg : string).      (* anything Pillow raises *)

(** [str(e)] *)
Definition str (e : exn) : string :=
  match e with
  | ZeroDivisionError m | OverflowError m | ValueError m
  | ClientError m | ImageError m => m
  end.

Inductive result (A : Type) : Type :=
  | Ok (a : A)
  | Raise (e : exn).
Arguments Ok {A} a.
Arguments Raise {A} e.

Definition rbind {A B} (r : result A) (k : A -> result B) : result B :=
  match r with
  | Ok a => k a
  | Raise e => Raise e
  end.

(** ** Python numbers *)

Module Py.

Definition prec : Z := 53.
Definition emax : Z := 1024.

(** An integer as an exact (not yet rounded) binary value [n * 2^0]. *)
Definition exact (n : Z) : spec_float :=
  match n with
  | Z0 => S754_zero false
  | Zpos p => S754_finite false p 0
  | Zneg p => S754_finite true p 0
  end.

(** [float(n)]: the nearest double, [OverflowError] past the largest one. *)
Definition float_of_int (n : Z) : result spec_float :=
  match binary_normalize prec emax n 0 false with
  | S754_infinity _ => Raise (OverflowError "int too large to convert to float")
  | f => Ok f
  end.

(** [a / b] on two ints: the correctly rounded quotient. *)
Definition int_truediv (a b : Z) : result spec_float :=
  if b =? 0 then Raise (ZeroDivisionError "division by zero")
  else match SFdiv prec emax (exact a) (exact b) with
       | S754_infinity _ =>
           Raise (OverflowError "integer division result too large for a float")
       | f => Ok f
       end.

Definition is_zero (x : spec_float) : bool :=
  match x with S754_zero _ => true | _ => false end.

(** [n / x] with [n] an int and [x] a float. *)
Definition int_div_float (n : Z) (x : spec_float) : result spec_float :=
  rbind (float_of_int n) (fun fn =>
    if is_zero x then Raise (ZeroDivisionError "float division by zero")
    else Ok (SFdiv prec emax fn x)).

(** [n * x] with [n] an int and [x] a float. *)
Definition int_mul_float (n : Z) (x : spec_float) : result spec_float :=
  rbind (float_of_int n) (fun fn => Ok (SFmul prec emax fn x)).

(** [x > n] with [x] a float produced by an operation above and [n] an int
    that a double holds exactly (here always [1]). *)
Definition float_gt_int (x : spec_float) (n : Z) : bool :=
  SFltb (binary_normalize prec emax n 0 false) x.

(** [int(x)]: truncation toward zero. *)
Definition int_of_float (x : spec_float) : result Z :=
  match x with
  | S754_zero _ => Ok 0
  | S754_finite s m e =>
      let a := match e with
               | Zneg _ => Z.shiftr (Zpos m) (- e)
               | _ => Z.shiftl (Zpos m) e
               end in
      Ok (if s then - a else a)
  | S754_infinity _ =>
      Raise (OverflowError "cannot convert float infinity to integer")
  | S754_nan => Raise (ValueError "cannot convert float NaN to integer")
  end.

End Py.

(** What rounding to a double returns on a non-negative mantissa that is
    clear of the overflow threshold. *)
Definition rounded (sx : bool) (D : Z) (f : spec_float) : Prop :=
  f = S754_zero sx \/
  exists m e, f = S754_finite sx m e /\
    Zpos (digits2_pos m) <= 53 /\ -1074 <= e <= 971 /\
    Zpos (digits2_pos m) + e <= D.

(** Sizes below this bound keep every intermediate double finite.  It lies
    far above any pixel count or byte count a file can state. *)
Definition size_bound : Z := 2 ^ 960.

(** ** Configuration (module-level constants read from the environment) *)

Record config : Type := {
  RESIZED_BUCKET : string;
  DYNAMODB_TABLE : string;
  SNS_TOPIC_ARN : string;
  MAX_WIDTH : Z;
  MAX_HEIGHT : Z
}.

(** ** The dimension computation (lines 56-66 of [lambda_handler]) *)

Definition resize_dims (cfg : config) (original_width original_height : Z)
  : result (Z * Z) :=
  rbind (Py.int_truediv original_width original_height) (fun aspect_ratio =>
    if (original_width >? MAX_WIDTH cfg) || (original_height >? MAX_HEIGHT cfg)
    then
      if Py.float_gt_int aspect_ratio 1 then
        rbind (Py.int_div_float (MAX_WIDTH cfg) aspect_ratio) (fun q =>
        rbind (Py.int_of_float q) (fun new_height =>
        Ok (MAX_WIDTH cfg, new_height)))
      else
        rbind (Py.int_mul_float (MAX_HEIGHT cfg) aspect_ratio) (fun p =>
        rbind (Py.int_of_float p) (fun new_width =>
        Ok (new_width, MAX_HEIGHT cfg)))
    else Ok (original_width, original_height)).

Definition default_config : config :=
  {| RESIZED_BUCKET := ""; DYNAMODB_TABLE := "ImageMetadata";
     SNS_TOPIC_ARN := ""; MAX_WIDTH := 800; MAX_HEIGHT := 600 |}.

(** ** Destination key: [os.path.splitext] (posixpath) *)

Fixpoint rfind_from (c : ascii) (l : list ascii) (i last : Z) : Z :=
  match l with
  | [] => last
  | a :: l' => rfind_from c l' (i + 1) (if Ascii.eqb a c then i else last)
  end.

(** [p.rfind(c)], [-1] when [c] does not occur. *)
Definition rfind (c : ascii) (p : string) : Z :=
  rfind_from c (list_ascii_of_string p) 0 (-1).

Definition splitext (p : string) : string * string :=
  let sepIndex := rfind "/" p in
  let dotIndex := rfind "." p in
  let filename := drop (Z.to_nat (sepIndex + 1)) (list_ascii_of_string p) in
  let before_dot := take (Z.to_nat (dotIndex - (sepIndex + 1))) filename in
  if (sepIndex <? dotIndex) && negb (forallb (Ascii.eqb ".") before_dot)
  then (substring 0 (Z.to_nat dotIndex) p,
        substring (Z.to_nat dotIndex) (String.length p - Z.to_nat dotIndex) p)
  else (p, "").

Definition resized_key (object_key : string) : string :=
  let '(name, ext) := splitext object_key in
  name +:+ "_resized" +:+ ext.

(** ** Data of the three services and of Pillow *)

(** A stored object: what [get_object] answers with. *)
Record s3_object : Type := {
  Body : list byte;
  ContentType : option string
}.

(** One entry of [event['Records']]. *)
Record s3_record : Type := {
  bucket_name : string;     (* record['s3']['bucket']['name'] *)
  object_key : string       (* record['s3']['object']['key'] *)
}.

(** Values of the dictionaries [metadata_item] and [dimensions]. *)
Inductive value : Type :=
  | VStr (s : string)
  | VInt (n : Z)
  | VBool (b : bool).

#[global] Instance value_eq_dec : EqDecision value.
Proof. solve_decision. Defined.

(** The text of a notification, by the values its f-string interpolates. *)
Inductive message : Type :=
  | MsgResized (object_key new_key : string) (dimensions : gmap string value)
      (original_size resized_size : Z) (bucket image_id time : string)
  | MsgProcessed (object_key new_key : string) (original_size : Z)
      (bucket image_id time : string)
  | MsgError (error time : string).

Record publication : Type := {
  TopicArn : string;
  Subject : string;
  Message : message
}.

(** A call of the S3 client. *)
Inductive s3_call : Type :=
  | GetObject (bucket key : string)
  | PutObject (bucket key : string) (body : list byte) (content_type : string)
  | CopyObject (src_bucket src_key bucket key : string) (content_type : string).

(** A Pillow image, as far as the handler looks at it. *)
Record image : Type := {
  size : Z * Z;
  format : option string
}.

(** What the handler cannot decide: whether Pillow imports, what Pillow makes
    of the bytes, which service calls fail, and the values of [uuid.uuid4()]
    and [datetime.utcnow()].  Service faults and the two generators depend on
    the moment of the call (the [clock] of the state). *)
Record world : Type := {
  pillow_available : bool;
  image_open : list byte -> result image;
  image_resize : image -> Z * Z -> result image;
  image_save : image -> string -> result (list byte);
  s3_fault : nat -> s3_call -> option exn;
  ddb_fault : nat -> string -> gmap string value -> option exn;
  sns_fault : nat -> publication -> option exn;
  uuid4 : nat -> string;
  utcnow : nat -> string
}.

(** A world in which no call of a service fails. *)
Definition no_faults (w : world) : Prop :=
  (forall n c, s3_fault w n c = None) /\
  (forall n t i, ddb_fault w n t i = None) /\
  (forall n p, sns_fault w n p = None).

(** The state the handler acts on: the buckets, the items written to
    DynamoDB and the messages published, both in the order of the calls. *)
Record state : Type := {
  s3 : gmap (string * string) s3_object;
  ddb : list (string * gmap string value);
  sns : list publication;
  clock : nat
}.

(** The value under [key] in the [i]-th item written, if there is one. *)
Definition written (st : state) (i : nat) (key : string) : option value :=
  match ddb st !! i with
  | Some (_, item) => item !! key
  | None => None
  end.

(** ** State and exception monad *)

Definition M (A : Type) : Type := state -> result A * state.

Definition ret {A} (a : A) : M A := fun st => (Ok a, st).

Definition raise {A} (e : exn) : M A := fun st => (Raise e, st).

Definition bind {A B} (m : M A) (k : A -> M B) : M B :=
  fun st => match m st with
            | (Ok a, st') => k a st'
            | (Raise e, st') => (Raise e, st')
            end.

(** [try: m except Exception as e: h e]; the effects of [m] stay. *)
Definition try_except {A} (m : M A) (h : exn -> M A) : M A :=
  fun st => match m st with
            | (Ok a, st') => (Ok a, st')
            | (Raise e, st') => h e st'
            end.

Definition lift {A} (r : result A) : M A := fun st => (r, st).

#[global] Instance M_ret : MRet M := @ret.
#[global] Instance M_bind : MBind M := fun A B k m => bind m k.

Definition tick (st : state) : state :=
  {| s3 := s3 st; ddb := ddb st; sns := sns st; clock := S (clock st) |}.

Section Handler.

Variable cfg : config.
Variable w : world.

(** *** Service calls *)

Definition no_such_key : exn :=
  ClientError "An error occurred (NoSuchKey) when calling the operation".

Definition s3_get_object (bucket key : string) : M s3_object :=
  fun st =>
    match s3_fault w (clock st) (GetObject bucket key) with
    | Some e => (Raise e, tick st)
    | None =>
        match s3 st !! (bucket, key) with
        | Some o => (Ok o, tick st)
        | None => (Raise no_such_key, tick st)
        end
    end.

Definition s3_put_object (bucket key : string) (body : list byte)
    (content_type : string) : M unit :=
  fun st =>
    match s3_fault w (clock st) (PutObject bucket key body content_type) with
    | Some e => (Raise e, tick st)
    | None =>
        (Ok tt,
         {| s3 := <[(bucket, key) :=
                     {| Body := body; ContentType := Some content_type |}]>
                  (s3 st);
            ddb := ddb st; sns := sns st; clock := S (clock st) |})
    end.

(** Server-side copy: the destination receives the source object as it is
    stored (S3 keeps the source's metadata unless told to replace it). *)
Definition s3_copy_object (src_bucket src_key bucket key : string)
    (content_type : string) : M unit :=
  fun st =>
    match s3_fault w (clock st)
            (CopyObject src_bucket src_key bucket key content_type) with
    | Some e => (Raise e, tick st)
    | None =>
        match s3 st !! (src_bucket, src_key) with
        | Some o =>
            (Ok tt,
             {| s3 := <[(bucket, key) := o]> (s3 st);
                ddb := ddb st; sns := sns st; clock := S (clock st) |})
        | None => (Raise no_such_key, tick st)
        end
    end.

Definition table_put_item (table : string) (item : gmap string value)
    : M unit :=
  fun st =>
    match ddb_fault w (clock st) table item with
    | Some e => (Raise e, tick st)
    | None =>
        (Ok tt,
         {| s3 := s3 st; ddb := ddb st ++ [(table, item)];
            sns := sns st; clock := S (clock st) |})
    end.

Definition sns_publish (p : publication) : M unit :=
  fun st =>
    match sns_fault w (clock st) p with
    | Some e => (Raise e, tick st)
    | None =>
        (Ok tt,
         {| s3 := s3 st; ddb := ddb st; sns := sns st ++ [p];
            clock := S (clock st) |})
    end.

Definition new_uuid4 : M string :=
  fun st => (Ok (uuid4 w (clock st)), tick st).

Definition now_isoformat : M string :=
  fun st => (Ok (utcnow w (clock st)), tick st).

(** *** The resize attempt (the body of the inner [try], lines 50-98) *)

(** [img.format or 'JPEG'] *)
Definition img_format (img : image) : string :=
  match format img with
  | Some f => if String.eqb f "" then "JPEG" else f
  | None => "JPEG"
  end.

Definition dimensions_dict (original_width original_height
    new_width new_height : Z) : gmap string value :=
  list_to_map
    [("original_width", VInt original_width);
     ("original_height", VInt original_height);
     ("resized_width", VInt new_width);
     ("resized_height", VInt new_height)].

(** The share saved, [(original_size - resized_size) / original_size * 100],
    is computed for the log line 91 and again for the message (line 151);
    of its value only the division by [original_size] matters here. *)
Definition size_saved (original_size resized_size : Z) : result unit :=
  if original_size =? 0 then Raise (ZeroDivisionError "division by zero")
  else Ok tt.

Definition try_resize (image_content : list byte) (original_size : Z)
    (new_key content_type : string) : M (Z * gmap string value) :=
  img ← lift (image_open w image_content);
  let '(original_width, original_height) := size img in
  '(new_width, new_height) ←
    lift (resize_dims cfg original_width original_height);
  resized_img ← lift (image_resize w img (new_width, new_height));
  resized_content ← lift (image_save w resized_img (img_format img));
  let resized_size := Z.of_nat (length resized_content) in
  s3_put_object (RESIZED_BUCKET cfg) new_key resized_content content_type;;
  lift (size_saved original_size resized_size);;
  mret (resized_size,
        dimensions_dict original_width original_height new_width new_height).

(** The fallback of lines 103-110 and the branch of lines 113-120. *)
Definition copy_original (source_bucket object_key new_key
    content_type : string) (original_size : Z)
    : M (Z * gmap string value) :=
  s3_copy_object source_bucket object_key (RESIZED_BUCKET cfg) new_key
    content_type;;
  mret (original_size, ∅).

(** *** One iteration of the loop (lines 32-195) *)

Definition complete_subject : string := "✅ Image Processing Complete".
Definition failed_subject : string := "❌ Image Processing Failed".

(** Lines 46-121: resize when Pillow is there, copy on any error of the
    attempt, copy when Pillow is missing.  Gives [resized_size] and
    [dimensions]. *)
Definition resize_or_copy (pillow_available : bool)
    (source_bucket object_key : string) (image_content : list byte)
    (original_size : Z) (new_key content_type : string)
    : M (Z * gmap string value) :=
  if pillow_available
  then try_except
         (try_resize image_content original_size new_key content_type)
         (fun resize_error =>
            copy_original source_bucket object_key new_key content_type
              original_size)
  else copy_original source_bucket object_key new_key content_type
         original_size.

(** Lines 123-146: the DynamoDB item.  Gives [image_id]. *)
Definition save_metadata (pillow_available : bool)
    (source_bucket object_key new_key : string)
    (original_size resized_size : Z) (content_type : string)
    (dimensions : gmap string value) : M string :=
  image_id ← new_uuid4;
  processed_at ← now_isoformat;
  let metadata_item : gmap string value :=
    list_to_map
      [("image_id", VStr image_id);
       ("original_bucket", VStr source_bucket);
       ("original_key", VStr object_key);
       ("processed_bucket", VStr (RESIZED_BUCKET cfg));
       ("processed_key", VStr new_key);
       ("original_size", VInt original_size);
       ("resized_size", VInt resized_size);
       ("content_type", VStr content_type);
       ("processed_at", VStr processed_at);
       ("status", VStr (if pillow_available then "resized" else "copied"));
       ("pillow_used", VBool pillow_available)] in
  let metadata_item :=
    if bool_decide (dimensions = ∅) then metadata_item
    else dimensions ∪ metadata_item in
  table_put_item (DYNAMODB_TABLE cfg) metadata_item;;
  mret image_id.

(** Lines 148-193: the notification of success. *)
Definition send_notification (pillow_available : bool)
    (object_key new_key : string) (original_size resized_size : Z)
    (dimensions : gmap string value) (image_id : string) : M unit :=
  if String.eqb (SNS_TOPIC_ARN cfg) "" then mret tt
  else
    message ←
      (if pillow_available && negb (bool_decide (dimensions = ∅)) then
         lift (size_saved original_size resized_size);;
         time ← now_isoformat;
         mret (MsgResized object_key new_key dimensions original_size
                 resized_size (RESIZED_BUCKET cfg) image_id time)
       else
         time ← now_isoformat;
         mret (MsgProcessed object_key new_key original_size
                 (RESIZED_BUCKET cfg) image_id time));
    sns_publish {| TopicArn := SNS_TOPIC_ARN cfg;
                   Subject := complete_subject;
                   Message := message |}.

Definition process_record (pillow_available : bool) (record : s3_record)
    : M unit :=
  let source_bucket := bucket_name record in
  let object_key := object_key record in
  response ← s3_get_object source_bucket object_key;
  let image_content := Body response in
  let original_size := Z.of_nat (length image_content) in
  let content_type := default "image/jpeg" (ContentType response) in
  let new_key := resized_key object_key in
  '(resized_size, dimensions) ←
    resize_or_copy pillow_available source_bucket object_key image_content
      original_size new_key content_type;
  image_id ←
    save_metadata pillow_available source_bucket object_key new_key
      original_size resized_size content_type dimensions;
  send_notification pillow_available object_key new_key original_size
    resized_size dimensions image_id.

(** *** The handler *)

Record response : Type := {
  statusCode : Z;
  body_message : string;
  body_pillow_available : bool
}.

Fixpoint for_each (f : s3_record -> M unit) (records : list s3_record)
    : M unit :=
  match records with
  | [] => mret tt
  | record :: rest => f record;; for_each f rest
  end.

(** The outer [except] (lines 205-219): one attempt to publish the failure,
    whose own error is only logged, then the error is raised again. *)
Definition report_and_reraise {A} (e : exn) : M A :=
  (if String.eqb (SNS_TOPIC_ARN cfg) "" then mret tt
   else try_except
          (time ← now_isoformat;
           sns_publish {| TopicArn := SNS_TOPIC_ARN cfg;
                          Subject := failed_subject;
                          Message := MsgError (str e) time |})
          (fun sns_error => mret tt));;
  raise e.

Definition lambda_handler (event : list s3_record) : M response :=
  try_except
    (let pillow_available := pillow_available w in
     for_each (process_record pillow_available) event;;
     mret {| statusCode := 200;
             body_message := "Image processing completed successfully";
             body_pillow_available := pillow_available |})
    report_and_reraise.

End Handler.

(** ** The dimension rule as the specification words it

    [aspect_ratio = w / h] is an exact rational here, and [floor] is taken of
    exact quotients and products. *)

Definition spec_scaled_dims (maxW maxH w h : Z) : Z * Z :=
  let aspect_ratio : Q := (inject_Z w / inject_Z h)%Q in
  if negb (Qle_bool aspect_ratio 1)
  then (maxW, Qfloor (inject_Z maxW / aspect_ratio))
  else (Qfloor (inject_Z maxH * aspect_ratio), maxH).

(** ** Worlds and states of the scenarios *)

Module Scenario.

Definition cfg : config :=
  {| RESIZED_BUCKET := "image-resized"; DYNAMODB_TABLE := "ImageMetadata";
     SNS_TOPIC_ARN := "arn:aws:sns:us-east-1:000000000000:image-events";
     MAX_WIDTH := 800; MAX_HEIGHT := 600 |}.

(** Pillow as far as the scenarios need it: the header gives the size,
    [resize] refuses an empty size, [save] writes two bytes. *)
Definition open_as (sz : Z * Z) (content : list byte) : result image :=
  match content with
  | [] => Raise (ImageError "cannot identify image file")
  | _ => Ok {| size := sz; format := Some "JPEG" |}
  end.

Definition resize_checked (img : image) (sz : Z * Z) : result image :=
  if (0 <? fst sz) && (0 <? snd sz)
  then Ok {| size := sz; format := None |}
  else Raise (ValueError "height and width must be > 0").

Definition calm (pillow : bool) (open : list byte -> result image) : world :=
  {| pillow_available := pillow;
     image_open := open;
     image_resize := resize_checked;
     image_save := fun _ _ => Ok [x2a; x2b];
     s3_fault := fun _ _ => None;
     ddb_fault := fun _ _ _ => None;
     sns_fault := fun _ _ => None;
     uuid4 := fun n => "uuid-" +:+ pretty n;
     utcnow := fun n => "time-" +:+ pretty n |}.

Definition photo : s3_object :=
  {| Body := [x01; x02; x03]; ContentType := Some "image/png" |}.

Definition st0 : state :=
  {| s3 := {[ ("image-source", "a/photo.jpg") := photo ]};
     ddb := []; sns := []; clock := 0 |}.

Definition record_of (key : string) : s3_record :=
  {| bucket_name := "image-source"; object_key := key |}.

(** Pillow missing from the deployment. *)
Definition no_pillow : world := calm false (open_as (400, 300)).

(** Pillow present, the stored bytes are an image of the given size. *)
Definition with_pillow (sz : Z * Z) : world := calm true (open_as sz).

(** Pillow present, the stored bytes are no image it can identify. *)
Definition unreadable : world :=
  calm true (fun _ => Raise (ImageError "cannot identify image file")).

(** Every publish to the topic fails. *)
Definition sns_down : world :=
  {| pillow_available := false;
     image_open := open_as (400, 300);
     image_resize := resize_checked;
     image_save := fun _ _ => Ok [x2a; x2b];
     s3_fault := fun _ _ => None;
     ddb_fault := fun _ _ _ => None;
     sns_fault := fun _ _ => Some (ClientError "AuthorizationError on Publish");
     uuid4 := fun n => "uuid-" +:+ pretty n;
     utcnow := fun n => "time-" +:+ pretty n |}.

Definition photo_event : list s3_record := [record_of "a/photo.jpg"].

Definition missing_then_photo : list s3_record :=
  [record_of "a/missing.jpg"; record_of "a/photo.jpg"].

End Scenario.

(** ** The pipeline test ([test_pipeline.py]) *)

Fixpoint starts_with (old s : list ascii) : bool :=
  match old, s with
  | [], _ => true
  | a :: old', b :: s' => Ascii.eqb a b && starts_with old' s'
  | _ :: _, [] => false
  end.

(** Left to right, without overlap: after a match the next [skip]
    characters belong to it. *)
Fixpoint replace_list (old new : list ascii) (skip : nat) (s : list ascii)
    : list ascii :=
  match s with
  | [] => []
  | a :: s' =>
      match skip with
      | S k => replace_list old new k s'
      | O => if starts_with old s
             then new ++ replace_list old new (length old - 1) s'
             else a :: replace_list old new 0 s'
      end
  end.

(** [s.replace(old, new)] *)
Definition str_replace (s old new : string) : string :=
  let new' := list_ascii_of_string new in
  match list_ascii_of_string old with
  | [] => string_of_list_ascii
            (new' ++ flat_map (fun a => a :: new') (list_ascii_of_string s))
  | old' => string_of_list_ascii
              (replace_list old' new' 0 (list_ascii_of_string s))
  end.

Module TestPipeline.

Definition source_bucket : string := "image-source-yourname-2025".
Definition dest_bucket : string := "image-resized-yourname-2025".

(** Line 12, for the value of [uuid.uuid4()]. *)
Definition test_key (uuid : string) : string := "test-" +:+ uuid +:+ ".jpg".

(** Lines 16-17.  S3 stores an upload that states no content type as
    binary/octet-stream. *)
Definition upload (uuid : string) (body : list byte) (st : state) : state :=
  {| s3 := <[(source_bucket, test_key uuid) :=
              {| Body := body; ContentType := Some "binary/octet-stream" |}]>
           (s3 st);
     ddb := ddb st; sns := sns st; clock := S (clock st) |}.

(** Line 25. *)
Definition resized_key (test_key : string) : string :=
  str_replace test_key ".jpg" "_resized.jpg".

(** The items of a table, of those written. *)
Definition table_items (table : string) (st : state)
    : list (gmap string value) :=
  map snd (List.filter (fun it => String.eqb (fst it) table) (ddb st)).

(** One call of [table.scan] with the filter [original_key = :key] (lines
    35-38).  A call reads one page of the table, at most 1 MB of it and in
    the order DynamoDB keeps the items, and filters what it has read; the
    test does not go on from [LastEvaluatedKey].  [page] is the part of the
    table the call reads. *)
Definition scan (page : list (gmap string value) -> list (gmap string value))
    (table key : string) (st : state) : list (gmap string value) :=
  List.filter
    (fun item => bool_decide (item !! "original_key" = Some (VStr key)))
    (page (table_items table st)).

(** The test, for what the ten seconds of [time.sleep] do to the services
    ([sleep]) and for the page its one scan reads; the calls of the test's
    own clients reach the services. *)
Definition test_image_pipeline (uuid : string) (body : list byte)
    (sleep : state -> state)
    (page : list (gmap string value) -> list (gmap string value))
    (st : state) : bool * state :=
  let test_key := test_key uuid in
  let st := upload uuid body st in
  let st := sleep st in
  let resized_key := resized_key test_key in
  match s3 st !! (dest_bucket, resized_key) with
  | None => (false, st)
  | Some _ =>
      match scan page "ImageMetadata" test_key st with
      | [] => (false, st)
      | _ :: _ => (true, st)
      end
  end.

End TestPipeline.

(** ** Sizes of images *)

(** Pixel counts a double holds with room to spare: below [2 ^ 24]. *)
Definition small (n : Z) : Prop := 0 < n < 2 ^ 24.

(** ** What a run leaves in the buckets *)

(** The objects of [st'] are those of [st] but for the one under [dest],
    which may have been written; none is deleted. *)
Definition wrote_at_most (dest : string * string) (st st' : state) : Prop :=
  (forall k, k <> dest -> s3 st' !! k = s3 st !! k) /\
  (is_Some (s3 st !! dest) -> is_Some (s3 st' !! dest)).

(** * Properties *)

(** ** Rounding to a double stays clear of overflow *)

Section Digits.
Lemma digits2_size p : digits2_pos p = Pos.size p.
Proof. induction p; simpl; congruence. Qed.

Lemma Zdigits2_nonneg m : 0 <= Zdigits2 m.
Proof. destruct m; simpl; lia. Qed.

Lemma Zdigits2_upper m : 0 <= m -> m < 2 ^ Zdigits2 m.
Proof.
  destruct m as [|p|p]; simpl; intros H; try lia.
  rewrite digits2_size.
  pose proof (Pos.size_gt p) as G.
  apply Pos2Z.pos_lt_pos in G. rewrite Pos2Z.inj_pow in G. exact G.
Qed.

Lemma Zdigits2_lower m : 0 < m -> 2 ^ (Zdigits2 m - 1) <= m.
Proof.
  destruct m as [|p|p]; intros H; try lia.
  cbn [Zdigits2]. rewrite digits2_size.
  pose proof (Pos.size_le p) as G.
  apply Pos2Z.pos_le_pos in G. rewrite Pos2Z.inj_pow in G.
  replace (Z.pos (Pos.size p)) with (Z.succ (Z.pos (Pos.size p) - 1)) in G by lia.
  rewrite Z.pow_succ_r in G by lia. lia.
Qed.

Lemma Zdigits2_le_of_lt m k : 0 <= m -> 0 <= k -> m < 2 ^ k -> Zdigits2 m <= k.
Proof.
  intros Hm Hk H.
  destruct (Z.eq_dec m 0) as [->|Hn]; [simpl; lia|].
  pose proof (Zdigits2_lower m ltac:(lia)) as L.
  destruct (Z_le_gt_dec (Zdigits2 m) k) as [?|G]; [assumption|].
  exfalso.
  assert (2 ^ k <= 2 ^ (Zdigits2 m - 1)) by (apply Z.pow_le_mono_r; lia).
  lia.
Qed.
End Digits.

Section Shr.
Lemma shr_1_m r : 0 <= shr_m r -> shr_m (shr_1 r) = shr_m r / 2.
Proof.
  destruct r as [m rb sb]; cbn [shr_m]. intros H.
  destruct m as [|[p|p|]|p]; cbn [shr_1 shr_m]; try lia.
  - reflexivity.
  - apply Z.div_unique with (r := 1); lia.
  - apply Z.div_unique with (r := 0); lia.
  - reflexivity.
Qed.

Lemma iter_shr_1_m p : forall r, 0 <= shr_m r ->
  shr_m (SpecFloat.iter_pos shr_1 p r) = shr_m r / 2 ^ Zpos p.
Proof.
  assert (Hnn : forall r, 0 <= shr_m r -> 0 <= shr_m (shr_1 r)).
  { intros r H. rewrite shr_1_m by assumption. apply Z.div_pos; lia. }
  induction p as [p IH|p IH|]; intros r H; cbn [SpecFloat.iter_pos].
  - assert (H1 := Hnn r H).
    assert (H2 : 0 <= shr_m (SpecFloat.iter_pos shr_1 p (shr_1 r))).
    { rewrite IH by assumption. apply Z.div_pos; lia. }
    rewrite IH by assumption. rewrite IH by assumption.
    rewrite shr_1_m by assumption.
    rewrite !Z.div_div by lia.
    f_equal.
    replace (Z.pos p~1) with (1 + Z.pos p + Z.pos p) by lia.
    rewrite !Z.pow_add_r by lia. lia.
  - assert (H2 : 0 <= shr_m (SpecFloat.iter_pos shr_1 p r)).
    { rewrite IH by assumption. apply Z.div_pos; lia. }
    rewrite IH by assumption. rewrite IH by assumption.
    rewrite !Z.div_div by lia.
    f_equal.
    replace (Z.pos p~0) with (Z.pos p + Z.pos p) by lia.
    rewrite !Z.pow_add_r by lia. lia.
  - rewrite shr_1_m by assumption. reflexivity.
Qed.

Lemma shr_m_shr r e n : 0 <= shr_m r ->
  shr_m (fst (shr r e n)) = (if 0 <? n then shr_m r / 2 ^ n else shr_m r) /\
  snd (shr r e n) = (if 0 <? n then e + n else e).
Proof.
  intros H. destruct n as [|p|p]; simpl; auto.
  split; [apply iter_shr_1_m; assumption|reflexivity].
Qed.
End Shr.

Section RoundShape.

Lemma Zdigits2_mono a b : 0 <= a <= b -> Zdigits2 a <= Zdigits2 b.
Proof.
  intros H. apply Zdigits2_le_of_lt; [lia|apply Zdigits2_nonneg|].
  pose proof (Zdigits2_upper b ltac:(lia)). lia.
Qed.

Lemma Zdigits2_succ m : 0 <= m -> Zdigits2 (m + 1) <= Zdigits2 m + 1.
Proof.
  intros H. pose proof (Zdigits2_nonneg m).
  apply Zdigits2_le_of_lt; [lia|lia|].
  pose proof (Zdigits2_upper m H).
  rewrite Z.pow_add_r by lia. lia.
Qed.

Lemma Zdigits2_div_pow m n : 0 <= m -> 0 <= n ->
  Zdigits2 (m / 2 ^ n) <= Z.max (Zdigits2 m - n) 0.
Proof.
  intros Hm Hn.
  pose proof (Zdigits2_upper m Hm) as U.
  pose proof (Zdigits2_nonneg m) as N.
  assert (P : 0 < 2 ^ n) by (apply Z.pow_pos_nonneg; lia).
  destruct (Z_le_gt_dec n (Zdigits2 m)) as [L|G].
  - rewrite Z.max_l by lia.
    apply Zdigits2_le_of_lt; [apply Z.div_pos; lia|lia|].
    apply Z.div_lt_upper_bound; [lia|].
    rewrite <- Z.pow_add_r by lia.
    replace (n + (Zdigits2 m - n)) with (Zdigits2 m) by lia. exact U.
  - rewrite Z.max_r by lia.
    assert (m < 2 ^ n).
    { assert (2 ^ Zdigits2 m <= 2 ^ n) by (apply Z.pow_le_mono_r; lia). lia. }
    rewrite Z.div_small by lia. simpl. lia.
Qed.

Lemma shr_m_of_loc m l : shr_m (shr_record_of_loc m l) = m.
Proof. destruct l as [|[]]; reflexivity. Qed.

Lemma round_nearest_even_bounds m l :
  m <= round_nearest_even m l <= m + 1.
Proof.
  destruct l as [|[]]; simpl; try lia.
  destruct (Z.even m); lia.
Qed.

Lemma binary_round_aux_shape sx mx ex lx :
  0 <= mx -> ex <= 970 -> Zdigits2 mx + ex <= 1023 ->
  rounded sx (Z.max (Zdigits2 mx + ex) (-1074) + 1)
    (binary_round_aux 53 1024 sx mx ex lx).
Proof.
  intros Hmx Hex Hd.
  unfold binary_round_aux, shr_fexp.
  set (n1 := fexp 53 1024 (Zdigits2 mx + ex) - ex).
  destruct (shr (shr_record_of_loc mx lx) ex n1) as [r1 e1] eqn:E1.
  destruct (shr_m_shr (shr_record_of_loc mx lx) ex n1) as [M1 X1].
  { rewrite shr_m_of_loc. exact Hmx. }
  rewrite E1 in M1, X1. cbn [fst snd] in M1, X1. rewrite shr_m_of_loc in M1.
  set (m2 := round_nearest_even (shr_m r1) (loc_of_shr_record r1)).
  pose proof (round_nearest_even_bounds (shr_m r1) (loc_of_shr_record r1)) as B2.
  fold m2 in B2.
  set (n2 := fexp 53 1024 (Zdigits2 m2 + e1) - e1).
  destruct (shr (shr_record_of_loc m2 loc_Exact) e1 n2) as [r2 e2] eqn:E2.
  pose proof (Zdigits2_nonneg mx) as Dnn.
  pose proof (Zdigits2_upper mx Hmx) as Dup.
  (* the first shift *)
  assert (F1 : 0 <= shr_m r1 /\ shr_m r1 < 2 ^ 53 /\ -1074 <= e1 <= 970 /\
               Zdigits2 (shr_m r1) + e1 <= Z.max (Zdigits2 mx + ex) (-1074)).
  { unfold fexp, emin in n1.
    destruct (0 <? n1) eqn:P1.
    - apply Z.ltb_lt in P1.
      assert (P : 0 < 2 ^ n1) by (apply Z.pow_pos_nonneg; lia).
      pose proof (Zdigits2_div_pow mx n1 Hmx ltac:(lia)) as Q.
      rewrite <- M1 in Q.
      split; [rewrite M1; apply Z.div_pos; lia|].
      split.
      + rewrite M1. apply Z.div_lt_upper_bound; [lia|].
        rewrite <- Z.pow_add_r by lia.
        assert (2 ^ Zdigits2 mx <= 2 ^ (n1 + 53)) by (apply Z.pow_le_mono_r; lia).
        lia.
      + lia.
    - apply Z.ltb_ge in P1. rewrite M1.
      split; [lia|]. split; [|lia].
      assert (2 ^ Zdigits2 mx <= 2 ^ 53) by (apply Z.pow_le_mono_r; lia).
      lia. }
  destruct F1 as (N1 & U1 & R1 & S1).
  assert (N2 : 0 <= m2) by lia.
  pose proof (Zdigits2_nonneg m2) as D2nn.
  assert (D2 : Zdigits2 m2 <= Zdigits2 (shr_m r1) + 1).
  { etransitivity; [|apply Zdigits2_succ; exact N1].
    apply Zdigits2_mono. lia. }
  assert (D2' : Zdigits2 m2 <= 54).
  { apply Zdigits2_le_of_lt; [lia|lia|]. change (2 ^ 54) with (2 * 2 ^ 53). lia. }
  destruct (shr_m_shr (shr_record_of_loc m2 loc_Exact) e1 n2) as [M2 X2].
  { rewrite shr_m_of_loc. exact N2. }
  rewrite E2 in M2, X2. cbn [fst snd] in M2, X2. rewrite shr_m_of_loc in M2.
  unfold fexp, emin in n2.
  assert (F2 : 0 <= shr_m r2 /\ shr_m r2 < 2 ^ 53 /\ -1074 <= e2 <= 971 /\
               Zdigits2 (shr_m r2) + e2 <= Z.max (Zdigits2 mx + ex) (-1074) + 1).
  { destruct (0 <? n2) eqn:P2.
    - apply Z.ltb_lt in P2.
      assert (Zdigits2 m2 = 54) by lia.
      assert (n2 = 1) by lia.
      assert (m2 = 2 ^ 53).
      { pose proof (Zdigits2_lower m2) as L.
        destruct (Z.eq_dec m2 0) as [Z0|NZ]; [rewrite Z0 in *; simpl in *; lia|].
        specialize (L ltac:(lia)).
        replace (Zdigits2 m2 - 1) with 53 in L by lia. lia. }
      rewrite M2. replace n2 with 1 by lia. replace m2 with (2 ^ 53) by lia.
      change (2 ^ 53 / 2 ^ 1) with (2 ^ 52).
      change (Zdigits2 (2 ^ 52)) with 53.
      repeat split; lia.
    - apply Z.ltb_ge in P2. rewrite M2.
      assert (Zdigits2 m2 <= 53) by lia.
      split; [lia|]. split; [|lia].
      pose proof (Zdigits2_upper m2 N2).
      assert (2 ^ Zdigits2 m2 <= 2 ^ 53) by (apply Z.pow_le_mono_r; lia).
      lia. }
  destruct F2 as (N3 & U3 & R3 & S3).
  destruct (shr_m r2) as [|m|m] eqn:Em.
  - left. reflexivity.
  - right. replace (e2 <=? 1024 - 53) with true by (symmetry; apply Z.leb_le; lia).
    exists m, e2. split; [reflexivity|].
    cbn [Zdigits2] in S3.
    split; [|split; [lia|exact S3]].
    change (Zdigits2 (Z.pos m) <= 53).
    apply Zdigits2_le_of_lt; lia.
  - lia.
Qed.

End RoundShape.

Section OperationShapes.

Lemma pos_iter_xO m d : Zpos (Pos.iter xO m d) = Zpos m * 2 ^ Zpos d.
Proof.
  induction d as [|d IH] using Pos.peano_ind.
  - simpl. lia.
  - rewrite Pos.iter_succ, Pos2Z.inj_xO, IH, Pos2Z.inj_succ, Z.pow_succ_r by lia.
    lia.
Qed.

Lemma Zdigits2_mul_pow m n : 0 <= m -> 0 <= n ->
  Zdigits2 (m * 2 ^ n) <= Zdigits2 m + n.
Proof.
  intros Hm Hn. pose proof (Zdigits2_nonneg m). pose proof (Zdigits2_upper m Hm).
  assert (0 < 2 ^ n) by (apply Z.pow_pos_nonneg; lia).
  apply Zdigits2_le_of_lt; [nia|lia|].
  rewrite Z.pow_add_r by lia. nia.
Qed.

Lemma Zdigits2_mul a b : 0 <= a -> 0 <= b ->
  Zdigits2 (a * b) <= Zdigits2 a + Zdigits2 b.
Proof.
  intros Ha Hb.
  pose proof (Zdigits2_nonneg a). pose proof (Zdigits2_nonneg b).
  pose proof (Zdigits2_upper a Ha). pose proof (Zdigits2_upper b Hb).
  apply Zdigits2_le_of_lt; [nia|lia|].
  rewrite Z.pow_add_r by lia. nia.
Qed.

Lemma rounded_weaken sx D D' f : D <= D' -> rounded sx D f -> rounded sx D' f.
Proof.
  intros HD [->|(m & e & -> & H1 & H2 & H3)]; [left; reflexivity|].
  right. exists m, e. repeat split; lia.
Qed.

Lemma binary_round_shape sx mx ex :
  ex <= 970 -> Zpos (digits2_pos mx) + ex <= 1023 ->
  rounded sx (Z.max (Zpos (digits2_pos mx) + ex) (-1074) + 1)
    (binary_round 53 1024 sx mx ex).
Proof.
  intros Hex Hd. unfold binary_round, shl_align.
  set (ex' := fexp 53 1024 (Zpos (digits2_pos mx) + ex)).
  destruct (ex' - ex) as [|d|d] eqn:Ed.
  - apply binary_round_aux_shape; cbn [Zdigits2]; lia.
  - apply binary_round_aux_shape; cbn [Zdigits2]; lia.
  - pose proof (Zdigits2_mul_pow (Zpos mx) (Zpos d) ltac:(lia) ltac:(lia)) as Q.
    rewrite <- pos_iter_xO in Q. cbn [Zdigits2] in Q.
    eapply rounded_weaken;
      [|apply binary_round_aux_shape; cbn [Zdigits2]; lia].
    cbn [Zdigits2]. lia.
Qed.

Lemma SFmul_shape sx mx ex sy my ey :
  ex + ey <= 970 ->
  Zpos (digits2_pos mx) + Zpos (digits2_pos my) + ex + ey <= 1023 ->
  rounded (xorb sx sy) 1024
    (SFmul 53 1024 (S754_finite sx mx ex) (S754_finite sy my ey)).
Proof.
  intros He Hd. cbn [SFmul].
  pose proof (Zdigits2_mul (Zpos mx) (Zpos my) ltac:(lia) ltac:(lia)) as Q.
  rewrite <- Pos2Z.inj_mul in Q. cbn [Zdigits2] in Q.
  eapply rounded_weaken; [|apply binary_round_aux_shape; cbn [Zdigits2]; lia].
  cbn [Zdigits2]. lia.
Qed.

Lemma SFdiv_shape sx mx ex sy my ey :
  Zpos (digits2_pos mx) + ex - ey <= 1023 ->
  rounded (xorb sx sy) 1024
    (SFdiv 53 1024 (S754_finite sx mx ex) (S754_finite sy my ey)).
Proof.
  intros Hd. cbn [SFdiv]. unfold SFdiv_core_binary.
  cbn [Zdigits2].
  set (d1 := Zpos (digits2_pos mx)) in *.
  set (d2 := Zpos (digits2_pos my)).
  set (e' := Z.min (fexp 53 1024 (d1 + ex - (d2 + ey))) (ex - ey)).
  set (s := ex - ey - e').
  set (m' := match s with
             | 0 => Zpos mx
             | Zpos _ => Z.shiftl (Zpos mx) s
             | Zneg _ => 0
             end).
  assert (Hs : 0 <= s) by (unfold s, e'; lia).
  assert (Hm' : m' = Zpos mx * 2 ^ s).
  { unfold m'. destruct s as [|p|p] eqn:Es; [simpl; lia| |lia].
    apply Z.shiftl_mul_pow2. lia. }
  destruct (Z.div_eucl m' (Zpos my)) as [q r] eqn:E.
  assert (Hq : q = m' / Zpos my) by (unfold Z.div; rewrite E; reflexivity).
  assert (P : 0 < 2 ^ s) by (apply Z.pow_pos_nonneg; lia).
  assert (Hq0 : 0 <= q) by (rewrite Hq; apply Z.div_pos; nia).
  assert (Hqm : q <= m').
  { rewrite Hq. apply Z.div_le_upper_bound; [lia|nia]. }
  assert (Dq : Zdigits2 q <= d1 + s).
  { etransitivity; [apply Zdigits2_mono; split; [exact Hq0|exact Hqm]|].
    rewrite Hm'. apply (Zdigits2_mul_pow (Zpos mx) s); lia. }
  assert (d2 >= 1) by (unfold d2; lia).
  assert (He' : e' <= 969) by (unfold e', fexp, emin; lia).
  eapply rounded_weaken; [|apply binary_round_aux_shape; lia].
  unfold s in Dq. lia.
Qed.

End OperationShapes.

Section PythonNumbers.

Lemma Zdigits2_size_bound n : 0 < n < size_bound -> Zdigits2 n <= 960.
Proof.
  intros H. apply Zdigits2_le_of_lt; [lia|lia|]. exact (proj2 H).
Qed.

Lemma float_of_int_ok n :
  0 < n < size_bound ->
  exists f, Py.float_of_int n = Ok f /\ rounded false 961 f.
Proof.
  intros H. pose proof (Zdigits2_size_bound n H) as D.
  unfold Py.float_of_int, Py.prec, Py.emax.
  destruct n as [|p|p]; try lia. cbn [binary_normalize Zdigits2] in *.
  pose proof (binary_round_shape false p 0 ltac:(lia) ltac:(lia)) as R.
  apply (rounded_weaken _ _ 961) in R; [|lia].
  destruct R as [E|(m & e & E & R)].
  - rewrite E. eexists; split; [reflexivity|]. left; reflexivity.
  - rewrite E. eexists; split; [reflexivity|]. right. exists m, e. auto.
Qed.

Lemma int_truediv_ok a b :
  0 < a < size_bound -> 0 < b ->
  exists f, Py.int_truediv a b = Ok f /\ rounded false 1024 f.
Proof.
  intros Ha Hb. pose proof (Zdigits2_size_bound a Ha) as D.
  unfold Py.int_truediv, Py.prec, Py.emax.
  destruct (Z.eqb_spec b 0) as [?|_]; [lia|].
  destruct a as [|p|p]; try lia. destruct b as [|q|q]; try lia.
  cbn [Py.exact Zdigits2] in *.
  pose proof (SFdiv_shape false p 0 false q 0 ltac:(lia)) as R.
  cbn [xorb] in R.
  destruct R as [E|(m & e & E & R)].
  - rewrite E. eexists; split; [reflexivity|]. left; reflexivity.
  - rewrite E. eexists; split; [reflexivity|]. right. exists m, e. auto.
Qed.

Lemma float_one : binary_normalize Py.prec Py.emax 1 0 false
                  = S754_finite false 4503599627370496 (-52).
Proof. reflexivity. Qed.

Lemma float_gt_one D f :
  rounded false D f -> Py.float_gt_int f 1 = true ->
  exists m e, f = S754_finite false m e /\ -52 <= e.
Proof.
  unfold Py.float_gt_int. rewrite float_one.
  intros [->|(m & e & -> & _)]; [discriminate|].
  unfold SFltb, SFcompare. intros H. exists m, e. split; [reflexivity|].
  destruct (Z.compare_spec (-52) e); try lia; try discriminate.
Qed.

Lemma float_not_gt_one D f :
  rounded false D f -> Py.float_gt_int f 1 = false ->
  f = S754_zero false \/
  exists m e, f = S754_finite false m e /\
    Zpos (digits2_pos m) <= 53 /\ e <= -52.
Proof.
  unfold Py.float_gt_int. rewrite float_one.
  intros [->|(m & e & -> & Hm & _)]; [left; reflexivity|].
  unfold SFltb, SFcompare. intros H. right. exists m, e.
  split; [reflexivity|]. split; [exact Hm|].
  destruct (Z.compare_spec (-52) e); try lia; try discriminate.
Qed.

Lemma int_of_float_ok D f :
  rounded false D f -> exists n, Py.int_of_float f = Ok n /\ 0 <= n.
Proof.
  intros [->|(m & e & -> & _)]; cbn [Py.int_of_float].
  - exists 0. split; [reflexivity|lia].
  - eexists; split; [reflexivity|].
    destruct e as [|p|p].
    + apply Z.shiftl_nonneg. lia.
    + apply Z.shiftl_nonneg. lia.
    + apply Z.shiftr_nonneg. lia.
Qed.

Lemma int_div_float_ok n D x :
  0 < n < size_bound -> rounded false D x -> Py.float_gt_int x 1 = true ->
  exists q, Py.int_div_float n x = Ok q /\ rounded false 1024 q.
Proof.
  intros Hn Rx Gx.
  destruct (float_gt_one D x Rx Gx) as (m2 & e2 & -> & He2).
  destruct (float_of_int_ok n Hn) as (fn & Efn & Rfn).
  unfold Py.int_div_float. rewrite Efn. cbn [rbind Py.is_zero].
  eexists; split; [reflexivity|].
  unfold Py.prec, Py.emax.
  destruct Rfn as [->|(m1 & e1 & -> & H1 & H2 & H3)].
  - left. reflexivity.
  - apply (SFdiv_shape false m1 e1 false m2 e2). lia.
Qed.

Lemma int_mul_float_ok n D x :
  0 < n < size_bound -> rounded false D x -> Py.float_gt_int x 1 = false ->
  exists p, Py.int_mul_float n x = Ok p /\ rounded false 1024 p.
Proof.
  intros Hn Rx Gx.
  destruct (float_of_int_ok n Hn) as (fn & Efn & Rfn).
  unfold Py.int_mul_float. rewrite Efn. cbn [rbind].
  eexists; split; [reflexivity|].
  unfold Py.prec, Py.emax.
  destruct (float_not_gt_one D x Rx Gx) as [->|(m2 & e2 & -> & Hm2 & He2)];
    destruct Rfn as [->|(m1 & e1 & -> & H1 & H2 & H3)];
    try (left; reflexivity).
  apply (SFmul_shape false m1 e1 false m2 e2); lia.
Qed.

End PythonNumbers.

(** ** The dimension computation *)

Section Dimensions.

Variable cfg : config.

(** No scaling: the branch of line 66. *)
Lemma resize_dims_within w h :
  0 < w < size_bound -> 0 < h ->
  w <= MAX_WIDTH cfg -> h <= MAX_HEIGHT cfg ->
  resize_dims cfg w h = Ok (w, h).
Proof.
  intros Hw Hh Lw Lh. unfold resize_dims.
  destruct (int_truediv_ok w h Hw Hh) as (a & -> & _). cbn [rbind].
  rewrite !Z.gtb_ltb.
  rewrite (proj2 (Z.ltb_ge _ _) Lw), (proj2 (Z.ltb_ge _ _) Lh).
  reflexivity.
Qed.

(** Scaling (lines 59-64): the computation raises nothing, one dimension is
    the configured maximum and the other is the truncated double. *)
Lemma resize_dims_scaled w h :
  0 < w < size_bound -> 0 < h ->
  0 < MAX_WIDTH cfg < size_bound -> 0 < MAX_HEIGHT cfg < size_bound ->
  w > MAX_WIDTH cfg \/ h > MAX_HEIGHT cfg ->
  exists aspect_ratio, Py.int_truediv w h = Ok aspect_ratio /\
    if Py.float_gt_int aspect_ratio 1
    then exists q new_height,
           Py.int_div_float (MAX_WIDTH cfg) aspect_ratio = Ok q /\
           Py.int_of_float q = Ok new_height /\ 0 <= new_height /\
           resize_dims cfg w h = Ok (MAX_WIDTH cfg, new_height)
    else exists p new_width,
           Py.int_mul_float (MAX_HEIGHT cfg) aspect_ratio = Ok p /\
           Py.int_of_float p = Ok new_width /\ 0 <= new_width /\
           resize_dims cfg w h = Ok (new_width, MAX_HEIGHT cfg).
Proof.
  intros Hw Hh HW HH Big. unfold resize_dims.
  destruct (int_truediv_ok w h Hw Hh) as (a & Ea & Ra). rewrite Ea.
  exists a. split; [reflexivity|]. cbn [rbind].
  replace ((w >? MAX_WIDTH cfg) || (h >? MAX_HEIGHT cfg)) with true.
  2:{ symmetry. apply orb_true_iff. rewrite !Z.gtb_ltb, !Z.ltb_lt. lia. }
  destruct (Py.float_gt_int a 1) eqn:G.
  - destruct (int_div_float_ok _ _ a HW Ra G) as (q & Eq & Rq).
    destruct (int_of_float_ok _ q Rq) as (n & En & Hn).
    exists q, n. rewrite Eq. cbn [rbind]. rewrite En. cbn [rbind].
    repeat split; auto.
  - destruct (int_mul_float_ok _ _ a HH Ra G) as (p & Ep & Rp).
    destruct (int_of_float_ok _ p Rp) as (n & En & Hn).
    exists p, n. rewrite Ep. cbn [rbind]. rewrite En. cbn [rbind].
    repeat split; auto.
Qed.

End Dimensions.

(** ** Claims about the dimension computation *)

(** C3, at the input where the code leaves the bounds: a 1000x999 image under
    the default maxima 800x600 is wider than tall, so the width is set to 800
    and the height becomes 799, which exceeds [MAX_HEIGHT]. *)
Theorem landscape_height_exceeds_max :
  resize_dims default_config 1000 999 = Ok (800, 799) /\
  799 > MAX_HEIGHT default_config.
Proof. split; [vm_compute; reflexivity|reflexivity]. Qed.




(** C6 as stated fails: a 1000x1 image under 800x600 is scaled to 800x0. *)
Lemma floor_yields_zero_height :
  1000 > MAX_WIDTH default_config /\
  resize_dims default_config 1000 1 = Ok (800, 0) /\
  ~ (forall cfg w h new_width new_height,
       0 < w -> 0 < h -> 0 < MAX_WIDTH cfg -> 0 < MAX_HEIGHT cfg ->
       w > MAX_WIDTH cfg \/ h > MAX_HEIGHT cfg ->
       resize_dims cfg w h = Ok (new_width, new_height) ->
       new_width >= 1 /\ new_height >= 1).
Proof.
  split; [reflexivity|]. split; [vm_compute; reflexivity|].
  intros H.
  assert (E : resize_dims default_config 1000 1 = Ok (800, 0))
    by (vm_compute; reflexivity).
  assert (B : 1000 > MAX_WIDTH default_config \/ 1 > MAX_HEIGHT default_config)
    by (left; reflexivity).
  destruct (H default_config 1000 1 800 0 eq_refl eq_refl eq_refl eq_refl B E)
    as [_ Hh].
  apply Hh. reflexivity.
Qed.

(** C10: for 700x650 under the maxima 800x600 the width is within its bound,
    the height is not, the aspect ratio is greater than 1, and the computed
    width 800 is strictly greater than the original width 700. *)
Theorem resize_can_enlarge_width :
  700 <= MAX_WIDTH default_config /\ 650 > MAX_HEIGHT default_config /\
  (exists aspect_ratio,
     Py.int_truediv 700 650 = Ok aspect_ratio /\
     Py.float_gt_int aspect_ratio 1 = true) /\
  exists new_width new_height,
    resize_dims default_config 700 650 = Ok (new_width, new_height) /\
    700 < new_width.
Proof.
  split; [discriminate|]. split; [reflexivity|]. split.
  - eexists. split; [vm_compute; reflexivity|vm_compute; reflexivity].
  - exists 800, 742. split; [vm_compute; reflexivity|reflexivity].
Qed.

(** ** Running the handler *)

Section Steps.

Variable cfg : config.
Variable w : world.

Lemma bind_ok {A B} (m : M A) (k : A -> M B) st a st1 :
  m st = (Ok a, st1) -> (m ≫= k) st = k a st1.
Proof. intros H. unfold mbind, M_bind, bind. rewrite H. reflexivity. Qed.

Lemma bind_raise {A B} (m : M A) (k : A -> M B) st e st1 :
  m st = (Raise e, st1) -> (m ≫= k) st = (Raise e, st1).
Proof. intros H. unfold mbind, M_bind, bind. rewrite H. reflexivity. Qed.

Lemma bind_ok_inv {A B} (m : M A) (k : A -> M B) st b st' :
  (m ≫= k) st = (Ok b, st') ->
  exists a st1, m st = (Ok a, st1) /\ k a st1 = (Ok b, st').
Proof.
  unfold mbind, M_bind, bind. destruct (m st) as [[a|e] st1]; intros H.
  - exists a, st1. split; [reflexivity|exact H].
  - discriminate.
Qed.

Lemma s3_get_object_ok_inv bucket key st o st' :
  s3_get_object w bucket key st = (Ok o, st') ->
  s3 st !! (bucket, key) = Some o /\ st' = tick st.
Proof.
  unfold s3_get_object. destruct (s3_fault w _ _); [discriminate|].
  destruct (s3 st !! (bucket, key)); [|discriminate].
  intros [= -> <-]. split; reflexivity.
Qed.

Lemma s3_copy_object_ok_inv src_bucket src_key bucket key ct st u st' :
  s3_copy_object w src_bucket src_key bucket key ct st = (Ok u, st') ->
  exists o, s3 st !! (src_bucket, src_key) = Some o /\
    s3 st' = <[(bucket, key) := o]> (s3 st) /\
    ddb st' = ddb st /\ sns st' = sns st /\ clock st' = S (clock st).
Proof.
  unfold s3_copy_object. destruct (s3_fault w _ _); [discriminate|].
  destruct (s3 st !! (src_bucket, src_key)) as [o|]; [|discriminate].
  intros [= _ <-]. exists o. repeat split; reflexivity.
Qed.

Lemma copy_original_ok_inv source_bucket object_key new_key ct size st r st' :
  copy_original cfg w source_bucket object_key new_key ct size st
    = (Ok r, st') ->
  r = (size, ∅) /\
  exists o, s3 st !! (source_bucket, object_key) = Some o /\
    s3 st' = <[(RESIZED_BUCKET cfg, new_key) := o]> (s3 st) /\
    ddb st' = ddb st /\ sns st' = sns st /\ clock st' = S (clock st).
Proof.
  unfold copy_original. intros H.
  apply bind_ok_inv in H as (u & st1 & Hc & Hr).
  injection Hr as <- <-. split; [reflexivity|].
  eapply s3_copy_object_ok_inv. exact Hc.
Qed.

(** The item [save_metadata] writes for a given outcome of the transform. *)
Lemma save_metadata_ok_inv pillow source_bucket object_key new_key
    original_size resized_size ct (dimensions : gmap string value)
    st image_id st' :
  save_metadata cfg w pillow source_bucket object_key new_key original_size
    resized_size ct dimensions st = (Ok image_id, st') ->
  exists item : gmap string value,
    s3 st' = s3 st /\ sns st' = sns st /\
    ddb st' = ddb st ++ [(DYNAMODB_TABLE cfg, item)] /\
    (forall k, dimensions !! k = None ->
       item !! k =
       (list_to_map
          [("image_id", VStr image_id);
           ("original_bucket", VStr source_bucket);
           ("original_key", VStr object_key);
           ("processed_bucket", VStr (RESIZED_BUCKET cfg));
           ("processed_key", VStr new_key);
           ("original_size", VInt original_size);
           ("resized_size", VInt resized_size);
           ("content_type", VStr ct);
           ("processed_at", VStr (utcnow w (S (clock st))));
           ("status", VStr (if pillow then "resized" else "copied"));
           ("pillow_used", VBool pillow)] : gmap string value) !! k) /\
    (forall k v, dimensions !! k = Some v -> item !! k = Some v).
Proof.
  unfold save_metadata, new_uuid4, now_isoformat, table_put_item.
  unfold mbind, M_bind, bind, mret, M_ret, ret, tick. cbn [clock s3 ddb sns].
  destruct (ddb_fault w _ _ _); [discriminate|].
  intros [= <- <-]. cbn [clock s3 ddb sns].
  eexists. split; [reflexivity|]. split; [reflexivity|].
  split; [reflexivity|].
  case_bool_decide as Hd.
  - subst dimensions. split.
    + intros k _. reflexivity.
    + intros k v Hk. rewrite lookup_empty in Hk. discriminate.
  - split.
    + intros k Hk. rewrite lookup_union_r by exact Hk. reflexivity.
    + intros k v Hk. erewrite lookup_union_Some_l; [reflexivity|exact Hk].
Qed.

(** Whatever the notification does, it leaves the buckets and the table. *)
Lemma send_notification_frame pillow object_key new_key original_size
    resized_size dimensions image_id st :
  let st' := snd (send_notification cfg w pillow object_key new_key
                    original_size resized_size dimensions image_id st) in
  s3 st' = s3 st /\ ddb st' = ddb st.
Proof.
  unfold send_notification, sns_publish, now_isoformat, lift, size_saved.
  unfold mbind, M_bind, bind, mret, M_ret, ret, tick.
  repeat case_match; simplify_eq; cbn [snd s3 ddb]; split; reflexivity.
Qed.

(** Forward rules: what each part returns when its calls do not fail. *)

Lemma s3_get_object_ok bucket key st o :
  s3_fault w (clock st) (GetObject bucket key) = None ->
  s3 st !! (bucket, key) = Some o ->
  s3_get_object w bucket key st = (Ok o, tick st).
Proof. intros Hf Ho. unfold s3_get_object. rewrite Hf, Ho. reflexivity. Qed.

Lemma try_resize_ok image_content original_size new_key ct st
    img ow oh nw nh resized content :
  image_open w image_content = Ok img -> size img = (ow, oh) ->
  resize_dims cfg ow oh = Ok (nw, nh) ->
  image_resize w img (nw, nh) = Ok resized ->
  image_save w resized (img_format img) = Ok content ->
  s3_fault w (clock st)
    (PutObject (RESIZED_BUCKET cfg) new_key content ct) = None ->
  original_size <> 0 ->
  try_resize cfg w image_content original_size new_key ct st
  = (Ok (Z.of_nat (length content), dimensions_dict ow oh nw nh),
     {| s3 := <[(RESIZED_BUCKET cfg, new_key) :=
                 {| Body := content; ContentType := Some ct |}]> (s3 st);
        ddb := ddb st; sns := sns st; clock := S (clock st) |}).
Proof.
  intros Hopen Hsize Hdims Hres Hsave Hput Hnz.
  unfold try_resize, lift, s3_put_object, size_saved.
  unfold mbind, M_bind, bind, mret, M_ret, ret.
  rewrite Hopen, Hsize, Hdims, Hres, Hsave, Hput.
  destruct (Z.eqb_spec original_size 0) as [?|_]; [contradiction|].
  reflexivity.
Qed.

Lemma save_metadata_ok pillow source_bucket object_key new_key
    original_size resized_size ct dimensions st :
  (forall n t i, ddb_fault w n t i = None) ->
  exists image_id st',
    save_metadata cfg w pillow source_bucket object_key new_key original_size
      resized_size ct dimensions st = (Ok image_id, st').
Proof.
  intros Hf. unfold save_metadata, new_uuid4, now_isoformat, table_put_item.
  unfold mbind, M_bind, bind, mret, M_ret, ret. rewrite Hf.
  eexists _, _. reflexivity.
Qed.

Lemma send_notification_ok pillow object_key new_key original_size
    resized_size dimensions image_id st :
  (forall n p, sns_fault w n p = None) ->
  original_size <> 0 ->
  exists st',
    send_notification cfg w pillow object_key new_key original_size
      resized_size dimensions image_id st = (Ok tt, st').
Proof.
  intros Hf Hnz.
  unfold send_notification, sns_publish, now_isoformat, lift, size_saved.
  unfold mbind, M_bind, bind, mret, M_ret, ret.
  destruct (String.eqb (SNS_TOPIC_ARN cfg) ""); [eexists; reflexivity|].
  destruct (Z.eqb_spec original_size 0) as [?|_]; [contradiction|].
  destruct (pillow && negb (bool_decide (dimensions = ∅)));
    rewrite Hf; eexists; reflexivity.
Qed.

Lemma dimensions_dict_nonempty ow oh nw nh :
  bool_decide (dimensions_dict ow oh nw nh = ∅) = false.
Proof.
  apply bool_decide_eq_false. intros E.
  assert (L : dimensions_dict ow oh nw nh !! "original_width" = Some (VInt ow))
    by reflexivity.
  rewrite E, lookup_empty in L. discriminate.
Qed.

End Steps.

(** ** Claims about the handler *)

(** C7: when Pillow is unavailable, every object the loop body processes is
    copied as it is stored (the destination holds the source object, byte for
    byte), and the item written for it has status 'copied', resized_size equal
    to original_size (the length of the source), and none of the four
    dimension keys. *)
Theorem copy_when_pillow_unavailable cfg w record st st' :
  pillow_available w = false ->
  process_record cfg w (pillow_available w) record st = (Ok tt, st') ->
  exists (o : s3_object) (item : gmap string value),
    s3 st !! (bucket_name record, object_key record) = Some o /\
    s3 st' !! (RESIZED_BUCKET cfg, resized_key (object_key record)) = Some o /\
    ddb st' = ddb st ++ [(DYNAMODB_TABLE cfg, item)] /\
    item !! "status" = Some (VStr "copied") /\
    item !! "original_size" = Some (VInt (Z.of_nat (length (Body o)))) /\
    item !! "resized_size" = Some (VInt (Z.of_nat (length (Body o)))) /\
    item !! "original_width" = None /\ item !! "original_height" = None /\
    item !! "resized_width" = None /\ item !! "resized_height" = None.
Proof.
  intros Hp H. rewrite Hp in H. unfold process_record in H.
  apply bind_ok_inv in H as (o & st1 & Hget & H).
  apply s3_get_object_ok_inv in Hget as [Ho ->].
  apply bind_ok_inv in H as (r & st2 & Hcopy & H).
  unfold resize_or_copy in Hcopy.
  apply copy_original_ok_inv in Hcopy as (-> & o' & Ho' & Hs2 & Hd2 & _).
  cbn [tick s3 ddb] in Ho', Hs2, Hd2.
  rewrite Ho in Ho'. injection Ho' as <-.
  apply bind_ok_inv in H as (image_id & st3 & Hsave & H).
  apply save_metadata_ok_inv in Hsave as (item & Hs3 & _ & Hd3 & Hitem & _).
  pose proof (send_notification_frame cfg w false (object_key record)
                (resized_key (object_key record))
                (Z.of_nat (length (Body o))) (Z.of_nat (length (Body o)))
                ∅ image_id st3) as [Fs Fd].
  rewrite H in Fs, Fd. cbn [snd] in Fs, Fd.
  exists o, item. split; [exact Ho|].
  split; [rewrite Fs, Hs3, Hs2; apply lookup_insert_eq|].
  split; [rewrite Fd, Hd3, Hd2; reflexivity|].
  repeat split; (rewrite Hitem by apply lookup_empty); reflexivity.
Qed.

(** C5: an image whose size is within the maxima keeps its size, and when
    Pillow is available and the transform and the service calls succeed, the
    item written has status 'resized' and records that size as both the
    original and the resized dimensions. *)
Theorem within_bounds_kept_and_recorded cfg w record st o img
    width height resized content :
  0 < width < size_bound -> 0 < height ->
  width <= MAX_WIDTH cfg -> height <= MAX_HEIGHT cfg ->
  pillow_available w = true -> no_faults w ->
  s3 st !! (bucket_name record, object_key record) = Some o ->
  Body o <> [] ->
  image_open w (Body o) = Ok img -> size img = (width, height) ->
  image_resize w img (width, height) = Ok resized ->
  image_save w resized (img_format img) = Ok content ->
  resize_dims cfg width height = Ok (width, height) /\
  exists st' (item : gmap string value),
    process_record cfg w (pillow_available w) record st = (Ok tt, st') /\
    ddb st' = ddb st ++ [(DYNAMODB_TABLE cfg, item)] /\
    item !! "status" = Some (VStr "resized") /\
    item !! "original_width" = Some (VInt width) /\
    item !! "original_height" = Some (VInt height) /\
    item !! "resized_width" = Some (VInt width) /\
    item !! "resized_height" = Some (VInt height).
Proof.
  intros Hw Hh Lw Lh Hp (Fs3 & Fddb & Fsns) Ho Hne Hopen Hsize Hres Hsave.
  pose proof (resize_dims_within cfg width height Hw Hh Lw Lh) as Hdims.
  split; [exact Hdims|].
  assert (Hnz : Z.of_nat (length (Body o)) <> 0).
  { destruct (Body o); [contradiction|]. cbn [length]. lia. }
  rewrite Hp. unfold process_record.
  erewrite bind_ok by (apply s3_get_object_ok; [apply Fs3|exact Ho]).
  erewrite bind_ok.
  2:{ unfold resize_or_copy, try_except.
      erewrite try_resize_ok by (try eassumption; apply Fs3). reflexivity. }
  cbv beta iota.
  match goal with
  | |- context [save_metadata ?c ?w ?p ?a1 ?a2 ?a3 ?a4 ?a5 ?a6 ?a7 ≫= _] =>
      destruct (save_metadata_ok c w p a1 a2 a3 a4 a5 a6 a7
                  {| s3 := <[(RESIZED_BUCKET cfg,
                              resized_key (object_key record)) :=
                              {| Body := content;
                                 ContentType :=
                                   Some (default "image/jpeg" (ContentType o)) |}]>
                             (s3 (tick st));
                     ddb := ddb (tick st); sns := sns (tick st);
                     clock := S (clock (tick st)) |} Fddb)
        as (image_id & st3 & Hsavem)
  end.
  erewrite bind_ok by exact Hsavem.
  match goal with
  | |- context [send_notification ?c ?w ?p ?a1 ?a2 ?a3 ?a4 ?a5 ?a6 st3] =>
      destruct (send_notification_ok c w p a1 a2 a3 a4 a5 a6 st3 Fsns Hnz)
        as (st' & Hsend);
      pose proof (send_notification_frame c w p a1 a2 a3 a4 a5 a6 st3)
        as [_ Fd]
  end.
  rewrite Hsend in Fd. cbn [snd] in Fd.
  apply save_metadata_ok_inv in Hsavem as (item & _ & _ & Hd3 & Hnone & Hsome).
  exists st', item. split; [exact Hsend|].
  split; [rewrite Fd, Hd3; reflexivity|].
  split; [rewrite Hnone by reflexivity; reflexivity|].
  repeat split; apply Hsome; reflexivity.
Qed.

Lemma copy_when_pillow_unavailable_witness :
  let w := Scenario.no_pillow in
  let record := Scenario.record_of "a/photo.jpg" in
  let st' := snd (process_record Scenario.cfg w (pillow_available w) record
                    Scenario.st0) in
  exists (o : s3_object) (item : gmap string value),
    s3 Scenario.st0 !! (bucket_name record, object_key record) = Some o /\
    s3 st' !! (RESIZED_BUCKET Scenario.cfg, resized_key (object_key record))
      = Some o /\
    ddb st' = ddb Scenario.st0 ++ [(DYNAMODB_TABLE Scenario.cfg, item)] /\
    item !! "status" = Some (VStr "copied") /\
    item !! "original_size" = Some (VInt (Z.of_nat (length (Body o)))) /\
    item !! "resized_size" = Some (VInt (Z.of_nat (length (Body o)))) /\
    item !! "original_width" = None /\ item !! "original_height" = None /\
    item !! "resized_width" = None /\ item !! "resized_height" = None.
Proof.
  intros w record st'.
  apply (copy_when_pillow_unavailable Scenario.cfg w record Scenario.st0 st').
  - reflexivity.
  - vm_compute. reflexivity.
Defined.

Lemma within_bounds_kept_and_recorded_witness :
  let w := Scenario.with_pillow (400, 300) in
  let record := Scenario.record_of "a/photo.jpg" in
  resize_dims Scenario.cfg 400 300 = Ok (400, 300) /\
  exists st' (item : gmap string value),
    process_record Scenario.cfg w (pillow_available w) record Scenario.st0
      = (Ok tt, st') /\
    ddb st' = ddb Scenario.st0 ++ [(DYNAMODB_TABLE Scenario.cfg, item)] /\
    item !! "status" = Some (VStr "resized") /\
    item !! "original_width" = Some (VInt 400) /\
    item !! "original_height" = Some (VInt 300) /\
    item !! "resized_width" = Some (VInt 400) /\
    item !! "resized_height" = Some (VInt 300).
Proof.
  intros w record.
  apply (within_bounds_kept_and_recorded Scenario.cfg w record Scenario.st0
           Scenario.photo {| size := (400, 300); format := Some "JPEG" |}
           400 300 {| size := (400, 300); format := None |} [x2a; x2b]).
  - split; reflexivity.
  - reflexivity.
  - discriminate.
  - discriminate.
  - reflexivity.
  - repeat split; intros; reflexivity.
  - vm_compute. reflexivity.
  - discriminate.
  - reflexivity.
  - reflexivity.
  - reflexivity.
  - reflexivity.
Defined.

(** Splits conjunctions only: an equation between runs of the handler is left
    to [vm_compute]. *)
Ltac split_all := repeat match goal with |- _ /\ _ => split end.

(** C1 at the input where the code departs from it: Pillow is available and
    cannot identify the stored bytes.  The handler falls back to the copy,
    returns its normal result and publishes only the success notification;
    the one item written has resized_size = original_size and no dimension
    key, but its status is 'resized', since line 137 looks at
    [pillow_available] alone. *)
Theorem fallback_item_has_status_resized :
  let w := Scenario.unreadable in
  let run := lambda_handler Scenario.cfg w Scenario.photo_event Scenario.st0 in
  pillow_available w = true /\
  (exists e, image_open w (Body Scenario.photo) = Raise e) /\
  (exists r, fst run = Ok r /\ statusCode r = 200) /\
  s3 (snd run) !! ("image-resized", "a/photo_resized.jpg")
    = Some Scenario.photo /\
  map Subject (sns (snd run)) = [complete_subject] /\
  map fst (ddb (snd run)) = ["ImageMetadata"] /\
  written (snd run) 0 "status" = Some (VStr "resized") /\
  written (snd run) 0 "original_size" = Some (VInt 3) /\
  written (snd run) 0 "resized_size" = Some (VInt 3) /\
  written (snd run) 0 "original_width" = None /\
  written (snd run) 0 "original_height" = None /\
  written (snd run) 0 "resized_width" = None /\
  written (snd run) 0 "resized_height" = None.
Proof.
  intros w run.
  split; [reflexivity|]. split; [eexists; reflexivity|].
  split; [eexists; split; vm_compute; reflexivity|].
  split_all; vm_compute; reflexivity.
Qed.

(** C2 at the input where the code departs from it: Pillow is available and
    the image is 1000x1, so the computed size is 800x0 and the resize raises.
    The one item written, after the fallback copy, has status 'resized' and
    none of the four dimension keys. *)
Theorem status_resized_without_dimensions :
  let w := Scenario.with_pillow (1000, 1) in
  let run := lambda_handler Scenario.cfg w Scenario.photo_event Scenario.st0 in
  resize_dims Scenario.cfg 1000 1 = Ok (800, 0) /\
  (exists img e, image_open w (Body Scenario.photo) = Ok img /\
                 image_resize w img (800, 0) = Raise e) /\
  map fst (ddb (snd run)) = ["ImageMetadata"] /\
  written (snd run) 0 "status" = Some (VStr "resized") /\
  written (snd run) 0 "original_width" = None /\
  written (snd run) 0 "original_height" = None /\
  written (snd run) 0 "resized_width" = None /\
  written (snd run) 0 "resized_height" = None.
Proof.
  intros w run.
  split; [vm_compute; reflexivity|].
  split; [eexists _, _; split; vm_compute; reflexivity|].
  split_all; vm_compute; reflexivity.
Qed.

(** C8 at the input where the code departs from it: the object is copied and
    its item written, then the publish of the success notification fails.
    That error is not swallowed: it reaches the outer handler and is raised
    to the platform.  The publish of the failure path is guarded: when the
    object is missing and the publish fails too, the error raised is the
    storage error. *)
Theorem success_publish_error_escalates :
  let w := Scenario.sns_down in
  let run := lambda_handler Scenario.cfg w Scenario.photo_event Scenario.st0 in
  let lost := lambda_handler Scenario.cfg w
                [Scenario.record_of "a/missing.jpg"] Scenario.st0 in
  s3 (snd run) !! ("image-resized", "a/photo_resized.jpg")
    = Some Scenario.photo /\
  map fst (ddb (snd run)) = ["ImageMetadata"] /\
  written (snd run) 0 "status" = Some (VStr "copied") /\
  fst run = Raise (ClientError "AuthorizationError on Publish") /\
  fst lost = Raise no_such_key.
Proof.
  intros w run lost.
  split_all; vm_compute; reflexivity.
Qed.

(** ** The batch *)

Section Batch.

Variable cfg : config.
Variable w : world.

Lemma for_each_stops f before record after st st1 st2 e :
  for_each f before st = (Ok tt, st1) ->
  f record st1 = (Raise e, st2) ->
  for_each f (before ++ record :: after) st = (Raise e, st2).
Proof.
  revert st. induction before as [|r before IH]; intros st Hb Hr.
  - injection Hb as <-. cbn [app for_each]. apply bind_raise. exact Hr.
  - cbn [app for_each] in *.
    unfold mbind, M_bind, bind in Hb |- *.
    destruct (f r st) as [[[]|e'] st'] eqn:E; [|discriminate].
    apply IH; assumption.
Qed.

(** The outer [except] raises the error it was given and touches neither the
    buckets nor the table; it publishes at most the failure notification. *)
Lemma report_and_reraise_spec {A} e st :
  exists st',
    report_and_reraise cfg w (A := A) e st = (Raise e, st') /\
    s3 st' = s3 st /\ ddb st' = ddb st /\
    (sns st' = sns st \/
     exists time,
       sns st' = sns st ++ [{| TopicArn := SNS_TOPIC_ARN cfg;
                               Subject := failed_subject;
                               Message := MsgError (str e) time |}]).
Proof.
  unfold report_and_reraise, try_except, raise, sns_publish, now_isoformat.
  unfold mbind, M_bind, bind, mret, M_ret, ret, tick. cbn [clock s3 ddb sns].
  destruct (String.eqb (SNS_TOPIC_ARN cfg) "").
  - eexists. split; [reflexivity|]. cbn [s3 ddb sns]. auto.
  - destruct (sns_fault w _ _).
    + eexists. split; [reflexivity|]. cbn [s3 ddb sns]. auto.
    + eexists. split; [reflexivity|]. cbn [s3 ddb sns].
      split; [reflexivity|]. split; [reflexivity|]. right. eexists. reflexivity.
Qed.

End Batch.

(** C9 as stated fails: in a batch of a missing object followed by a stored
    one, the read error of the first ends the invocation.  The second object
    is neither copied nor recorded nor notified, although alone it is
    processed without error. *)
Lemma later_record_not_processed :
  let w := Scenario.no_pillow in
  let run := lambda_handler Scenario.cfg w Scenario.missing_then_photo
               Scenario.st0 in
  let alone := lambda_handler Scenario.cfg w Scenario.photo_event
                 Scenario.st0 in
  fst run = Raise no_such_key /\
  s3 (snd run) !! ("image-resized", "a/photo_resized.jpg") = None /\
  map fst (ddb (snd run)) = [] /\
  map Subject (sns (snd run)) = [failed_subject] /\
  (exists r, fst alone = Ok r) /\
  s3 (snd alone) !! ("image-resized", "a/photo_resized.jpg")
    = Some Scenario.photo /\
  map fst (ddb (snd alone)) = ["ImageMetadata"] /\
  map Subject (sns (snd alone)) = [complete_subject].
Proof.
  intros w run alone.
  split; [vm_compute; reflexivity|]. split; [vm_compute; reflexivity|].
  split; [vm_compute; reflexivity|]. split; [vm_compute; reflexivity|].
  split; [eexists; vm_compute; reflexivity|].
  split_all; vm_compute; reflexivity.
Qed.

(** C9, amended: a fatal error while processing one object of a batch ends
    the invocation.  The records before it stay processed; the handler makes
    at most one attempt to publish the failure notification and raises the
    error again; no later record of the batch is stored, recorded or
    notified: the buckets and the table are left as they were when the error
    occurred. *)
Theorem fatal_error_aborts_batch cfg w before record after st st1 st2 e :
  for_each (process_record cfg w (pillow_available w)) before st
    = (Ok tt, st1) ->
  process_record cfg w (pillow_available w) record st1 = (Raise e, st2) ->
  exists st3,
    lambda_handler cfg w (before ++ record :: after) st = (Raise e, st3) /\
    s3 st3 = s3 st2 /\ ddb st3 = ddb st2 /\
    (sns st3 = sns st2 \/
     exists time,
       sns st3 = sns st2 ++ [{| TopicArn := SNS_TOPIC_ARN cfg;
                                Subject := failed_subject;
                                Message := MsgError (str e) time |}]).
Proof.
  intros Hb Hr.
  pose proof (for_each_stops _ before record after st st1 st2 e Hb Hr) as H.
  unfold lambda_handler, try_except.
  erewrite bind_raise by exact H.
  apply report_and_reraise_spec.
Qed.

Lemma fatal_error_aborts_batch_witness :
  let w := Scenario.no_pillow in
  let missing := Scenario.record_of "a/missing.jpg" in
  let st2 := snd (process_record Scenario.cfg w (pillow_available w) missing
                    Scenario.st0) in
  exists st3,
    lambda_handler Scenario.cfg w
      ([] ++ missing :: [Scenario.record_of "a/photo.jpg"]) Scenario.st0
      = (Raise no_such_key, st3) /\
    s3 st3 = s3 st2 /\ ddb st3 = ddb st2 /\
    (sns st3 = sns st2 \/
     exists time,
       sns st3 = sns st2 ++ [{| TopicArn := SNS_TOPIC_ARN Scenario.cfg;
                                Subject := failed_subject;
                                Message := MsgError (str no_such_key) time |}]).
Proof.
  intros w missing st2.
  apply (fatal_error_aborts_batch Scenario.cfg w [] missing
           [Scenario.record_of "a/photo.jpg"] Scenario.st0 Scenario.st0 st2
           no_such_key).
  - reflexivity.
  - vm_compute. reflexivity.
Defined.

(** ** What the item says about the transform *)

Section Items.

Variable cfg : config.
Variable w : world.

Lemma try_resize_ok_inv image_content original_size new_key ct st r st' :
  try_resize cfg w image_content original_size new_key ct st = (Ok r, st') ->
  ddb st' = ddb st /\
  exists ow oh nw nh (content : list byte),
    r = (Z.of_nat (length content), dimensions_dict ow oh nw nh).
Proof.
  unfold try_resize, lift, s3_put_object, size_saved.
  unfold mbind, M_bind, bind, mret, M_ret, ret.
  destruct (image_open w image_content) as [img|]; [|discriminate].
  destruct (size img) as [ow oh].
  destruct (resize_dims cfg ow oh) as [[nw nh]|]; [|discriminate].
  destruct (image_resize w img (nw, nh)) as [resized|]; [|discriminate].
  destruct (image_save w resized (img_format img)) as [content|];
    [|discriminate].
  destruct (s3_fault w _ _); [discriminate|].
  destruct (original_size =? 0); [discriminate|].
  intros [= <- <-]. split; [reflexivity|].
  exists ow, oh, nw, nh, content. reflexivity.
Qed.

Lemma try_resize_ddb image_content original_size new_key ct st :
  ddb (snd (try_resize cfg w image_content original_size new_key ct st))
  = ddb st.
Proof.
  unfold try_resize, lift, s3_put_object, size_saved.
  unfold mbind, M_bind, bind, mret, M_ret, ret, tick.
  repeat case_match; simplify_eq; reflexivity.
Qed.

(** The transform leaves the table alone and returns either no dimensions
    (a copy) or, only with Pillow, the four of them. *)
Lemma resize_or_copy_ok_inv pillow source_bucket object_key image_content
    original_size new_key ct st rs (dims : gmap string value) st' :
  resize_or_copy cfg w pillow source_bucket object_key image_content
    original_size new_key ct st = (Ok (rs, dims), st') ->
  ddb st' = ddb st /\
  (dims = ∅ \/
   pillow = true /\ exists ow oh nw nh, dims = dimensions_dict ow oh nw nh).
Proof.
  unfold resize_or_copy, try_except. destruct pillow.
  - pose proof (try_resize_ddb image_content original_size new_key ct st) as D.
    destruct (try_resize cfg w image_content original_size new_key ct st)
      as [[r|e] st1] eqn:E; cbn [snd] in D.
    + intros [= -> <-].
      apply try_resize_ok_inv in E as (_ & ow & oh & nw & nh & c & [= _ ->]).
      split; [exact D|]. right. split; [reflexivity|]. eauto.
    + intros H. apply copy_original_ok_inv in H as ([= _ ->] & o & _ & _ & Hd & _).
      split; [congruence|]. left. reflexivity.
  - intros H. apply copy_original_ok_inv in H as ([= _ ->] & o & _ & _ & Hd & _).
    split; [exact Hd|]. left. reflexivity.
Qed.

(** The item of a processed record, for either outcome of the transform. *)
Lemma process_record_item pillow record st st' :
  process_record cfg w pillow record st = (Ok tt, st') ->
  exists (item dims : gmap string value),
    ddb st' = ddb st ++ [(DYNAMODB_TABLE cfg, item)] /\
    item !! "status" = Some (VStr (if pillow then "resized" else "copied")) /\
    (dims = ∅ \/
     pillow = true /\ exists ow oh nw nh, dims = dimensions_dict ow oh nw nh) /\
    (forall k, k ∈ ["original_width"; "original_height";
                     "resized_width"; "resized_height"] ->
       item !! k = dims !! k).
Proof.
  intros H. unfold process_record in H.
  apply bind_ok_inv in H as (o & st1 & Hget & H).
  apply s3_get_object_ok_inv in Hget as [_ ->].
  apply bind_ok_inv in H as ([rs dims] & st2 & Htr & H).
  apply resize_or_copy_ok_inv in Htr as [Hd2 Hdims].
  apply bind_ok_inv in H as (image_id & st3 & Hsave & H).
  apply save_metadata_ok_inv in Hsave as (item & _ & _ & Hd3 & Hnone & Hsome).
  match type of H with
  | send_notification ?c ?w ?p ?a1 ?a2 ?a3 ?a4 ?a5 ?a6 st3 = _ =>
      pose proof (send_notification_frame c w p a1 a2 a3 a4 a5 a6 st3) as [_ Fd]
  end.
  rewrite H in Fd. cbn [snd] in Fd.
  exists item, dims. split; [rewrite Fd, Hd3, Hd2; reflexivity|].
  split.
  { rewrite Hnone; [reflexivity|].
    destruct Hdims as [->|(_ & ow & oh & nw & nh & ->)]; reflexivity. }
  split; [exact Hdims|].
  intros k Hk. destruct (dims !! k) as [v|] eqn:E.
  - apply Hsome. exact E.
  - rewrite Hnone by exact E.
    repeat (apply elem_of_cons in Hk as [->|Hk]; [reflexivity|]).
    apply elem_of_nil in Hk. contradiction.
Qed.

End Items.

(** Line 137, for every record the loop body processes: the status of the
    item follows [pillow_available] alone, whether the resize succeeded or
    the fallback copy ran. *)
Theorem status_follows_pillow_alone cfg w pillow record st st' :
  process_record cfg w pillow record st = (Ok tt, st') ->
  exists item : gmap string value,
    ddb st' = ddb st ++ [(DYNAMODB_TABLE cfg, item)] /\
    item !! "status" = Some (VStr (if pillow then "resized" else "copied")).
Proof.
  intros H.
  destruct (process_record_item cfg w pillow record st st' H)
    as (item & dims & Hd & Hs & _).
  exists item. split; assumption.
Qed.

Lemma status_follows_pillow_alone_witness :
  let w := Scenario.unreadable in
  let record := Scenario.record_of "a/photo.jpg" in
  let st' := snd (process_record Scenario.cfg w true record Scenario.st0) in
  exists item : gmap string value,
    ddb st' = ddb Scenario.st0 ++ [(DYNAMODB_TABLE Scenario.cfg, item)] /\
    item !! "status" = Some (VStr "resized").
Proof.
  intros w record st'.
  apply (status_follows_pillow_alone Scenario.cfg w true record Scenario.st0
           st').
  vm_compute. reflexivity.
Defined.

(** Lines 93-98, 110, 120 and 142-143, for every record the loop body
    processes: the four dimension keys are in the item together or not at
    all, and when they are there the status is 'resized'. *)
Theorem dimensions_imply_resized cfg w pillow record st st' :
  process_record cfg w pillow record st = (Ok tt, st') ->
  exists item : gmap string value,
    ddb st' = ddb st ++ [(DYNAMODB_TABLE cfg, item)] /\
    (item !! "original_width" = None /\ item !! "original_height" = None /\
     item !! "resized_width" = None /\ item !! "resized_height" = None \/
     item !! "status" = Some (VStr "resized") /\
     exists ow oh nw nh,
       item !! "original_width" = Some (VInt ow) /\
       item !! "original_height" = Some (VInt oh) /\
       item !! "resized_width" = Some (VInt nw) /\
       item !! "resized_height" = Some (VInt nh)).
Proof.
  intros H.
  destruct (process_record_item cfg w pillow record st st' H)
    as (item & dims & Hd & Hs & Hdims & Hk).
  exists item. split; [exact Hd|].
  assert (K1 := Hk "original_width"). assert (K2 := Hk "original_height").
  assert (K3 := Hk "resized_width"). assert (K4 := Hk "resized_height").
  rewrite K1, K2, K3, K4 by (repeat constructor).
  destruct Hdims as [->|(-> & ow & oh & nw & nh & ->)].
  - left. repeat split; apply lookup_empty.
  - right. split; [exact Hs|]. exists ow, oh, nw, nh. repeat split; reflexivity.
Qed.

Lemma dimensions_imply_resized_witness :
  let w := Scenario.with_pillow (1600, 1200) in
  let record := Scenario.record_of "a/photo.jpg" in
  let st' := snd (process_record Scenario.cfg w true record Scenario.st0) in
  exists item : gmap string value,
    ddb st' = ddb Scenario.st0 ++ [(DYNAMODB_TABLE Scenario.cfg, item)] /\
    (item !! "original_width" = None /\ item !! "original_height" = None /\
     item !! "resized_width" = None /\ item !! "resized_height" = None \/
     item !! "status" = Some (VStr "resized") /\
     exists ow oh nw nh,
       item !! "original_width" = Some (VInt ow) /\
       item !! "original_height" = Some (VInt oh) /\
       item !! "resized_width" = Some (VInt nw) /\
       item !! "resized_height" = Some (VInt nh)).
Proof.
  intros w record st'.
  apply (dimensions_imply_resized Scenario.cfg w true record Scenario.st0 st').
  vm_compute. reflexivity.
Defined.

(** ** How far the doubles are from the exact rule *)

(** A mantissa of 53 or more digits, rounded: the result is a normal double
    whose mantissa is the truncated one or its successor. *)
Lemma binary_round_aux_enclosure sx mx ex lx :
  0 <= mx -> -1074 <= ex <= 970 -> Zdigits2 mx + ex <= 1023 ->
  53 <= Zdigits2 mx ->
  exists m e,
    binary_round_aux 53 1024 sx mx ex lx = S754_finite sx m e /\
    ex <= e <= ex + Zdigits2 mx - 52 /\ 2 ^ 52 <= Zpos m < 2 ^ 53 /\
    mx / 2 ^ (e - ex) <= Zpos m <= mx / 2 ^ (e - ex) + 1.
Proof.
  intros Hmx Hex Hd H53.
  unfold binary_round_aux, shr_fexp.
  set (n1 := fexp 53 1024 (Zdigits2 mx + ex) - ex).
  assert (Hn1 : n1 = Zdigits2 mx - 53) by (unfold n1, fexp, emin; lia).
  destruct (shr (shr_record_of_loc mx lx) ex n1) as [r1 e1] eqn:E1.
  destruct (shr_m_shr (shr_record_of_loc mx lx) ex n1) as [M1 X1].
  { rewrite shr_m_of_loc. exact Hmx. }
  rewrite E1 in M1, X1. cbn [fst snd] in M1, X1. rewrite shr_m_of_loc in M1.
  pose proof (Zdigits2_upper mx Hmx) as Dup.
  pose proof (Zdigits2_lower mx) as Dlo.
  assert (Hpos : 0 < mx).
  { destruct (Z.eq_dec mx 0) as [->|]; [simpl in H53; lia|lia]. }
  specialize (Dlo Hpos).
  assert (P1 : 0 < 2 ^ n1) by (apply Z.pow_pos_nonneg; lia).
  assert (F1 : shr_m r1 = mx / 2 ^ n1 /\ e1 = ex + n1).
  { destruct (0 <? n1) eqn:P; [auto|].
    apply Z.ltb_ge in P. assert (n1 = 0) by lia.
    replace n1 with 0 by lia. rewrite Z.div_1_r. split; [exact M1|lia]. }
  destruct F1 as [F1 F1e]. clear M1 X1.
  assert (B1 : 2 ^ 52 <= shr_m r1 < 2 ^ 53).
  { rewrite F1. split.
    - apply Z.div_le_lower_bound; [lia|].
      rewrite <- Z.pow_add_r by lia.
      replace (n1 + 52) with (Zdigits2 mx - 1) by lia. exact Dlo.
    - apply Z.div_lt_upper_bound; [lia|].
      rewrite <- Z.pow_add_r by lia.
      replace (n1 + 53) with (Zdigits2 mx) by lia. exact Dup. }
  set (m2 := round_nearest_even (shr_m r1) (loc_of_shr_record r1)).
  pose proof (round_nearest_even_bounds (shr_m r1) (loc_of_shr_record r1)) as B2.
  fold m2 in B2.
  set (n2 := fexp 53 1024 (Zdigits2 m2 + e1) - e1).
  destruct (shr (shr_record_of_loc m2 loc_Exact) e1 n2) as [r2 e2] eqn:E2.
  destruct (shr_m_shr (shr_record_of_loc m2 loc_Exact) e1 n2) as [M2 X2].
  { rewrite shr_m_of_loc. lia. }
  rewrite E2 in M2, X2. cbn [fst snd] in M2, X2. rewrite shr_m_of_loc in M2.
  assert (D2lo : 53 <= Zdigits2 m2).
  { change 53 with (Zdigits2 (2 ^ 52)). apply Zdigits2_mono. lia. }
  assert (D2hi : Zdigits2 m2 <= 54).
  { apply Zdigits2_le_of_lt; [lia|lia|]. change (2 ^ 54) with (2 * 2 ^ 53). lia. }
  unfold fexp, emin in n2.
  destruct (Z.eq_dec m2 (2 ^ 53)) as [Top|NotTop].
  - (* the carry: one more shift *)
    assert (Zdigits2 m2 = 54) by (rewrite Top; reflexivity).
    assert (n2 = 1) by lia.
    replace (0 <? n2) with true in M2, X2 by (symmetry; apply Z.ltb_lt; lia).
    assert (Hr2 : shr_m r2 = 2 ^ 52).
    { rewrite M2, Top. replace n2 with 1 by lia. reflexivity. }
    rewrite Hr2. change (2 ^ 52) with (Z.pos 4503599627370496).
    replace (e2 <=? 1024 - 53) with true by (symmetry; apply Z.leb_le; lia).
    exists 4503599627370496%positive, e2. split; [reflexivity|].
    split; [lia|]. split; [lia|].
    replace (e2 - ex) with (n1 + 1) by lia.
    rewrite Z.pow_add_r, <- Z.div_div by lia. rewrite <- F1.
    assert (shr_m r1 = 2 ^ 53 - 1) by lia.
    replace (shr_m r1) with (2 ^ 53 - 1) by lia.
    change ((2 ^ 53 - 1) / 2 ^ 1) with (2 ^ 52 - 1). lia.
  - assert (m2 < 2 ^ 53) by lia.
    assert (Zdigits2 m2 = 53).
    { assert (Zdigits2 m2 <= 53) by (apply Zdigits2_le_of_lt; lia). lia. }
    replace (0 <? n2) with false in M2, X2 by (symmetry; apply Z.ltb_ge; lia).
    rewrite M2. destruct m2 as [|m|m] eqn:Em; try lia.
    replace (e2 <=? 1024 - 53) with true by (symmetry; apply Z.leb_le; lia).
    exists m, e2. split; [reflexivity|].
    split; [lia|]. split; [lia|].
    replace (e2 - ex) with n1 by lia. rewrite <- F1. lia.
Qed.

Lemma Zdigits2_ge m k : 0 <= m -> 2 ^ (k - 1) <= m -> k <= Zdigits2 m.
Proof.
  intros Hm H. pose proof (Zdigits2_upper m Hm) as U.
  pose proof (Zdigits2_nonneg m) as N.
  destruct (Z_le_gt_dec k (Zdigits2 m)) as [?|G]; [assumption|exfalso].
  assert (2 ^ Zdigits2 m <= 2 ^ (k - 1)) by (apply Z.pow_le_mono_r; lia).
  lia.
Qed.

(** The quotient of two doubles in the normal range: a normal double whose
    mantissa encloses the exact quotient within one unit. *)
Lemma SFdiv_enclosure m1 e1 m2 e2 :
  let d1 := Zpos (digits2_pos m1) in
  let d2 := Zpos (digits2_pos m2) in
  d1 <= d2 + 51 ->
  -1074 <= d1 + e1 - d2 - e2 - 53 <= 969 ->
  exists m e,
    SFdiv 53 1024 (S754_finite false m1 e1) (S754_finite false m2 e2)
      = S754_finite false m e /\
    e <= e1 - e2 /\ 2 ^ 52 <= Zpos m < 2 ^ 53 /\
    Zpos m2 * (Zpos m - 1) <= Zpos m1 * 2 ^ (e1 - e2 - e)
      < Zpos m2 * (Zpos m + 1).
Proof.
  intros d1 d2 Hd HE. cbn [SFdiv xorb]. unfold SFdiv_core_binary.
  cbn [Zdigits2]. fold d1 d2.
  set (E := d1 + e1 - d2 - e2 - 53) in *.
  replace (Z.min (fexp 53 1024 (d1 + e1 - (d2 + e2))) (e1 - e2)) with E
    by (unfold fexp, emin, E; lia).
  set (s := e1 - e2 - E).
  assert (Hs : s = 53 + d2 - d1) by (unfold s, E; lia).
  assert (Hm' : match s with
                | 0 => Z.pos m1
                | Z.pos _ => Z.shiftl (Z.pos m1) s
                | Z.neg _ => 0
                end = Zpos m1 * 2 ^ s).
  { destruct s as [|p|p] eqn:Es; try lia. apply Z.shiftl_mul_pow2. lia. }
  rewrite Hm'. clear Hm'.
  destruct (Z.div_eucl (Zpos m1 * 2 ^ s) (Zpos m2)) as [q r] eqn:Eqn.
  assert (Hq : q = (Zpos m1 * 2 ^ s) / Zpos m2)
    by (unfold Z.div; rewrite Eqn; reflexivity).
  pose proof (Zdigits2_upper (Zpos m1) ltac:(lia)) as U1.
  pose proof (Zdigits2_lower (Zpos m1) ltac:(lia)) as L1.
  pose proof (Zdigits2_upper (Zpos m2) ltac:(lia)) as U2.
  pose proof (Zdigits2_lower (Zpos m2) ltac:(lia)) as L2.
  cbn [Zdigits2] in U1, L1, U2, L2. fold d1 in U1, L1. fold d2 in U2, L2.
  assert (Ps : 0 < 2 ^ s) by (apply Z.pow_pos_nonneg; lia).
  assert (Hd2 : 1 <= d2) by (unfold d2; lia).
  assert (Hd1 : 1 <= d1) by (unfold d1; lia).
  assert (Pd2 : 0 < 2 ^ (d2 - 1)) by (apply Z.pow_pos_nonneg; lia).
  assert (Qlo : 2 ^ 52 <= q).
  { rewrite Hq. apply Z.div_le_lower_bound; [lia|].
    assert (2 ^ 52 * 2 ^ d2 <= 2 ^ (d1 - 1) * 2 ^ s).
    { rewrite <- !Z.pow_add_r by lia. apply Z.pow_le_mono_r; lia. }
    nia. }
  assert (Qhi : q < 2 ^ 54).
  { rewrite Hq. apply Z.div_lt_upper_bound; [lia|].
    assert (2 ^ d1 * 2 ^ s <= 2 ^ (d2 - 1) * 2 ^ 54).
    { rewrite <- !Z.pow_add_r by lia. apply Z.pow_le_mono_r; lia. }
    nia. }
  assert (Dq : 53 <= Zdigits2 q <= 54).
  { split.
    - apply Zdigits2_ge; [lia|]. exact Qlo.
    - apply Zdigits2_le_of_lt; lia. }
  destruct (binary_round_aux_enclosure false q E (new_location (Z.pos m2) r))
    as (m & e & Hr & He & Hm & Hencl); try lia.
  exists m, e. split; [exact Hr|]. split; [lia|]. split; [exact Hm|].
  set (k := e - E) in *.
  assert (Hk : 0 <= k <= 2) by lia.
  assert (Pk : 0 < 2 ^ k) by (apply Z.pow_pos_nonneg; lia).
  replace (e1 - e2 - e) with (s - k) by (unfold s, k; lia).
  assert (Hsplit : 2 ^ s = 2 ^ (s - k) * 2 ^ k).
  { rewrite <- Z.pow_add_r by lia. f_equal. lia. }
  assert (Hqk : q / 2 ^ k = (Zpos m1 * 2 ^ (s - k)) / Zpos m2).
  { rewrite Hq, Z.div_div by lia. rewrite Hsplit.
    replace (Z.pos m1 * (2 ^ (s - k) * 2 ^ k))
      with (Z.pos m1 * 2 ^ (s - k) * 2 ^ k) by ring.
    apply Z.div_mul_cancel_r; lia. }
  rewrite Hqk in Hencl.
  set (T := Zpos m1 * 2 ^ (s - k)) in *.
  pose proof (Z.mul_div_le T (Zpos m2) ltac:(lia)).
  pose proof (Z.mul_succ_div_gt T (Zpos m2) ltac:(lia)).
  nia.
Qed.

Lemma binary_round_aux_exact sx m e :
  Zpos (digits2_pos m) = 53 -> -1074 <= e <= 971 ->
  binary_round_aux 53 1024 sx (Zpos m) e loc_Exact = S754_finite sx m e.
Proof.
  intros Hd He. unfold binary_round_aux, shr_fexp. cbn [Zdigits2].
  rewrite Hd.
  replace (fexp 53 1024 (53 + e) - e) with 0 by (unfold fexp, emin; lia).
  cbn [shr shr_record_of_loc shr_m loc_of_shr_record round_nearest_even Zdigits2].
  rewrite Hd.
  replace (fexp 53 1024 (53 + e) - e) with 0 by (unfold fexp, emin; lia).
  cbn [shr shr_record_of_loc shr_m].
  replace (e <=? 1024 - 53) with true by (symmetry; apply Z.leb_le; lia).
  reflexivity.
Qed.

(** An int below 2^53 converts without rounding. *)
Lemma float_of_int_exact n :
  0 < n < 2 ^ 53 ->
  exists m e,
    Py.float_of_int n = Ok (S754_finite false m e) /\
    Zpos (digits2_pos m) = 53 /\ -52 <= e <= 0 /\
    Zpos m = n * 2 ^ (- e).
Proof.
  intros Hn. destruct n as [|p|p]; try lia.
  unfold Py.float_of_int, Py.prec, Py.emax. cbn [binary_normalize].
  unfold binary_round, shl_align.
  pose proof (Zdigits2_nonneg (Zpos p)) as N.
  assert (D : 1 <= Zpos (digits2_pos p) <= 53).
  { split; [lia|]. change (Zdigits2 (Zpos p) <= 53).
    apply Zdigits2_le_of_lt; lia. }
  set (d := Zpos (digits2_pos p)) in *.
  replace (fexp 53 1024 (d + 0) - 0) with (d - 53) by (unfold fexp, emin; lia).
  destruct (d - 53) as [|k|k] eqn:Ek; try lia.
  - replace (fexp 53 1024 (d + 0)) with 0 by (unfold fexp, emin; lia).
    rewrite binary_round_aux_exact by (fold d; lia).
    exists p, 0. split; [reflexivity|]. split; [fold d; lia|].
    split; [lia|]. simpl. lia.
  - replace (fexp 53 1024 (d + 0)) with (d - 53) by (unfold fexp, emin; lia).
    assert (Hiter : Zpos (Pos.iter xO p k) = Zpos p * 2 ^ Zpos k)
      by apply pos_iter_xO.
    assert (Hdig : Zpos (digits2_pos (Pos.iter xO p k)) = 53).
    { change (Zdigits2 (Zpos (Pos.iter xO p k)) = 53). rewrite Hiter.
      pose proof (Zdigits2_upper (Zpos p) ltac:(lia)) as U.
      pose proof (Zdigits2_lower (Zpos p) ltac:(lia)) as L.
      cbn [Zdigits2] in U, L. fold d in U, L.
      assert (Pk : 0 < 2 ^ Zpos k) by (apply Z.pow_pos_nonneg; lia).
      apply Z.le_antisymm.
      - apply Zdigits2_le_of_lt; [nia|lia|].
        replace 53 with (d + Zpos k) by lia. rewrite Z.pow_add_r by lia. nia.
      - apply Zdigits2_ge; [nia|].
        replace (53 - 1) with ((d - 1) + Zpos k) by lia.
        rewrite Z.pow_add_r by lia. nia. }
    rewrite binary_round_aux_exact by (try exact Hdig; lia).
    eexists _, _. split; [reflexivity|]. split; [exact Hdig|].
    split; [lia|]. rewrite Hiter. f_equal. f_equal. lia.
Qed.

(** The product of two normal doubles: a normal double whose mantissa
    encloses the exact product within one unit. *)
Lemma SFmul_enclosure m1 e1 m2 e2 :
  2 ^ 52 <= Zpos m1 < 2 ^ 53 -> 2 ^ 52 <= Zpos m2 < 2 ^ 53 ->
  -1074 <= e1 + e2 <= 900 ->
  exists m e,
    SFmul 53 1024 (S754_finite false m1 e1) (S754_finite false m2 e2)
      = S754_finite false m e /\
    e1 + e2 <= e /\ 2 ^ 52 <= Zpos m < 2 ^ 53 /\
    2 ^ (e - e1 - e2) * (Zpos m - 1) <= Zpos m1 * Zpos m2
      < 2 ^ (e - e1 - e2) * (Zpos m + 1).
Proof.
  intros H1 H2 He. cbn [SFmul xorb].
  assert (Plo : 2 ^ 104 <= Zpos (m1 * m2)) by (rewrite Pos2Z.inj_mul; nia).
  assert (Phi : Zpos (m1 * m2) < 2 ^ 106) by (rewrite Pos2Z.inj_mul; nia).
  assert (D : 105 <= Zdigits2 (Zpos (m1 * m2)) <= 106).
  { split; [apply Zdigits2_ge; [lia|exact Plo]|].
    apply Zdigits2_le_of_lt; lia. }
  destruct (binary_round_aux_enclosure false (Zpos (m1 * m2)) (e1 + e2)
              loc_Exact) as (m & e & Hr & Hee & Hm & Hencl); try lia.
  exists m, e. split; [exact Hr|]. split; [lia|]. split; [exact Hm|].
  replace (e - e1 - e2) with (e - (e1 + e2)) by lia.
  set (k := e - (e1 + e2)) in *.
  assert (Pk : 0 < 2 ^ k) by (apply Z.pow_pos_nonneg; lia).
  rewrite Pos2Z.inj_mul in Hencl.
  set (T := Zpos m1 * Zpos m2) in *.
  pose proof (Z.mul_div_le T (2 ^ k) Pk).
  pose proof (Z.mul_succ_div_gt T (2 ^ k) Pk).
  nia.
Qed.

(** ** The doubles of the dimension rule against the exact values *)

Lemma pow2_exp_lt a b : 0 <= a -> 0 <= b -> 2 ^ a < 2 ^ b -> a < b.
Proof. intros Ha Hb H. apply (Z.pow_lt_mono_r_iff 2); lia. Qed.

Lemma pow2_exp_le a b : 0 <= a -> 0 <= b -> 2 ^ a <= 2 ^ b -> a <= b.
Proof. intros Ha Hb H. apply (Z.pow_le_mono_r_iff 2); lia. Qed.

(** [w / h] as a double: normal, with [ma * 2^ea] within one unit in the last
    place of the exact ratio. *)
Lemma int_truediv_enclosure w h :
  small w -> small h ->
  exists ma ea,
    Py.int_truediv w h = Ok (S754_finite false ma ea) /\
    -77 <= ea <= -28 /\ 2 ^ 52 <= Zpos ma < 2 ^ 53 /\
    h * (Zpos ma - 1) <= w * 2 ^ (- ea) < h * (Zpos ma + 1).
Proof.
  intros [Hw0 Hw] [Hh0 Hh]. unfold Py.int_truediv, Py.prec, Py.emax.
  destruct (Z.eqb_spec h 0) as [?|_]; [lia|].
  destruct w as [|pw|pw]; try lia. destruct h as [|ph|ph]; try lia.
  cbn [Py.exact].
  assert (D1 : 1 <= Zpos (digits2_pos pw) <= 24).
  { split; [lia|]. change (Zdigits2 (Zpos pw) <= 24).
    apply Zdigits2_le_of_lt; lia. }
  assert (D2 : 1 <= Zpos (digits2_pos ph) <= 24).
  { split; [lia|]. change (Zdigits2 (Zpos ph) <= 24).
    apply Zdigits2_le_of_lt; lia. }
  destruct (SFdiv_enclosure pw 0 ph 0) as (ma & ea & Hr & He & Hm & Hencl);
    try (cbv zeta; lia).
  rewrite Hr. exists ma, ea. split; [reflexivity|].
  replace (0 - 0 - ea) with (- ea) in Hencl by lia.
  split; [|split; [exact Hm|exact Hencl]].
  assert (P : 0 < 2 ^ (- ea)) by (apply Z.pow_pos_nonneg; lia).
  split.
  - assert (2 ^ (- ea) < 2 ^ 78).
    { change (2 ^ 78) with (2 ^ 24 * 2 ^ 54). nia. }
    assert (- ea < 78) by (apply pow2_exp_lt; lia). lia.
  - assert (2 ^ 27 < 2 ^ (- ea)).
    { change (2 ^ 27) with (2 ^ 51 / 2 ^ 24).
      apply Z.div_lt_upper_bound; [lia|]. nia. }
    assert (27 < - ea) by (apply pow2_exp_lt; lia). lia.
Qed.

Lemma int_truediv_same w : small w ->
  Py.int_truediv w w = Ok (S754_finite false 4503599627370496 (-52)).
Proof.
  intros [Hw0 Hw]. unfold Py.int_truediv, Py.prec, Py.emax.
  destruct (Z.eqb_spec w 0) as [?|_]; [lia|].
  destruct w as [|p|p]; try lia. cbn [Py.exact SFdiv xorb].
  unfold SFdiv_core_binary. cbn [Zdigits2].
  set (d := Zpos (digits2_pos p)).
  replace (d + 0 - (d + 0)) with 0 by lia.
  change (Z.min (fexp 53 1024 0) (0 - 0)) with (-53).
  change (0 - 0 - -53) with 53.
  cbv iota beta.
  rewrite Z.shiftl_mul_pow2 by lia.
  destruct (Z.div_eucl (Z.pos p * 2 ^ 53) (Z.pos p)) as [q r] eqn:E.
  assert (Hq : q = 2 ^ 53).
  { transitivity ((Z.pos p * 2 ^ 53) / Z.pos p);
      [unfold Z.div; rewrite E; reflexivity|].
    rewrite Z.mul_comm. apply Z.div_mul. lia. }
  assert (Hr : r = 0).
  { transitivity ((Z.pos p * 2 ^ 53) mod Z.pos p);
      [unfold Z.modulo; rewrite E; reflexivity|].
    rewrite Z.mul_comm. apply Z.mod_mul. lia. }
  subst q r.
  assert (L : new_location (Z.pos p) 0 = loc_Exact).
  { unfold new_location, new_location_even, new_location_odd.
    destruct (Z.even (Z.pos p)); reflexivity. }
  rewrite L. reflexivity.
Qed.

(** The comparison of line 59 decides as the exact ratio does. *)
Lemma aspect_gt_one_iff w h ma ea :
  small w -> small h ->
  Py.int_truediv w h = Ok (S754_finite false ma ea) ->
  ea <= -28 -> 2 ^ 52 <= Zpos ma < 2 ^ 53 ->
  h * (Zpos ma - 1) <= w * 2 ^ (- ea) < h * (Zpos ma + 1) ->
  Py.float_gt_int (S754_finite false ma ea) 1 = (h <? w).
Proof.
  intros Hw Hh Ediv Hea Hma Hencl.
  destruct Hw as [Hw0 Hw]. destruct Hh as [Hh0 Hh].
  unfold Py.float_gt_int. rewrite float_one. unfold SFltb, SFcompare.
  assert (P : 0 < 2 ^ (- ea)) by (apply Z.pow_pos_nonneg; lia).
  destruct (Z.eq_dec w h) as [->|Hne].
  { rewrite int_truediv_same in Ediv by (split; lia).
    injection Ediv as <- <-. rewrite Z.ltb_irrefl. reflexivity. }
  clear Ediv.
  set (Pa := 2 ^ (- ea)) in *. set (a := Zpos ma) in *.
  assert (Hcmp : (4503599627370496 ?= ma)%positive = (2 ^ 52 ?= a)).
  { reflexivity. }
  change (Pos.compare_cont Eq 4503599627370496 ma)
    with (4503599627370496 ?= ma)%positive.
  rewrite Hcmp. clear Hcmp.
  destruct (Z.ltb_spec h w) as [Hlt|Hge].
  - (* h < w: the double is above 1 *)
    destruct (Z.compare_spec (-52) ea) as [Heq|Hl|Hg]; [|reflexivity|].
    + assert (Pa = 2 ^ 52) by (unfold Pa; rewrite <- Heq; reflexivity).
      destruct (Z.compare_spec (2 ^ 52) a) as [E|L|G]; [|reflexivity|].
      * exfalso. clear - Hlt Hencl H E Hh0 Hw0 Hh Hw. nia.
      * exfalso. clear - Hma G. lia.
    + exfalso.
      assert (2 ^ 53 <= Pa) by (apply Z.pow_le_mono_r; lia).
      clear - Hlt Hencl H Hma Hh0 Hw0 Hh Hw. nia.
  - (* w < h: the double is below 1 *)
    assert (Hwh : w < h) by lia.
    destruct (Z.compare_spec (-52) ea) as [Heq|Hl|Hg]; [| |reflexivity].
    + assert (Pa = 2 ^ 52) by (unfold Pa; rewrite <- Heq; reflexivity).
      destruct (Z.compare_spec (2 ^ 52) a) as [E|L|G];
        [reflexivity| |reflexivity].
      exfalso. clear - Hwh Hencl H L Hh0 Hw0 Hh Hw. nia.
    + exfalso.
      assert (Pa <= 2 ^ 51) by (apply Z.pow_le_mono_r; lia).
      clear - Hwh Hencl H Hma Hh0 Hw0 Hh Hw. nia.
Qed.

Lemma floor_bounds x y : 0 < y -> (x / y) * y <= x < (x / y + 1) * y.
Proof.
  intros Hy. pose proof (Z.div_mod x y ltac:(lia)) as D.
  pose proof (Z.mod_pos_bound x y Hy) as B. lia.
Qed.

(** Integer form of the error analysis, landscape branch: [a / Pa] encloses
    w / h, [q / R] encloses M / (a / Pa), and the truncation of [q / R] is
    the floor of M * h / w or one less. *)
Lemma landscape_arith w h M a Pa q R :
  0 < h < w -> w < 2 ^ 24 -> 0 < M < 2 ^ 24 ->
  2 ^ 52 <= a -> 2 ^ 52 <= q -> 0 < Pa -> 0 < R ->
  h * (a - 1) <= w * Pa < h * (a + 1) ->
  a * (q - 1) <= M * Pa * R < a * (q + 1) ->
  (M * h) / w - 1 <= q / R <= (M * h) / w.
Proof.
  intros Hhw Hw HM Ha Hq HPa HR Ea Eqn.
  set (F := (M * h) / w). set (n := q / R).
  destruct (floor_bounds (M * h) w ltac:(lia)) as [F1 F2]. fold F in F1, F2.
  destruct (floor_bounds q R HR) as [N1 N2]. fold n in N1, N2.
  assert (F0 : 0 <= F) by (unfold F; apply Z.div_pos; nia).
  assert (FM : F < M) by (clear - F1 Hhw HM; nia).
  assert (a0 : 0 < a) by lia.
  split.
  - (* the double is not more than one below *)
    destruct (Z_le_gt_dec (F - 1) n) as [?|G]; [assumption|exfalso].
    assert (S1 : q + 1 <= (F - 1) * R) by (clear - N2 G HR; nia).
    assert (S2 : M * Pa * R < (a * (F - 1)) * R).
    { apply Z.lt_le_trans with (a * (q + 1)); [lia|].
      rewrite <- Z.mul_assoc. apply Z.mul_le_mono_nonneg_l; lia. }
    assert (S3 : M * Pa < a * (F - 1)).
    { apply Z.mul_lt_mono_pos_r with (p := R); assumption. }
    assert (HF : 1 <= F - 1) by (clear - S3 HM HPa a0; nia).
    assert (S4 : (M * Pa) * h < (a * (F - 1)) * h).
    { apply Z.mul_lt_mono_pos_r; lia. }
    assert (S5 : a * h <= w * Pa + h) by lia.
    assert (S6 : (a * h) * (F - 1) <= (w * Pa + h) * (F - 1)).
    { apply Z.mul_le_mono_nonneg_r; lia. }
    assert (S7 : (F * w) * Pa <= (M * h) * Pa).
    { apply Z.mul_le_mono_nonneg_r; lia. }
    assert (S8 : w * Pa < h * (F - 1)).
    { clear - S4 S6 S7. nia. }
    assert (S9 : h * (a - 1) < h * (F - 1)) by lia.
    assert (a - 1 < F - 1).
    { apply Z.mul_lt_mono_pos_l with (p := h); lia. }
    lia.
  - (* the double is not above *)
    destruct (Z_le_gt_dec n F) as [?|G]; [assumption|exfalso].
    assert (T1 : (F + 1) * R <= q) by (clear - N1 G HR; nia).
    assert (T2 : Pa <= a).
    { assert (w * Pa < w * (a + 1)).
      { apply Z.lt_le_trans with (h * (a + 1)); [lia|].
        apply Z.mul_le_mono_nonneg_r; lia. }
      assert (Pa < a + 1) by (apply Z.mul_lt_mono_pos_l with (p := w); lia).
      lia. }
    assert (T3 : a * (q - 1) <= a * (M * R)).
    { transitivity (M * Pa * R); [lia|].
      replace (a * (M * R)) with (M * a * R) by ring.
      apply Z.mul_le_mono_nonneg_r; [lia|].
      apply Z.mul_le_mono_nonneg_l; lia. }
    assert (T4 : q - 1 <= M * R).
    { apply Z.mul_le_mono_pos_l with (p := a); assumption. }
    assert (T5 : 2 ^ 28 <= R).
    { destruct (Z_le_gt_dec (2 ^ 28) R) as [?|GR]; [assumption|exfalso].
      assert (M * R <= (2 ^ 24 - 1) * (2 ^ 28 - 1)).
      { apply Z.mul_le_mono_nonneg; lia. }
      lia. }
    assert (T6 : 2 * w <= R) by lia.
    assert (T7 : h * (2 ^ 52 - 1) <= w * Pa).
    { transitivity (h * (a - 1)); [|lia].
      apply Z.mul_le_mono_nonneg_l; lia. }
    assert (T8 : h * 2 ^ 27 <= Pa).
    { destruct (Z_le_gt_dec (h * 2 ^ 27) Pa) as [?|GP]; [assumption|exfalso].
      assert (w * Pa <= (2 ^ 24 - 1) * (h * 2 ^ 27 - 1)).
      { apply Z.mul_le_mono_nonneg; lia. }
      lia. }
    assert (T9 : (h - 1) * (F + 1) <= h * 2 ^ 24).
    { apply Z.mul_le_mono_nonneg; lia. }
    assert (T10 : 2 * ((h - 1) * (F + 1)) + 1 <= Pa) by lia.
    set (K := (F + 1) * R) in *.
    assert (K1 : 1 <= K) by (unfold K; clear - F0 HR; nia).
    assert (U1 : a * (K - 1) <= M * Pa * R).
    { transitivity (a * (q - 1)); [|lia].
      apply Z.mul_le_mono_nonneg_l; lia. }
    assert (U2 : h * (a * (K - 1)) <= h * (M * Pa * R)).
    { apply Z.mul_le_mono_nonneg_l; lia. }
    assert (U3 : w * Pa - h + 1 <= h * a) by lia.
    assert (U4 : (w * Pa - h + 1) * (K - 1) <= (h * a) * (K - 1)).
    { apply Z.mul_le_mono_nonneg_r; lia. }
    assert (U5 : (M * h) * (Pa * R) <= ((F + 1) * w - 1) * (Pa * R)).
    { apply Z.mul_le_mono_nonneg_r; [clear - HPa HR; nia|lia]. }
    assert (U6 : (w * Pa - h + 1) * (K - 1) <= ((F + 1) * w - 1) * (Pa * R)).
    { clear - U2 U4 U5. nia. }
    assert (U7 : ((F + 1) * w - 1) * (Pa * R) = (w * Pa) * K - Pa * R).
    { unfold K. ring. }
    assert (U8 : (w * Pa - h + 1) * (K - 1)
                 = (w * Pa) * K - w * Pa - (h - 1) * K + (h - 1)) by ring.
    assert (U9 : Pa * R <= w * Pa + (h - 1) * K) by lia.
    assert (V1 : (2 * w) * Pa <= R * Pa).
    { apply Z.mul_le_mono_nonneg_r; lia. }
    assert (V2 : (2 * ((h - 1) * (F + 1)) + 1) * R <= Pa * R).
    { apply Z.mul_le_mono_nonneg_r; lia. }
    assert (V3 : (h - 1) * K = ((h - 1) * (F + 1)) * R) by (unfold K; ring).
    clear - U9 V1 V2 V3 HR. nia.
Qed.

(** The same for the portrait branch: [p / R] encloses M * (a / Pa), and its
    truncation is the floor of M * w / h or one less. *)
Lemma portrait_arith w h M a Pa p R :
  0 < w <= h -> h < 2 ^ 24 -> 0 < M < 2 ^ 24 ->
  2 ^ 52 <= a -> 2 ^ 52 <= p -> 0 < Pa -> 0 < R ->
  h * (a - 1) <= w * Pa < h * (a + 1) ->
  Pa * (p - 1) <= M * a * R < Pa * (p + 1) ->
  (M * w) / h - 1 <= p / R <= (M * w) / h.
Proof.
  intros Hwh Hh HM Ha Hp HPa HR Ea Ep.
  set (G := (M * w) / h). set (n := p / R).
  destruct (floor_bounds (M * w) h ltac:(lia)) as [G1 G2]. fold G in G1, G2.
  destruct (floor_bounds p R HR) as [N1 N2]. fold n in N1, N2.
  assert (G0 : 0 <= G) by (unfold G; apply Z.div_pos; nia).
  assert (GM : G <= M).
  { assert (G * h <= M * h).
    { transitivity (M * w); [exact G1|]. apply Z.mul_le_mono_nonneg_l; lia. }
    apply Z.mul_le_mono_pos_r with (p := h); lia. }
  assert (a0 : 0 < a) by lia.
  assert (P1 : a - 1 <= Pa).
  { assert (h * (a - 1) <= h * Pa).
    { transitivity (w * Pa); [lia|]. apply Z.mul_le_mono_nonneg_r; lia. }
    apply Z.mul_le_mono_pos_l with (p := h); lia. }
  assert (P2 : 2 ^ 52 - 1 <= Pa).
  { assert (w * (a - 1) <= w * Pa).
    { transitivity (h * (a - 1)); [|lia]. apply Z.mul_le_mono_nonneg_r; lia. }
    assert (a - 1 <= Pa) by (apply Z.mul_le_mono_pos_l with (p := w); lia).
    lia. }
  split.
  - destruct (Z_le_gt_dec (G - 1) n) as [?|L]; [assumption|exfalso].
    assert (S1 : p + 1 <= (G - 1) * R) by (clear - N2 L HR; nia).
    assert (S2 : M * a * R < (Pa * (G - 1)) * R).
    { apply Z.lt_le_trans with (Pa * (p + 1)); [lia|].
      rewrite <- Z.mul_assoc. apply Z.mul_le_mono_nonneg_l; lia. }
    assert (S3 : M * a < Pa * (G - 1)).
    { apply Z.mul_lt_mono_pos_r with (p := R); assumption. }
    assert (S4 : (M * a) * h < (Pa * (G - 1)) * h).
    { apply Z.mul_lt_mono_pos_r; lia. }
    assert (S5 : w * Pa - h + 1 <= a * h) by lia.
    assert (S6 : M * (w * Pa - h + 1) <= M * (a * h)).
    { apply Z.mul_le_mono_nonneg_l; lia. }
    assert (S7 : Pa * (G * h) <= Pa * (M * w)).
    { apply Z.mul_le_mono_nonneg_l; lia. }
    assert (S8 : Pa * h < M * h) by (clear - S4 S6 S7 HM; nia).
    assert (Pa < M) by (apply Z.mul_lt_mono_pos_r with (p := h); lia).
    lia.
  - destruct (Z_le_gt_dec n G) as [?|L]; [assumption|exfalso].
    assert (T1 : (G + 1) * R <= p) by (clear - N1 L HR; nia).
    set (K := (G + 1) * R) in *.
    assert (K1 : 1 <= K) by (unfold K; clear - G0 HR; nia).
    assert (U1 : Pa * (K - 1) <= M * a * R).
    { transitivity (Pa * (p - 1)); [|lia].
      apply Z.mul_le_mono_nonneg_l; lia. }
    assert (U2 : h * (Pa * (K - 1)) <= h * (M * a * R)).
    { apply Z.mul_le_mono_nonneg_l; lia. }
    assert (U3 : a * h <= w * Pa + h) by lia.
    assert (MR : 0 <= M * R) by (clear - HM HR; nia).
    assert (U4 : (M * R) * (a * h) <= (M * R) * (w * Pa + h)).
    { apply Z.mul_le_mono_nonneg_l; lia. }
    assert (U5 : (M * w + 1) * R <= ((G + 1) * h) * R).
    { apply Z.mul_le_mono_nonneg_r; lia. }
    assert (U6 : Pa * ((M * w + 1) * R) <= Pa * (((G + 1) * h) * R)).
    { apply Z.mul_le_mono_nonneg_l; lia. }
    assert (U7 : Pa * R <= h * Pa + (M * h) * R).
    { unfold K in *. clear - U2 U4 U6. nia. }
    assert (R1 : Pa * (2 ^ 52 - 1) <= M * a * R).
    { transitivity (Pa * (p - 1)); [|lia].
      apply Z.mul_le_mono_nonneg_l; lia. }
    assert (R2 : M * a * R <= (M * R) * (2 * Pa)).
    { replace (M * a * R) with ((M * R) * a) by ring.
      apply Z.mul_le_mono_nonneg_l; lia. }
    assert (R3 : Pa * (2 ^ 52 - 1) <= Pa * (2 * (M * R))).
    { replace (Pa * (2 * (M * R))) with ((M * R) * (2 * Pa)) by ring. lia. }
    assert (R4 : 2 ^ 52 - 1 <= 2 * (M * R)).
    { apply Z.mul_le_mono_pos_l with (p := Pa); assumption. }
    assert (R5 : 2 ^ 27 <= R).
    { destruct (Z_le_gt_dec (2 ^ 27) R) as [?|GR]; [assumption|exfalso].
      assert (M * R <= (2 ^ 24 - 1) * (2 ^ 27 - 1)).
      { apply Z.mul_le_mono_nonneg; lia. }
      lia. }
    assert (Mh : M * h <= 2 ^ 24 * 2 ^ 24).
    { apply Z.mul_le_mono_nonneg; lia. }
    assert (V1 : (2 * h) * Pa <= R * Pa).
    { apply Z.mul_le_mono_nonneg_r; lia. }
    assert (V2 : (2 * (M * h) + 1) * R <= Pa * R).
    { apply Z.mul_le_mono_nonneg_r; lia. }
    clear - U7 V1 V2 HR. nia.
Qed.

Lemma digits_of_normal m : 2 ^ 52 <= Zpos m < 2 ^ 53 -> Zpos (digits2_pos m) = 53.
Proof.
  intros H. change (Zdigits2 (Zpos m) = 53). apply Z.le_antisymm.
  - apply Zdigits2_le_of_lt; lia.
  - apply Zdigits2_ge; [lia|]. exact (proj1 H).
Qed.

Lemma normal_of_digits m : Zpos (digits2_pos m) = 53 -> 2 ^ 52 <= Zpos m < 2 ^ 53.
Proof.
  intros H.
  pose proof (Zdigits2_upper (Zpos m) ltac:(lia)) as U.
  pose proof (Zdigits2_lower (Zpos m) ltac:(lia)) as L.
  cbn [Zdigits2] in U, L. rewrite H in U, L. exact (conj L U).
Qed.

(** [M / a] for an int [M] and a normal double [a] of moderate exponent. *)
Lemma int_div_float_enclosure M ma ea :
  small M -> 2 ^ 52 <= Zpos ma < 2 ^ 53 -> -77 <= ea <= -28 ->
  exists mq xq,
    Py.int_div_float M (S754_finite false ma ea) = Ok (S754_finite false mq xq) /\
    2 ^ 52 <= Zpos mq < 2 ^ 53 /\ 0 <= - ea - xq /\
    Zpos ma * (Zpos mq - 1) <= M * 2 ^ (- ea - xq) < Zpos ma * (Zpos mq + 1).
Proof.
  intros [HM0 HM] Hma Hea.
  destruct (float_of_int_exact M ltac:(lia)) as (mM & eM & EM & DM & HeM & VM).
  unfold Py.int_div_float. rewrite EM. cbn [rbind Py.is_zero].
  unfold Py.prec, Py.emax.
  pose proof (digits_of_normal ma Hma) as Dma.
  destruct (SFdiv_enclosure mM eM ma ea) as (mq & xq & Hr & He & Hm & Hencl);
    try (cbv zeta; lia).
  rewrite Hr. exists mq, xq. split; [reflexivity|]. split; [exact Hm|].
  split; [lia|].
  replace (M * 2 ^ (- ea - xq)) with (Zpos mM * 2 ^ (eM - ea - xq)); [exact Hencl|].
  rewrite VM, <- Z.mul_assoc, <- Z.pow_add_r by lia. f_equal. f_equal. lia.
Qed.

(** [M * a] for an int [M] and a normal double [a] of moderate exponent. *)
Lemma int_mul_float_enclosure M ma ea :
  small M -> 2 ^ 52 <= Zpos ma < 2 ^ 53 -> -77 <= ea <= -28 ->
  exists mp ep eM,
    Py.int_mul_float M (S754_finite false ma ea) = Ok (S754_finite false mp ep) /\
    2 ^ 52 <= Zpos mp < 2 ^ 53 /\ -52 <= eM <= 0 /\ eM + ea <= ep /\
    2 ^ (ep - eM - ea) * (Zpos mp - 1) <= (M * 2 ^ (- eM)) * Zpos ma
      < 2 ^ (ep - eM - ea) * (Zpos mp + 1).
Proof.
  intros [HM0 HM] Hma Hea.
  destruct (float_of_int_exact M ltac:(lia)) as (mM & eM & EM & DM & HeM & VM).
  unfold Py.int_mul_float. rewrite EM. cbn [rbind].
  unfold Py.prec, Py.emax.
  pose proof (normal_of_digits mM DM) as NM.
  destruct (SFmul_enclosure mM eM ma ea NM Hma ltac:(lia))
    as (mp & ep & Hr & He & Hm & Hencl).
  rewrite Hr. exists mp, ep, eM. split; [reflexivity|]. split; [exact Hm|].
  split; [exact HeM|]. split; [exact He|].
  rewrite <- VM. exact Hencl.
Qed.

Lemma int_of_float_neg_exp m e :
  e < 0 -> Py.int_of_float (S754_finite false m e) = Ok (Zpos m / 2 ^ (- e)).
Proof.
  intros He. destruct e as [|p|p]; try lia. cbn [Py.int_of_float].
  rewrite Z.shiftr_div_pow2 by lia. reflexivity.
Qed.

(** The rule of the specification on integers. *)
Lemma spec_scaled_dims_floor maxW maxH w h :
  0 < w -> 0 < h -> 0 < maxW -> 0 < maxH ->
  spec_scaled_dims maxW maxH w h
  = if h <? w then (maxW, (maxW * h) / w) else ((maxH * w) / h, maxH).
Proof.
  intros Hw Hh HW HH.
  destruct w as [|pw|pw]; try lia. destruct h as [|ph|ph]; try lia.
  destruct maxW as [|pW|pW]; try lia. destruct maxH as [|pH|pH]; try lia.
  unfold spec_scaled_dims, Qle_bool, Qdiv, Qmult, Qinv, inject_Z, Qfloor.
  cbn [Qnum Qden].
  rewrite ?Z.mul_1_r, ?Z.mul_1_l, ?Pos.mul_1_r, ?Pos.mul_1_l.
  cbn [Qnum Qden].
  rewrite ?Z.mul_1_r, ?Z.mul_1_l, ?Pos.mul_1_r, ?Pos.mul_1_l.
  rewrite Z.leb_antisym, negb_involutive.
  destruct (Z.pos ph <? Z.pos pw); reflexivity.
Qed.

Section WithinOne.

Variable cfg : config.

Lemma resize_dims_landscape w h :
  small w -> small h -> small (MAX_WIDTH cfg) -> h < w ->
  w > MAX_WIDTH cfg \/ h > MAX_HEIGHT cfg ->
  exists new_height,
    resize_dims cfg w h = Ok (MAX_WIDTH cfg, new_height) /\
    (MAX_WIDTH cfg * h) / w - 1 <= new_height <= (MAX_WIDTH cfg * h) / w.
Proof.
  intros Hw Hh HM Hlt Big. set (M := MAX_WIDTH cfg) in *.
  destruct (int_truediv_enclosure w h Hw Hh) as (ma & ea & Ea & Hea & Hma & Ha).
  pose proof (aspect_gt_one_iff w h ma ea Hw Hh Ea ltac:(lia) Hma Ha) as Hgt.
  rewrite (proj2 (Z.ltb_lt h w) Hlt) in Hgt.
  destruct (int_div_float_enclosure M ma ea HM Hma Hea)
    as (mq & xq & Eqn & Hmq & Hexp & Hq).
  destruct Hw as [Hw0 Hw]. destruct Hh as [Hh0 Hh]. destruct HM as [HM0 HM].
  set (Pa := 2 ^ (- ea)) in *.
  assert (HPa : 0 < Pa) by (apply Z.pow_pos_nonneg; lia).
  assert (T2 : Pa <= Zpos ma).
  { assert (w * Pa < w * (Zpos ma + 1)).
    { apply Z.lt_le_trans with (h * (Zpos ma + 1)); [lia|].
      apply Z.mul_le_mono_nonneg_r; lia. }
    assert (Pa < Zpos ma + 1) by (apply Z.mul_lt_mono_pos_l with (p := w); lia).
    lia. }
  assert (Heq : xq < 0).
  { destruct (Z_lt_ge_dec xq 0) as [?|Hge]; [assumption|exfalso].
    assert (2 ^ (- ea - xq) <= Pa) by (apply Z.pow_le_mono_r; lia).
    assert (M * 2 ^ (- ea - xq) <= M * Pa)
      by (apply Z.mul_le_mono_nonneg_l; lia).
    assert (M * Pa <= M * Zpos ma) by (apply Z.mul_le_mono_nonneg_l; lia).
    assert (Zpos ma * (2 ^ 52 - 1) <= Zpos ma * (Zpos mq - 1))
      by (apply Z.mul_le_mono_nonneg_l; lia).
    assert (Zpos ma * (2 ^ 52 - 1) <= Zpos ma * M) by lia.
    assert (2 ^ 52 - 1 <= M)
      by (apply Z.mul_le_mono_pos_l with (p := Zpos ma); lia).
    lia. }
  set (R := 2 ^ (- xq)) in *.
  assert (HR : 0 < R) by (apply Z.pow_pos_nonneg; lia).
  assert (HPR : 2 ^ (- ea - xq) = Pa * R).
  { unfold Pa, R. rewrite <- Z.pow_add_r by lia. f_equal; lia. }
  rewrite HPR, Z.mul_assoc in Hq.
  exists (Zpos mq / R). split.
  - unfold resize_dims. rewrite Ea. cbn [rbind].
    replace ((w >? MAX_WIDTH cfg) || (h >? MAX_HEIGHT cfg)) with true.
    2:{ symmetry. apply orb_true_iff. rewrite !Z.gtb_ltb, !Z.ltb_lt. lia. }
    rewrite Hgt. fold M. rewrite Eqn. cbn [rbind].
    rewrite int_of_float_neg_exp by exact Heq. reflexivity.
  - apply (landscape_arith w h M (Zpos ma) Pa (Zpos mq) R); lia.
Qed.

Lemma resize_dims_portrait w h :
  small w -> small h -> small (MAX_HEIGHT cfg) -> w <= h ->
  w > MAX_WIDTH cfg \/ h > MAX_HEIGHT cfg ->
  exists new_width,
    resize_dims cfg w h = Ok (new_width, MAX_HEIGHT cfg) /\
    (MAX_HEIGHT cfg * w) / h - 1 <= new_width <= (MAX_HEIGHT cfg * w) / h.
Proof.
  intros Hw Hh HM Hle Big. set (M := MAX_HEIGHT cfg) in *.
  destruct (int_truediv_enclosure w h Hw Hh) as (ma & ea & Ea & Hea & Hma & Ha).
  pose proof (aspect_gt_one_iff w h ma ea Hw Hh Ea ltac:(lia) Hma Ha) as Hgt.
  rewrite (proj2 (Z.ltb_ge h w) Hle) in Hgt.
  destruct (int_mul_float_enclosure M ma ea HM Hma Hea)
    as (mp & ep & eM & Ep & Hmp & HeM & Hexp & Hp).
  destruct Hw as [Hw0 Hw]. destruct Hh as [Hh0 Hh]. destruct HM as [HM0 HM].
  set (Pa := 2 ^ (- ea)) in *.
  assert (HPa : 0 < Pa) by (apply Z.pow_pos_nonneg; lia).
  set (Sm := 2 ^ (- eM)) in *.
  assert (HS : 0 < Sm) by (apply Z.pow_pos_nonneg; lia).
  set (U := 2 ^ (ep - eM - ea)) in *.
  assert (HU : 0 < U) by (apply Z.pow_pos_nonneg; lia).
  assert (P1 : Zpos ma - 1 <= Pa).
  { assert (h * (Zpos ma - 1) <= h * Pa).
    { transitivity (w * Pa); [lia|]. apply Z.mul_le_mono_nonneg_r; lia. }
    apply Z.mul_le_mono_pos_l with (p := h); lia. }
  assert (Hep : ep < 0).
  { destruct (Z_lt_ge_dec ep 0) as [?|Hge]; [assumption|exfalso].
    assert (HSP : Sm * Pa = 2 ^ (- eM - ea)).
    { unfold Sm, Pa. rewrite <- Z.pow_add_r by lia. f_equal; lia. }
    assert (Sm * Pa <= U).
    { rewrite HSP. apply Z.pow_le_mono_r; lia. }
    assert ((Sm * Pa) * (Zpos mp - 1) <= U * (Zpos mp - 1))
      by (apply Z.mul_le_mono_nonneg_r; lia).
    assert (Sm * (Pa * (Zpos mp - 1)) <= Sm * (M * Zpos ma)) by lia.
    assert (Pa * (Zpos mp - 1) <= M * Zpos ma)
      by (apply Z.mul_le_mono_pos_l with (p := Sm); assumption).
    assert (Pa * (2 ^ 52 - 1) <= Pa * (Zpos mp - 1))
      by (apply Z.mul_le_mono_nonneg_l; lia).
    assert (M * Zpos ma <= M * (2 * Pa))
      by (apply Z.mul_le_mono_nonneg_l; lia).
    assert (Pa * (2 ^ 52 - 1) <= Pa * (2 * M)) by lia.
    assert (2 ^ 52 - 1 <= 2 * M)
      by (apply Z.mul_le_mono_pos_l with (p := Pa); lia).
    lia. }
  set (R := 2 ^ (- ep)) in *.
  assert (HR : 0 < R) by (apply Z.pow_pos_nonneg; lia).
  assert (HUR : U * R = Sm * Pa).
  { unfold U, R, Sm, Pa. rewrite <- !Z.pow_add_r by lia. f_equal; lia. }
  assert (Hp' : Pa * (Zpos mp - 1) <= M * Zpos ma * R < Pa * (Zpos mp + 1)).
  { destruct Hp as [Hp1 Hp2].
    assert (A1 : (U * (Zpos mp - 1)) * R <= (M * Sm * Zpos ma) * R)
      by (apply Z.mul_le_mono_nonneg_r; lia).
    assert (A2 : (M * Sm * Zpos ma) * R < (U * (Zpos mp + 1)) * R)
      by (apply Z.mul_lt_mono_pos_r; lia).
    assert (B1 : Sm * (Pa * (Zpos mp - 1)) <= Sm * (M * Zpos ma * R)).
    { replace (Sm * (Pa * (Zpos mp - 1))) with ((U * R) * (Zpos mp - 1))
        by (rewrite HUR; ring).
      replace (Sm * (M * Zpos ma * R)) with ((M * Sm * Zpos ma) * R) by ring.
      replace ((U * R) * (Zpos mp - 1)) with ((U * (Zpos mp - 1)) * R) by ring.
      exact A1. }
    assert (B2 : Sm * (M * Zpos ma * R) < Sm * (Pa * (Zpos mp + 1))).
    { replace (Sm * (Pa * (Zpos mp + 1))) with ((U * R) * (Zpos mp + 1))
        by (rewrite HUR; ring).
      replace (Sm * (M * Zpos ma * R)) with ((M * Sm * Zpos ma) * R) by ring.
      replace ((U * R) * (Zpos mp + 1)) with ((U * (Zpos mp + 1)) * R) by ring.
      exact A2. }
    split.
    - apply Z.mul_le_mono_pos_l with (p := Sm); assumption.
    - apply Z.mul_lt_mono_pos_l with (p := Sm); assumption. }
  exists (Zpos mp / R). split.
  - unfold resize_dims. rewrite Ea. cbn [rbind].
    replace ((w >? MAX_WIDTH cfg) || (h >? MAX_HEIGHT cfg)) with true.
    2:{ symmetry. apply orb_true_iff. rewrite !Z.gtb_ltb, !Z.ltb_lt. lia. }
    rewrite Hgt. fold M. rewrite Ep. cbn [rbind].
    rewrite int_of_float_neg_exp by exact Hep. reflexivity.
  - apply (portrait_arith w h M (Zpos ma) Pa (Zpos mp) R); lia.
Qed.

End WithinOne.

(** C6, amended: when scaling triggers on sizes below [size_bound], the
    computation raises nothing and returns dimensions that are both >= 0;
    the one taken from the configuration is the width when
    [aspect_ratio > 1] and the height otherwise, it equals its maximum and
    so is >= 1.  On sizes below 2^24, [aspect_ratio > 1] holds exactly when
    w > h, and the floored dimension is the floor of the exact value
    (maxW * h / w when w > h, maxH * w / h otherwise) or one less: it is
    >= 1 whenever that floor is >= 2, and it is 0 whenever that floor
    is 0. *)
Theorem scaled_dims_positive_unless_extreme cfg w h :
  0 < w < size_bound -> 0 < h ->
  0 < MAX_WIDTH cfg < size_bound -> 0 < MAX_HEIGHT cfg < size_bound ->
  w > MAX_WIDTH cfg \/ h > MAX_HEIGHT cfg ->
  exists aspect_ratio new_width new_height,
    Py.int_truediv w h = Ok aspect_ratio /\
    resize_dims cfg w h = Ok (new_width, new_height) /\
    0 <= new_width /\ 0 <= new_height /\
    (if Py.float_gt_int aspect_ratio 1
     then new_width = MAX_WIDTH cfg /\ 1 <= new_width
     else new_height = MAX_HEIGHT cfg /\ 1 <= new_height) /\
    (small w -> small h -> small (MAX_WIDTH cfg) -> small (MAX_HEIGHT cfg) ->
     let exact := if h <? w then MAX_WIDTH cfg * h / w
                  else MAX_HEIGHT cfg * w / h in
     let floored := if h <? w then new_height else new_width in
     Py.float_gt_int aspect_ratio 1 = (h <? w) /\
     exact - 1 <= floored <= exact /\
     (2 <= exact -> 1 <= floored) /\
     (exact = 0 -> floored = 0)).
Proof.
  intros Hw Hh HW HH Big.
  destruct (resize_dims_scaled cfg w h Hw Hh HW HH Big) as (a & Ea & Ha).
  assert (exists new_width new_height,
    resize_dims cfg w h = Ok (new_width, new_height) /\
    0 <= new_width /\ 0 <= new_height /\
    if Py.float_gt_int a 1
    then new_width = MAX_WIDTH cfg /\ 1 <= new_width
    else new_height = MAX_HEIGHT cfg /\ 1 <= new_height)
    as (nw & nh & E & Pw & Ph & Side).
  { destruct (Py.float_gt_int a 1).
    - destruct Ha as (q & n & _ & _ & Hn & E). exists (MAX_WIDTH cfg), n.
      split; [exact E|]. split; [lia|]. split; [exact Hn|]. split; lia.
    - destruct Ha as (p & n & _ & _ & Hn & E). exists n, (MAX_HEIGHT cfg).
      split; [exact E|]. split; [exact Hn|]. split; [lia|]. split; lia. }
  exists a, nw, nh.
  split; [exact Ea|]. split; [exact E|]. split; [exact Pw|].
  split; [exact Ph|]. split; [exact Side|].
  intros Sw Sh SW SH exact floored. subst exact floored.
  destruct (int_truediv_enclosure w h Sw Sh)
    as (ma & ea & Ea' & Hea & Hma & Hq).
  rewrite Ea in Ea'. injection Ea' as ->.
  split.
  { apply (aspect_gt_one_iff w h ma ea Sw Sh Ea ltac:(lia) Hma Hq). }
  destruct (Z.ltb_spec h w) as [Hlt|Hle].
  - destruct (resize_dims_landscape cfg w h Sw Sh SW Hlt Big)
      as (n & E' & B).
    rewrite E in E'. injection E' as _ ->.
    split; [exact B|]. split; lia.
  - destruct (resize_dims_portrait cfg w h Sw Sh SH Hle Big)
      as (n & E' & B).
    rewrite E in E'. injection E' as -> _.
    split; [exact B|]. split; lia.
Qed.

Lemma scaled_dims_positive_unless_extreme_witness :
  exists aspect_ratio new_width new_height,
    Py.int_truediv 1000 1 = Ok aspect_ratio /\
    resize_dims default_config 1000 1 = Ok (new_width, new_height) /\
    0 <= new_width /\ 0 <= new_height /\
    (if Py.float_gt_int aspect_ratio 1
     then new_width = MAX_WIDTH default_config /\ 1 <= new_width
     else new_height = MAX_HEIGHT default_config /\ 1 <= new_height) /\
    (small 1000 -> small 1 ->
     small (MAX_WIDTH default_config) -> small (MAX_HEIGHT default_config) ->
     let exact := if 1 <? 1000 then MAX_WIDTH default_config * 1 / 1000
                  else MAX_HEIGHT default_config * 1000 / 1 in
     let floored := if 1 <? 1000 then new_height else new_width in
     Py.float_gt_int aspect_ratio 1 = (1 <? 1000) /\
     exact - 1 <= floored <= exact /\
     (2 <= exact -> 1 <= floored) /\
     (exact = 0 -> floored = 0)).
Proof.
  apply (scaled_dims_positive_unless_extreme default_config 1000 1).
  - split; reflexivity.
  - reflexivity.
  - split; reflexivity.
  - split; reflexivity.
  - left. reflexivity.
Defined.

(** Lines 56-64, for sizes and maxima below 2^24 when scaling triggers: the
    computation raises nothing, the branch taken is the landscape one
    exactly when the width exceeds the height, the dimension taken from the
    configuration is the exact one, and the other is the floor of the exact
    rational value or one less. *)
Theorem scaled_dims_within_one_of_exact cfg w h :
  small w -> small h -> small (MAX_WIDTH cfg) -> small (MAX_HEIGHT cfg) ->
  w > MAX_WIDTH cfg \/ h > MAX_HEIGHT cfg ->
  exists new_width new_height,
    resize_dims cfg w h = Ok (new_width, new_height) /\
    let '(exact_width, exact_height) :=
      spec_scaled_dims (MAX_WIDTH cfg) (MAX_HEIGHT cfg) w h in
    if h <? w
    then new_width = exact_width /\
         exact_height - 1 <= new_height <= exact_height
    else new_height = exact_height /\
         exact_width - 1 <= new_width <= exact_width.
Proof.
  intros Hw Hh HW HH Big.
  rewrite spec_scaled_dims_floor
    by (unfold small in *; lia).
  destruct (Z.ltb_spec h w) as [Hlt|Hle].
  - destruct (resize_dims_landscape cfg w h Hw Hh HW Hlt Big) as (nh & E & B).
    exists (MAX_WIDTH cfg), nh. split; [exact E|]. split; [reflexivity|exact B].
  - destruct (resize_dims_portrait cfg w h Hw Hh HH Hle Big) as (nw & E & B).
    exists nw, (MAX_HEIGHT cfg). split; [exact E|]. split; [reflexivity|exact B].
Qed.

Lemma scaled_dims_within_one_of_exact_witness :
  exists new_width new_height,
    resize_dims default_config 1600 22 = Ok (new_width, new_height) /\
    let '(exact_width, exact_height) :=
      spec_scaled_dims (MAX_WIDTH default_config) (MAX_HEIGHT default_config)
        1600 22 in
    if 22 <? 1600
    then new_width = exact_width /\
         exact_height - 1 <= new_height <= exact_height
    else new_height = exact_height /\
         exact_width - 1 <= new_width <= exact_width.
Proof.
  apply (scaled_dims_within_one_of_exact default_config 1600 22).
  - split; reflexivity.
  - split; reflexivity.
  - split; reflexivity.
  - split; reflexivity.
  - left. reflexivity.
Defined.

(** Lines 58-64, for sizes and maxima below 2^24: when the side that
    exceeds its maximum is the one the branch sets to it (the width of an
    image wider than high, the height of any other), neither output
    dimension is larger than the source's. *)
Theorem scaling_shrinks_when_long_side_exceeds cfg w h :
  small w -> small h -> small (MAX_WIDTH cfg) -> small (MAX_HEIGHT cfg) ->
  h < w /\ MAX_WIDTH cfg < w \/ w <= h /\ MAX_HEIGHT cfg < h ->
  exists new_width new_height,
    resize_dims cfg w h = Ok (new_width, new_height) /\
    new_width <= w /\ new_height <= h.
Proof.
  intros Hw Hh HW HH [[Hlt Hbig]|[Hle Hbig]].
  - destruct (resize_dims_landscape cfg w h Hw Hh HW Hlt ltac:(lia))
      as (nh & E & B).
    exists (MAX_WIDTH cfg), nh. split; [exact E|]. split; [lia|].
    assert (MAX_WIDTH cfg * h / w <= h); [|lia].
    destruct Hw, Hh, HW. apply Z.div_le_upper_bound; [lia|].
    apply Z.mul_le_mono_nonneg_r; lia.
  - destruct (resize_dims_portrait cfg w h Hw Hh HH Hle ltac:(lia))
      as (nw & E & B).
    exists nw, (MAX_HEIGHT cfg). split; [exact E|]. split; [|lia].
    assert (MAX_HEIGHT cfg * w / h <= w); [|lia].
    destruct Hw, Hh, HH. apply Z.div_le_upper_bound; [lia|].
    apply Z.mul_le_mono_nonneg_r; lia.
Qed.

Lemma scaling_shrinks_when_long_side_exceeds_witness :
  exists new_width new_height,
    resize_dims default_config 1000 999 = Ok (new_width, new_height) /\
    new_width <= 1000 /\ new_height <= 999.
Proof.
  apply (scaling_shrinks_when_long_side_exceeds default_config 1000 999).
  - split; reflexivity.
  - split; reflexivity.
  - split; reflexivity.
  - split; reflexivity.
  - left. split; reflexivity.
Defined.

(** Lines 58-64, for sizes and maxima below 2^24 when scaling triggers: the
    output fits within both maxima whenever the image is, in the branch
    taken, at least as elongated as the box of the maxima (an image wider
    than high with w / h >= MAX_WIDTH / MAX_HEIGHT, any other image with
    w / h <= MAX_WIDTH / MAX_HEIGHT). *)
Theorem scaled_dims_fit_when_aspect_allows cfg w h :
  small w -> small h -> small (MAX_WIDTH cfg) -> small (MAX_HEIGHT cfg) ->
  w > MAX_WIDTH cfg \/ h > MAX_HEIGHT cfg ->
  (h < w -> MAX_WIDTH cfg * h <= MAX_HEIGHT cfg * w) ->
  (w <= h -> MAX_HEIGHT cfg * w <= MAX_WIDTH cfg * h) ->
  exists new_width new_height,
    resize_dims cfg w h = Ok (new_width, new_height) /\
    new_width <= MAX_WIDTH cfg /\ new_height <= MAX_HEIGHT cfg.
Proof.
  intros Hw Hh HW HH Big HL HP.
  destruct (Z_lt_le_dec h w) as [Hlt|Hle].
  - destruct (resize_dims_landscape cfg w h Hw Hh HW Hlt Big) as (nh & E & B).
    exists (MAX_WIDTH cfg), nh. split; [exact E|]. split; [lia|].
    assert (MAX_WIDTH cfg * h / w <= MAX_HEIGHT cfg); [|lia].
    destruct Hw. apply Z.div_le_upper_bound; [lia|].
    pose proof (HL Hlt). lia.
  - destruct (resize_dims_portrait cfg w h Hw Hh HH Hle Big) as (nw & E & B).
    exists nw, (MAX_HEIGHT cfg). split; [exact E|]. split; [|lia].
    assert (MAX_HEIGHT cfg * w / h <= MAX_WIDTH cfg); [|lia].
    destruct Hh. apply Z.div_le_upper_bound; [lia|].
    pose proof (HP Hle). lia.
Qed.

Lemma scaled_dims_fit_when_aspect_allows_witness :
  exists new_width new_height,
    resize_dims default_config 1600 1200 = Ok (new_width, new_height) /\
    new_width <= MAX_WIDTH default_config /\
    new_height <= MAX_HEIGHT default_config.
Proof.
  apply (scaled_dims_fit_when_aspect_allows default_config 1600 1200).
  - split; reflexivity.
  - split; reflexivity.
  - split; reflexivity.
  - split; reflexivity.
  - left. reflexivity.
  - intros _. cbn. discriminate.
  - intros H. exfalso. revert H. cbn. intros H. apply H. reflexivity.
Defined.

(** ** Splitting a key at its extension *)

Section Keys.

Lemma rfind_from_decomp c l : forall i last,
  (rfind_from c l i last = last /\ Forall (fun a => a <> c) l) \/
  exists l1 l2, l = l1 ++ c :: l2 /\ Forall (fun a => a <> c) l2 /\
    rfind_from c l i last = i + Z.of_nat (length l1).
Proof.
  induction l as [|a l IH]; intros i last; cbn [rfind_from].
  - left. split; [reflexivity|constructor].
  - destruct (IH (i + 1) (if Ascii.eqb a c then i else last))
      as [[E F]|(l1 & l2 & -> & F & E)].
    + destruct (Ascii.eqb_spec a c) as [->|Hac].
      * right. exists [], l. split; [reflexivity|]. split; [exact F|].
        rewrite E. cbn [length]. lia.
      * left. split; [exact E|]. constructor; assumption.
    + right. exists (a :: l1), l2. split; [reflexivity|]. split; [exact F|].
      rewrite E. cbn [length]. lia.
Qed.

Lemma rfind_from_app c l1 : forall l2 i last,
  rfind_from c (l1 ++ l2) i last
  = rfind_from c l2 (i + Z.of_nat (length l1)) (rfind_from c l1 i last).
Proof.
  induction l1 as [|a l1 IH]; intros l2 i last; cbn [app rfind_from length].
  - f_equal. lia.
  - rewrite IH. f_equal. lia.
Qed.

Lemma rfind_from_absent c l : forall i last,
  Forall (fun a => a <> c) l -> rfind_from c l i last = last.
Proof.
  induction l as [|a l IH]; intros i last F; cbn [rfind_from]; [reflexivity|].
  inversion F as [|? ? Hac F']; subst. rewrite IH by exact F'.
  destruct (Ascii.eqb_spec a c); [contradiction|reflexivity].
Qed.

Lemma list_of_substring s : forall n m,
  list_ascii_of_string (substring n m s)
  = take m (drop n (list_ascii_of_string s)).
Proof.
  induction s as [|a s IH]; intros n m.
  - destruct n, m; reflexivity.
  - destruct n as [|n].
    + destruct m as [|m]; [reflexivity|].
      cbn [substring list_ascii_of_string]. rewrite IH. reflexivity.
    + cbn [substring list_ascii_of_string]. rewrite IH. reflexivity.
Qed.

Lemma list_of_append s1 s2 :
  list_ascii_of_string (s1 +:+ s2)
  = list_ascii_of_string s1 ++ list_ascii_of_string s2.
Proof.
  induction s1 as [|a s1 IH]; [reflexivity|].
  simpl. f_equal. exact IH.
Qed.

Lemma length_of_list s : length (list_ascii_of_string s) = String.length s.
Proof. induction s as [|a s IH]; [reflexivity|]. cbn. rewrite IH. reflexivity. Qed.

Lemma string_of_list_eq s l : list_ascii_of_string s = l -> s = string_of_list_ascii l.
Proof. intros <-. symmetry. apply string_of_list_ascii_of_string. Qed.

Lemma app_cons_order {A} (s1 s2 d1 d2 : list A) x y :
  s1 ++ x :: s2 = d1 ++ y :: d2 -> (length s1 < length d1)%nat ->
  exists m, d1 = s1 ++ x :: m /\ s2 = m ++ y :: d2.
Proof.
  revert d1. induction s1 as [|a s1 IH]; intros d1 E Hl.
  - destruct d1 as [|b d1]; [cbn in Hl; lia|].
    cbn [app] in E. injection E as <- ->. exists d1. split; reflexivity.
  - destruct d1 as [|b d1]; [cbn in Hl; lia|].
    cbn [app] in E. injection E as <- E.
    destruct (IH d1 E) as (m & -> & E2); [cbn [length] in Hl; lia|].
    exists m. split; [reflexivity|exact E2].
Qed.

(** [os.path.splitext]: the two parts make up the path again; the extension
    is empty or a last dot of the file name and what follows it. *)
Lemma splitext_spec p :
  let '(name, ext) := splitext p in
  list_ascii_of_string p = list_ascii_of_string name ++ list_ascii_of_string ext /\
  (ext = "" \/
   exists rest, list_ascii_of_string ext = "."%char :: rest /\
     Forall (fun a => a <> "."%char) rest /\
     Forall (fun a => a <> "/"%char) rest).
Proof.
  unfold splitext, rfind. set (l := list_ascii_of_string p).
  destruct (rfind_from_decomp "/" l 0 (-1)) as [[Es Fs]|(s1 & s2 & El & Fs & Es)];
  destruct (rfind_from_decomp "." l 0 (-1)) as [[Ed Fd]|(d1 & d2 & Eld & Fd & Ed)];
    rewrite Es, Ed.
  all: match goal with
       | |- context [(?a <? ?b) && ?c] =>
           destruct ((a <? b) && c) eqn:Hc
       end.
  all: try (split; [rewrite app_nil_r; reflexivity|left; reflexivity]).
  all: apply andb_true_iff in Hc as [Hlt _]; apply Z.ltb_lt in Hlt; try lia.
  all: cbn [Z.add] in *.
  all: rewrite Z.add_0_l, Nat2Z.id.
  all: rewrite !list_of_substring; fold l; cbn [drop].
  all: assert (Hlen : String.length p = (length d1 + S (length d2))%nat)
         by (rewrite <- length_of_list; fold l; rewrite Eld, length_app;
             reflexivity).
  all: rewrite Hlen.
  all: replace (length d1 + S (length d2) - length d1)%nat
         with (length ("."%char :: d2)) by (cbn [length]; lia).
  all: assert (T1 : take (length d1) (drop 0 l) = d1)
         by (rewrite Eld; apply take_app_length).
  all: assert (T2 : take (length ("."%char :: d2)) (drop (length d1) l)
                    = "."%char :: d2)
         by (rewrite Eld, drop_app_length; apply firstn_all).
  all: rewrite T1, T2.
  all: split; [exact Eld|right; exists d2; split; [reflexivity|]; split;
               [exact Fd|]].
  - rewrite Eld in Fs. apply Forall_app in Fs as [_ Fs].
    inversion Fs; assumption.
  - rewrite Z.add_0_l in Hlt.
    assert (length s1 < length d1)%nat as Hl by lia.
    (* the dot lies after the last slash *)
    destruct (app_cons_order s1 s2 d1 d2 "/"%char "."%char) as (m & -> & ->);
      [congruence|exact Hl|].
    apply Forall_app in Fs as [_ Fs]. inversion Fs; assumption.
Qed.

End Keys.

Section OrdinaryNames.

Lemma list_of_string_inj s1 s2 :
  list_ascii_of_string s1 = list_ascii_of_string s2 -> s1 = s2.
Proof.
  intros E. rewrite <- (string_of_list_ascii_of_string s1),
    <- (string_of_list_ascii_of_string s2), E. reflexivity.
Qed.

Lemma rfind_from_range c l i last :
  last < i -> last <= rfind_from c l i last < i + Z.of_nat (length l) \/
              rfind_from c l i last = last.
Proof.
  intros Hl.
  destruct (rfind_from_decomp c l i last) as [[E _]|(l1 & l2 & -> & _ & E)].
  - right. exact E.
  - left. rewrite E, length_app. cbn [length]. lia.
Qed.

(** A file name whose last dot follows a character that is neither a dot
    nor a slash, and is followed by no slash: the extension starts at that
    dot. *)
Lemma splitext_ordinary p body c rest :
  list_ascii_of_string p = body ++ c :: "."%char :: rest ->
  c <> "."%char -> c <> "/"%char ->
  Forall (fun a => a <> "."%char) rest ->
  Forall (fun a => a <> "/"%char) rest ->
  splitext p = (string_of_list_ascii (body ++ [c]),
                string_of_list_ascii ("."%char :: rest)).
Proof.
  intros El Hc1 Hc2 Fd Fs. unfold splitext, rfind. rewrite El.
  set (pre := body ++ [c]).
  assert (Epre : body ++ c :: "."%char :: rest = pre ++ "."%char :: rest)
    by (unfold pre; rewrite <- app_assoc; reflexivity).
  assert (Lpre : length pre = S (length body))
    by (unfold pre; rewrite length_app; cbn [length]; lia).
  rewrite Epre.
  assert (Hdot : rfind_from "." (pre ++ "."%char :: rest) 0 (-1)
                 = Z.of_nat (length pre)).
  { rewrite rfind_from_app. cbn [rfind_from]. cbn [Ascii.eqb Bool.eqb].
    rewrite rfind_from_absent by exact Fd. lia. }
  assert (Hsep : rfind_from "/" (pre ++ "."%char :: rest) 0 (-1)
                 = rfind_from "/" body 0 (-1)).
  { rewrite rfind_from_app. cbn [rfind_from]. cbn [Ascii.eqb Bool.eqb].
    rewrite rfind_from_absent by exact Fs.
    unfold pre. rewrite rfind_from_app. cbn [rfind_from].
    destruct (Ascii.eqb_spec c "/"); [contradiction|reflexivity]. }
  rewrite Hdot, Hsep.
  set (sep := rfind_from "/" body 0 (-1)).
  assert (Hrange : -1 <= sep < Z.of_nat (length body)).
  { destruct (rfind_from_range "/" body 0 (-1) ltac:(lia)) as [H|H];
      fold sep in H; lia. }
  replace (sep <? Z.of_nat (length pre)) with true
    by (symmetry; apply Z.ltb_lt; lia).
  set (k := Z.to_nat (sep + 1)).
  assert (Hk : (k <= length body)%nat) by (unfold k; lia).
  replace (Z.to_nat (Z.of_nat (length pre) - (sep + 1)))
    with (length (drop k body ++ [c]))
    by (rewrite length_app, length_drop; cbn [length]; unfold k; lia).
  replace (drop k (pre ++ "."%char :: rest))
    with ((drop k body ++ [c]) ++ "."%char :: rest).
  2:{ unfold pre. rewrite <- !app_assoc.
      rewrite drop_app_le by exact Hk. reflexivity. }
  rewrite take_app_length, forallb_app. cbn [forallb].
  replace (Ascii.eqb "." c) with false
    by (symmetry; apply Ascii.eqb_neq; congruence).
  rewrite andb_false_r. cbn [negb andb].
  rewrite Nat2Z.id.
  f_equal; apply list_of_string_inj;
    rewrite list_of_substring, list_ascii_of_string_of_list_ascii.
  - rewrite El, Epre, drop_0. apply take_app_length.
  - rewrite <- length_of_list, El, Epre.
    rewrite drop_app_length, length_app, Nat.add_comm, Nat.add_sub.
    apply firstn_all.
Qed.

End OrdinaryNames.

(** ** The effects of a run on the three services *)

Section Effects.

Variable cfg : config.
Variable w : world.

Lemma wrote_at_most_refl dest st st' : s3 st' = s3 st -> wrote_at_most dest st st'.
Proof. intros E. unfold wrote_at_most. rewrite E. auto. Qed.

Lemma wrote_at_most_insert dest o st st' :
  s3 st' = <[dest := o]> (s3 st) -> wrote_at_most dest st st'.
Proof.
  intros E. unfold wrote_at_most. rewrite E. split.
  - intros k Hk. apply lookup_insert_ne. congruence.
  - intros _. rewrite lookup_insert_eq. eauto.
Qed.

Lemma wrote_at_most_trans dest st1 st2 st3 :
  wrote_at_most dest st1 st2 -> wrote_at_most dest st2 st3 ->
  wrote_at_most dest st1 st3.
Proof.
  intros [A1 B1] [A2 B2]. split.
  - intros k Hk. rewrite A2, A1 by exact Hk. reflexivity.
  - auto.
Qed.

Lemma s3_get_object_snd bucket key st :
  snd (s3_get_object w bucket key st) = tick st.
Proof. unfold s3_get_object. repeat case_match; reflexivity. Qed.

Lemma s3_get_object_raise_inv bucket key st e st' :
  s3_get_object w bucket key st = (Raise e, st') ->
  s3_fault w (clock st) (GetObject bucket key) = Some e \/
  s3 st !! (bucket, key) = None /\ e = no_such_key.
Proof.
  unfold s3_get_object. destruct (s3_fault w _ _) as [e'|].
  - intros [= -> _]. left. reflexivity.
  - destruct (s3 st !! (bucket, key)); [discriminate|].
    intros [= <- _]. right. split; reflexivity.
Qed.

(** The resize attempt, whatever its outcome, leaves the table and the topic
    and writes at most the destination object. *)
Lemma try_resize_frame image_content original_size new_key ct st :
  let st' := snd (try_resize cfg w image_content original_size new_key ct st) in
  ddb st' = ddb st /\ sns st' = sns st /\
  (s3 st' = s3 st \/
   exists o, s3 st' = <[(RESIZED_BUCKET cfg, new_key) := o]> (s3 st)).
Proof.
  unfold try_resize, lift, s3_put_object, size_saved.
  unfold mbind, M_bind, bind, mret, M_ret, ret, tick.
  repeat case_match; simplify_eq; cbn [snd s3 ddb sns]; split_all;
    try reflexivity; try (left; reflexivity); right; eexists; reflexivity.
Qed.

Lemma copy_original_frame source_bucket object_key new_key ct size st :
  let st' := snd (copy_original cfg w source_bucket object_key new_key ct
                    size st) in
  ddb st' = ddb st /\ sns st' = sns st /\
  (s3 st' = s3 st \/
   exists o, s3 st' = <[(RESIZED_BUCKET cfg, new_key) := o]> (s3 st)).
Proof.
  unfold copy_original, s3_copy_object.
  unfold mbind, M_bind, bind, mret, M_ret, ret, tick.
  repeat case_match; simplify_eq; cbn [snd s3 ddb sns]; split_all;
    try reflexivity; try (left; reflexivity); right; eexists; reflexivity.
Qed.

Lemma resize_or_copy_frame pillow source_bucket object_key image_content
    original_size new_key ct st :
  let st' := snd (resize_or_copy cfg w pillow source_bucket object_key
                    image_content original_size new_key ct st) in
  ddb st' = ddb st /\ sns st' = sns st /\
  wrote_at_most (RESIZED_BUCKET cfg, new_key) st st'.
Proof.
  unfold resize_or_copy, try_except. destruct pillow.
  - pose proof (try_resize_frame image_content original_size new_key ct st)
      as (D1 & N1 & S1).
    destruct (try_resize cfg w image_content original_size new_key ct st)
      as [[r|e] st1]; cbn [snd] in *.
    + split_all; [exact D1|exact N1|].
      destruct S1 as [S1|[o S1]];
        eauto using wrote_at_most_refl, wrote_at_most_insert.
    + pose proof (copy_original_frame source_bucket object_key new_key ct
                    original_size st1) as (D2 & N2 & S2).
      cbv zeta in D2, N2, S2. split_all; [congruence|congruence|].
      apply wrote_at_most_trans with st1.
      * destruct S1 as [S1|[o S1]];
          eauto using wrote_at_most_refl, wrote_at_most_insert.
      * destruct S2 as [S2|[o S2]];
          eauto using wrote_at_most_refl, wrote_at_most_insert.
  - pose proof (copy_original_frame source_bucket object_key new_key ct
                  original_size st) as (D2 & N2 & S2).
    cbv zeta in D2, N2, S2. split_all; [exact D2|exact N2|].
    destruct S2 as [S2|[o S2]];
      eauto using wrote_at_most_refl, wrote_at_most_insert.
Qed.

(** When the transform returns, the destination object is there. *)
Lemma resize_or_copy_stored pillow source_bucket object_key image_content
    original_size new_key ct st r st' :
  resize_or_copy cfg w pillow source_bucket object_key image_content
    original_size new_key ct st = (Ok r, st') ->
  is_Some (s3 st' !! (RESIZED_BUCKET cfg, new_key)).
Proof.
  assert (C : forall st0, 
    copy_original cfg w source_bucket object_key new_key ct original_size st0
      = (Ok r, st') -> is_Some (s3 st' !! (RESIZED_BUCKET cfg, new_key))).
  { intros st0 H. apply copy_original_ok_inv in H as (_ & o & _ & -> & _).
    rewrite lookup_insert_eq. eauto. }
  unfold resize_or_copy, try_except. destruct pillow; [|apply C].
  destruct (try_resize cfg w image_content original_size new_key ct st)
    as [[r1|e] st1] eqn:E; [|apply C].
  intros [= -> <-]. revert E.
  unfold try_resize, lift, s3_put_object, size_saved.
  unfold mbind, M_bind, bind, mret, M_ret, ret, tick.
  repeat case_match; simplify_eq; intros; simplify_eq; cbn [s3].
  rewrite lookup_insert_eq. eauto.
Qed.

(** Writing the item, whatever its outcome. *)
Lemma save_metadata_frame pillow source_bucket object_key new_key
    original_size resized_size ct dimensions st :
  let out := save_metadata cfg w pillow source_bucket object_key new_key
               original_size resized_size ct dimensions st in
  s3 (snd out) = s3 st /\ sns (snd out) = sns st /\
  match fst out with
  | Ok _ => exists item, ddb (snd out) = ddb st ++ [(DYNAMODB_TABLE cfg, item)]
  | Raise _ => ddb (snd out) = ddb st
  end.
Proof.
  unfold save_metadata, new_uuid4, now_isoformat, table_put_item.
  unfold mbind, M_bind, bind, mret, M_ret, ret, tick. cbn [clock s3 ddb sns].
  destruct (ddb_fault w _ _ _); cbn [fst snd s3 ddb sns]; split_all;
    try reflexivity.
  eexists. reflexivity.
Qed.

(** The notification of success, whatever its outcome: one message under
    the subject of success when it returns and a topic is configured, none
    otherwise. *)
Lemma send_notification_sns pillow object_key new_key original_size
    resized_size dimensions image_id st :
  let out := send_notification cfg w pillow object_key new_key original_size
               resized_size dimensions image_id st in
  match fst out with
  | Ok _ =>
      if String.eqb (SNS_TOPIC_ARN cfg) "" then sns (snd out) = sns st
      else exists message,
        sns (snd out) = sns st ++ [{| TopicArn := SNS_TOPIC_ARN cfg;
                                      Subject := complete_subject;
                                      Message := message |}]
  | Raise _ => sns (snd out) = sns st /\ SNS_TOPIC_ARN cfg <> ""
  end.
Proof.
  unfold send_notification, sns_publish, now_isoformat, lift, size_saved.
  unfold mbind, M_bind, bind, mret, M_ret, ret, tick.
  destruct (String.eqb_spec (SNS_TOPIC_ARN cfg) "") as [E|E];
    [reflexivity|].
  repeat case_match; simplify_eq; cbn [fst snd sns]; try (split; [reflexivity|assumption]);
    eexists; reflexivity.
Qed.

(** What one iteration of the loop does to the three services. *)
Lemma process_record_effects pillow record st :
  let out := process_record cfg w pillow record st in
  let dest := (RESIZED_BUCKET cfg, resized_key (object_key record)) in
  wrote_at_most dest st (snd out) /\
  match fst out with
  | Ok _ =>
      is_Some (s3 (snd out) !! dest) /\
      (exists item, ddb (snd out) = ddb st ++ [(DYNAMODB_TABLE cfg, item)]) /\
      if String.eqb (SNS_TOPIC_ARN cfg) "" then sns (snd out) = sns st
      else exists message,
        sns (snd out) = sns st ++ [{| TopicArn := SNS_TOPIC_ARN cfg;
                                      Subject := complete_subject;
                                      Message := message |}]
  | Raise _ =>
      sns (snd out) = sns st /\
      (ddb (snd out) = ddb st \/
       SNS_TOPIC_ARN cfg <> "" /\ is_Some (s3 (snd out) !! dest) /\
       exists item, ddb (snd out) = ddb st ++ [(DYNAMODB_TABLE cfg, item)])
  end.
Proof.
  intros out dest. subst out.
  destruct (process_record cfg w pillow record st) as [r st'] eqn:H.
  cbn [fst snd]. unfold process_record in H.
  pose proof (s3_get_object_snd (bucket_name record) (object_key record) st)
    as G.
  destruct (s3_get_object w (bucket_name record) (object_key record) st)
    as [[o|e] st1] eqn:Eg; cbn [snd] in G; subst st1.
  2:{ erewrite bind_raise in H by exact Eg. injection H as <- <-.
      split; [apply wrote_at_most_refl; reflexivity|].
      split; [reflexivity|left; reflexivity]. }
  erewrite bind_ok in H by exact Eg. cbv beta in H.
  match type of H with
  | context [resize_or_copy cfg w pillow ?b ?k ?c ?s ?n ?t] =>
      pose proof (resize_or_copy_frame pillow b k c s n t (tick st))
        as (D2 & N2 & W2);
      pose proof (resize_or_copy_stored pillow b k c s n t (tick st)) as St2;
      destruct (resize_or_copy cfg w pillow b k c s n t (tick st))
        as [[[rs dims]|e] st2] eqn:Er
  end; cbn [snd] in D2, N2, W2.
  change (ddb (tick st)) with (ddb st) in D2.
  change (sns (tick st)) with (sns st) in N2.
  assert (W2' : wrote_at_most dest st st2) by exact W2. clear W2.
  rename W2' into W2.
  2:{ erewrite bind_raise in H by exact Er. injection H as <- <-.
      split; [exact W2|]. split; [exact N2|left; exact D2]. }
  erewrite bind_ok in H by exact Er. cbv beta iota in H.
  specialize (St2 _ _ eq_refl). fold dest in St2.
  match type of H with
  | context [save_metadata cfg w pillow ?a1 ?a2 ?a3 ?a4 ?a5 ?a6 ?a7] =>
      pose proof (save_metadata_frame pillow a1 a2 a3 a4 a5 a6 a7 st2)
        as (S3 & N3 & D3);
      destruct (save_metadata cfg w pillow a1 a2 a3 a4 a5 a6 a7 st2)
        as [[image_id|e] st3] eqn:Es
  end; cbn [fst snd] in S3, N3, D3.
  2:{ erewrite bind_raise in H by exact Es. injection H as <- <-. split.
      - eapply wrote_at_most_trans; [exact W2|apply wrote_at_most_refl, S3].
      - split; [congruence|left; congruence]. }
  erewrite bind_ok in H by exact Es. cbv beta in H.
  destruct D3 as [item D3].
  match type of H with
  | send_notification cfg w pillow ?a1 ?a2 ?a3 ?a4 ?a5 ?a6 st3 = _ =>
      pose proof (send_notification_frame cfg w pillow a1 a2 a3 a4 a5 a6 st3)
        as [S4 D4];
      pose proof (send_notification_sns pillow a1 a2 a3 a4 a5 a6 st3) as N4
  end.
  rewrite H in S4, D4, N4. cbn [fst snd] in S4, D4, N4.
  destruct r as [[]|e].
  - split.
    { eapply wrote_at_most_trans; [exact W2|].
      apply wrote_at_most_refl. congruence. }
    split; [rewrite S4, S3; exact St2|].
    split; [exists item; rewrite D4, D3, D2; reflexivity|].
    destruct (String.eqb (SNS_TOPIC_ARN cfg) "").
    + rewrite N4, N3, N2. reflexivity.
    + destruct N4 as [message N4]. exists message.
      rewrite N4, N3, N2. reflexivity.
  - destruct N4 as [N4 T]. split.
    { eapply wrote_at_most_trans; [exact W2|].
      apply wrote_at_most_refl. congruence. }
    split; [rewrite N4, N3, N2; reflexivity|].
    right. split; [exact T|]. split; [rewrite S4, S3; exact St2|].
    exists item. rewrite D4, D3, D2. reflexivity.
Qed.


(** The loop, whatever its outcome: [n] records were processed to the end;
    each of them wrote one item and, with a topic, published one message of
    success.  A record that fails publishes nothing and leaves at most its
    item behind. *)
Lemma for_each_effects pillow event : forall st,
  let out := for_each (process_record cfg w pillow) event st in
  exists (n : nat) (items : list (string * gmap string value))
         (ps : list publication),
    ddb (snd out) = ddb st ++ items /\
    sns (snd out) = sns st ++ ps /\
    Forall (fun it => fst it = DYNAMODB_TABLE cfg) items /\
    Forall (fun p => TopicArn p = SNS_TOPIC_ARN cfg /\
                     Subject p = complete_subject) ps /\
    length ps = (if String.eqb (SNS_TOPIC_ARN cfg) "" then 0 else n)%nat /\
    match fst out with
    | Ok _ => n = length event /\ length items = n
    | Raise _ =>
        (n < length event)%nat /\
        (length items = n \/
         SNS_TOPIC_ARN cfg <> "" /\ length items = S n)
    end.
Proof.
  induction event as [|record event IH]; intros st out; subst out.
  - exists 0%nat, [], []. cbn [for_each fst snd].
    unfold mret, M_ret, ret. cbn [fst snd length]. rewrite !app_nil_r.
    split_all; try reflexivity; try constructor.
    destruct (String.eqb _ _); reflexivity.
  - cbn [for_each].
    pose proof (process_record_effects pillow record st) as [_ P].
    destruct (process_record cfg w pillow record st) as [[[]|e] st1] eqn:E;
      cbn [fst snd] in P.
    + erewrite bind_ok by exact E. cbv beta.
      destruct P as (_ & [item D1] & N1).
      destruct (IH st1) as (n & items & ps & D & N & Fi & Fp & Lp & O).
      destruct (String.eqb (SNS_TOPIC_ARN cfg) "") eqn:T.
      * exists (S n), ((DYNAMODB_TABLE cfg, item) :: items), ps.
        rewrite D, D1, N, N1, <- app_assoc. cbn [app length].
        split_all; try reflexivity; try assumption.
        { constructor; [reflexivity|assumption]. }
        destruct (fst (for_each (process_record cfg w pillow) event st1)).
        -- destruct O as [-> ->]. split; reflexivity.
        -- destruct O as [O1 [O2|[O2 O3]]]; (split; [lia|]);
             [left|right; split; [assumption|]]; lia.
      * destruct N1 as [message N1].
        exists (S n), ((DYNAMODB_TABLE cfg, item) :: items),
          ({| TopicArn := SNS_TOPIC_ARN cfg; Subject := complete_subject;
              Message := message |} :: ps).
        rewrite D, D1, N, N1, <- !app_assoc. cbn [app length].
        split_all; try reflexivity; try assumption.
        { constructor; [reflexivity|assumption]. }
        { constructor; [split; reflexivity|assumption]. }
        { rewrite Lp. reflexivity. }
        destruct (fst (for_each (process_record cfg w pillow) event st1)).
        -- destruct O as [-> ->]. split; reflexivity.
        -- destruct O as [O1 [O2|[O2 O3]]]; (split; [lia|]);
             [left|right; split; [assumption|]]; lia.
    + erewrite bind_raise by exact E. cbn [fst snd length].
      destruct P as [N1 [D1|(T & _ & item & D1)]].
      * exists 0%nat, [], []. rewrite D1, N1, !app_nil_r. cbn [length].
        split_all; [reflexivity|reflexivity|constructor|constructor| |lia|].
        { destruct (String.eqb _ _); reflexivity. }
        left. reflexivity.
      * exists 0%nat, [(DYNAMODB_TABLE cfg, item)], [].
        rewrite D1, N1, !app_nil_r. cbn [length].
        split_all; [reflexivity|reflexivity| |constructor| |lia|].
        { constructor; [reflexivity|constructor]. }
        { destruct (String.eqb _ _); reflexivity. }
        right. split; [exact T|reflexivity].
Qed.

(** The loop writes at most the destination objects of its records, and
    deletes nothing. *)
Lemma for_each_s3 pillow event : forall st,
  let st' := snd (for_each (process_record cfg w pillow) event st) in
  (forall k,
     (forall record, record ∈ event ->
        k <> (RESIZED_BUCKET cfg, resized_key (object_key record))) ->
     s3 st' !! k = s3 st !! k) /\
  (forall k, is_Some (s3 st !! k) -> is_Some (s3 st' !! k)).
Proof.
  induction event as [|record event IH]; intros st st'; subst st'.
  - cbn [for_each snd]. split; auto.
  - cbn [for_each].
    pose proof (process_record_effects pillow record st) as [[W1 W2] _].
    cbv zeta in W1, W2.
    assert (K : forall k, is_Some (s3 st !! k) ->
      is_Some (s3 (snd (process_record cfg w pillow record st)) !! k)).
    { intros k Hk.
      destruct (decide (k = (RESIZED_BUCKET cfg,
                             resized_key (object_key record)))) as [->|Hne].
      - apply W2, Hk.
      - rewrite W1 by exact Hne. exact Hk. }
    destruct (process_record cfg w pillow record st) as [[[]|e] st1] eqn:E;
      cbn [snd] in W1, W2, K.
    + erewrite bind_ok by exact E. cbv beta.
      destruct (IH st1) as [F1 F2]. cbv zeta in F1, F2. split.
      * intros k Hk. rewrite F1, W1; [reflexivity| |].
        -- apply Hk. left.
        -- intros r Hr. apply Hk. right. exact Hr.
      * intros k Hk. apply F2, K, Hk.
    + erewrite bind_raise by exact E. cbn [snd]. split.
      * intros k Hk. apply W1, Hk. left.
      * exact K.
Qed.

(** A loop that raises stopped at the first record whose processing
    raises. *)
Lemma for_each_raise_inv f event : forall st e st2,
  for_each f event st = (Raise e, st2) ->
  exists before record after st1,
    event = before ++ record :: after /\
    for_each f before st = (Ok tt, st1) /\
    f record st1 = (Raise e, st2).
Proof.
  induction event as [|r event IH]; intros st e st2 H.
  - discriminate.
  - cbn [for_each] in H.
    destruct (f r st) as [[[]|e1] st1] eqn:E.
    + erewrite bind_ok in H by exact E. cbv beta in H.
      destruct (IH st1 e st2 H) as (before & record & after & st3 & -> & Hb & Hr).
      exists (r :: before), record, after, st3.
      split; [reflexivity|]. split; [|exact Hr].
      cbn [for_each]. erewrite bind_ok by exact E. exact Hb.
    + erewrite bind_raise in H by exact E. injection H as <- <-.
      exists [], r, event, st. split; [reflexivity|].
      split; [reflexivity|exact E].
Qed.

End Effects.

Section Outcomes.

Variable cfg : config.
Variable w : world.

Lemma string_length_append s1 s2 :
  String.length (s1 +:+ s2) = (String.length s1 + String.length s2)%nat.
Proof.
  rewrite <- !length_of_list, list_of_append, length_app. reflexivity.
Qed.

Lemma resized_key_length object_key :
  String.length (resized_key object_key) = (String.length object_key + 8)%nat.
Proof.
  unfold resized_key. pose proof (splitext_spec object_key) as H.
  destruct (splitext object_key) as [name ext]. destruct H as [H _].
  apply (f_equal (@length ascii)) in H.
  rewrite length_app, !length_of_list in H.
  rewrite !string_length_append, H. cbn [String.length]. lia.
Qed.

Lemma resized_key_neq object_key : resized_key object_key <> object_key.
Proof.
  intros E. pose proof (resized_key_length object_key) as L.
  rewrite E in L. lia.
Qed.

(** The resize attempt, when it returns. *)
Lemma try_resize_ok_full image_content original_size new_key ct st r st' :
  try_resize cfg w image_content original_size new_key ct st = (Ok r, st') ->
  exists img nw nh resized (content : list byte),
    image_open w image_content = Ok img /\
    resize_dims cfg (fst (size img)) (snd (size img)) = Ok (nw, nh) /\
    image_resize w img (nw, nh) = Ok resized /\
    image_save w resized (img_format img) = Ok content /\
    original_size <> 0 /\
    r = (Z.of_nat (length content),
         dimensions_dict (fst (size img)) (snd (size img)) nw nh) /\
    s3 st' = <[(RESIZED_BUCKET cfg, new_key) :=
                {| Body := content; ContentType := Some ct |}]> (s3 st).
Proof.
  unfold try_resize, lift, s3_put_object, size_saved.
  unfold mbind, M_bind, bind, mret, M_ret, ret.
  destruct (image_open w image_content) as [img|]; [|discriminate].
  destruct (size img) as [ow oh] eqn:Hsz.
  destruct (resize_dims cfg ow oh) as [[nw nh]|] eqn:Hd; [|discriminate].
  destruct (image_resize w img (nw, nh)) as [resized|] eqn:Hr; [|discriminate].
  destruct (image_save w resized (img_format img)) as [content|] eqn:Hs;
    [|discriminate].
  destruct (s3_fault w _ _); [discriminate|].
  destruct (Z.eqb_spec original_size 0) as [|Hnz]; [discriminate|].
  intros [= <- <-]. exists img, nw, nh, resized, content.
  rewrite Hsz. cbn [fst snd s3].
  split_all; try reflexivity; assumption.
Qed.

(** The notification of success, when it returns. *)
Lemma send_notification_ok_inv pillow object_key new_key original_size
    resized_size (dimensions : gmap string value) image_id st u st' :
  send_notification cfg w pillow object_key new_key original_size
    resized_size dimensions image_id st = (Ok u, st') ->
  SNS_TOPIC_ARN cfg <> "" ->
  exists time,
    sns st' = sns st ++
      [{| TopicArn := SNS_TOPIC_ARN cfg; Subject := complete_subject;
          Message :=
            if pillow && negb (bool_decide (dimensions = ∅))
            then MsgResized object_key new_key dimensions original_size
                   resized_size (RESIZED_BUCKET cfg) image_id time
            else MsgProcessed object_key new_key original_size
                   (RESIZED_BUCKET cfg) image_id time |}].
Proof.
  intros H T. revert H.
  unfold send_notification, sns_publish, now_isoformat, lift, size_saved.
  unfold mbind, M_bind, bind, mret, M_ret, ret, tick.
  destruct (String.eqb_spec (SNS_TOPIC_ARN cfg) "") as [E|_]; [contradiction|].
  destruct (pillow && negb (bool_decide (dimensions = ∅)));
    repeat case_match; simplify_eq; intros; simplify_eq; cbn [sns];
    eexists; reflexivity.
Qed.

(** A record processed to the end: the object read, the outcome of the
    transform, the item and the message. *)
Lemma process_record_ok_inv pillow record st st' :
  process_record cfg w pillow record st = (Ok tt, st') ->
  let ct o := default "image/jpeg" (ContentType o) in
  let new_key := resized_key (object_key record) in
  exists (o : s3_object) rs (dims item : gmap string value) image_id st2,
    s3 st !! (bucket_name record, object_key record) = Some o /\
    resize_or_copy cfg w pillow (bucket_name record) (object_key record)
      (Body o) (Z.of_nat (length (Body o))) new_key (ct o) (tick st)
      = (Ok (rs, dims), st2) /\
    s3 st' = s3 st2 /\
    ddb st' = ddb st ++ [(DYNAMODB_TABLE cfg, item)] /\
    (forall k, dims !! k = None ->
       item !! k =
       (list_to_map
          [("image_id", VStr image_id);
           ("original_bucket", VStr (bucket_name record));
           ("original_key", VStr (object_key record));
           ("processed_bucket", VStr (RESIZED_BUCKET cfg));
           ("processed_key", VStr new_key);
           ("original_size", VInt (Z.of_nat (length (Body o))));
           ("resized_size", VInt rs);
           ("content_type", VStr (ct o));
           ("processed_at", VStr (utcnow w (S (clock st2))));
           ("status", VStr (if pillow then "resized" else "copied"));
           ("pillow_used", VBool pillow)] : gmap string value) !! k) /\
    (forall k v, dims !! k = Some v -> item !! k = Some v) /\
    (SNS_TOPIC_ARN cfg <> "" ->
     exists time,
       sns st' = sns st ++
         [{| TopicArn := SNS_TOPIC_ARN cfg; Subject := complete_subject;
             Message :=
               if pillow && negb (bool_decide (dims = ∅))
               then MsgResized (object_key record) new_key dims
                      (Z.of_nat (length (Body o))) rs (RESIZED_BUCKET cfg)
                      image_id time
               else MsgProcessed (object_key record) new_key
                      (Z.of_nat (length (Body o))) (RESIZED_BUCKET cfg)
                      image_id time |}]).
Proof.
  intros H ct new_key. unfold process_record in H.
  apply bind_ok_inv in H as (o & st1 & Hget & H).
  apply s3_get_object_ok_inv in Hget as [Ho ->].
  apply bind_ok_inv in H as ([rs dims] & st2 & Htr & H).
  match type of Htr with
  | resize_or_copy _ _ _ ?b ?k ?c ?s ?n ?t _ = _ =>
      pose proof (resize_or_copy_frame cfg w pillow b k c s n t (tick st))
        as F2
  end.
  rewrite Htr in F2. cbn [snd] in F2. destruct F2 as (D2 & N2 & _).
  change (ddb (tick st)) with (ddb st) in D2.
  change (sns (tick st)) with (sns st) in N2.
  apply bind_ok_inv in H as (image_id & st3 & Hsave & H).
  apply save_metadata_ok_inv in Hsave as (item & S3 & N3 & D3 & Hnone & Hsome).
  match type of H with
  | send_notification ?c ?w ?p ?a1 ?a2 ?a3 ?a4 ?a5 ?a6 st3 = _ =>
      pose proof (send_notification_frame c w p a1 a2 a3 a4 a5 a6 st3)
        as [S4 D4]
  end.
  rewrite H in S4, D4. cbn [snd] in S4, D4.
  exists o, rs, dims, item, image_id, st2.
  split_all; [exact Ho|exact Htr|congruence| |exact Hnone|exact Hsome|].
  - rewrite D4, D3, D2. reflexivity.
  - intros T. apply send_notification_ok_inv in H as [time H]; [|exact T].
    exists time. rewrite H, N3, N2. reflexivity.
Qed.

(** The dimension keys are none of the keys of line 127-139. *)
Lemma dims_lookup_base (dims : gmap string value) k :
  (dims = ∅ \/ exists ow oh nw nh, dims = dimensions_dict ow oh nw nh) ->
  k ∈ ["image_id"; "original_bucket"; "original_key"; "processed_bucket";
       "processed_key"; "original_size"; "resized_size"; "content_type";
       "processed_at"; "status"; "pillow_used"] ->
  dims !! k = None.
Proof.
  intros [->|(ow & oh & nw & nh & ->)] Hk; [apply lookup_empty|].
  repeat (apply elem_of_cons in Hk as [->|Hk]; [reflexivity|]).
  apply elem_of_nil in Hk. contradiction.
Qed.

(** The item of a processed record: an object is stored at the destination,
    and the keys of lines 127-139 hold the values of that literal. *)
Lemma process_record_item_base pillow record st st' :
  process_record cfg w pillow record st = (Ok tt, st') ->
  exists (o : s3_object) (item : gmap string value) rs image_id processed_at,
    s3 st !! (bucket_name record, object_key record) = Some o /\
    ddb st' = ddb st ++ [(DYNAMODB_TABLE cfg, item)] /\
    is_Some (s3 st' !! (RESIZED_BUCKET cfg, resized_key (object_key record))) /\
    forall k,
      k ∈ ["image_id"; "original_bucket"; "original_key"; "processed_bucket";
           "processed_key"; "original_size"; "resized_size"; "content_type";
           "processed_at"; "status"; "pillow_used"] ->
      item !! k =
      (list_to_map
         [("image_id", VStr image_id);
          ("original_bucket", VStr (bucket_name record));
          ("original_key", VStr (object_key record));
          ("processed_bucket", VStr (RESIZED_BUCKET cfg));
          ("processed_key", VStr (resized_key (object_key record)));
          ("original_size", VInt (Z.of_nat (length (Body o))));
          ("resized_size", VInt rs);
          ("content_type", VStr (default "image/jpeg" (ContentType o)));
          ("processed_at", VStr processed_at);
          ("status", VStr (if pillow then "resized" else "copied"));
          ("pillow_used", VBool pillow)] : gmap string value) !! k.
Proof.
  intros H.
  pose proof (process_record_effects cfg w pillow record st) as [_ P].
  rewrite H in P. cbn [fst snd] in P. destruct P as (St & _).
  apply process_record_ok_inv in H.
  destruct H as (o & rs & dims & item & image_id & st2 & Ho & Htr & _ & D
                 & Hnone & _).
  apply resize_or_copy_ok_inv in Htr as [_ Hdims].
  exists o, item, rs, image_id, (utcnow w (S (clock st2))).
  split_all; [exact Ho|exact D|exact St|].
  intros k Hk. apply Hnone, dims_lookup_base; [|exact Hk].
  destruct Hdims as [->|(_ & Hd)]; [left; reflexivity|right; exact Hd].
Qed.

(** A transform that returns dimensions has divided by the size of the
    source (line 91): the source is not empty. *)
Lemma resize_or_copy_dims_size pillow source_bucket object_key image_content
    original_size new_key ct st rs (dims : gmap string value) st' :
  resize_or_copy cfg w pillow source_bucket object_key image_content
    original_size new_key ct st = (Ok (rs, dims), st') ->
  dims = ∅ \/ original_size <> 0.
Proof.
  unfold resize_or_copy, try_except. destruct pillow.
  - destruct (try_resize cfg w image_content original_size new_key ct st)
      as [[r|e] st1] eqn:E.
    + intros _. right.
      apply try_resize_ok_full in E
        as (? & ? & ? & ? & ? & _ & _ & _ & _ & Hnz & _). exact Hnz.
    + intros H. apply copy_original_ok_inv in H as ([= _ ->] & _).
      left. reflexivity.
  - intros H. apply copy_original_ok_inv in H as ([= _ ->] & _).
    left. reflexivity.
Qed.

Lemma bind_raise_inv {A B} (m : M A) (k : A -> M B) st e st' :
  (m ≫= k) st = (Raise e, st') ->
  m st = (Raise e, st') \/
  exists a st1, m st = (Ok a, st1) /\ k a st1 = (Raise e, st').
Proof.
  unfold mbind, M_bind, bind. destruct (m st) as [[a|e1] st1]; intros H.
  - right. exists a, st1. split; [reflexivity|exact H].
  - left. injection H as -> ->. reflexivity.
Qed.

(** The notification of success raises only what [publish] raises, unless
    it divides by the size of an empty source (line 151). *)
Lemma send_notification_raise_inv pillow object_key new_key original_size
    resized_size (dimensions : gmap string value) image_id st e st' :
  send_notification cfg w pillow object_key new_key original_size
    resized_size dimensions image_id st = (Raise e, st') ->
  dimensions <> ∅ /\ original_size = 0 \/
  exists n p, sns_fault w n p = Some e /\
    TopicArn p = SNS_TOPIC_ARN cfg /\ Subject p = complete_subject.
Proof.
  unfold send_notification, sns_publish, now_isoformat, lift, size_saved.
  unfold mbind, M_bind, bind, mret, M_ret, ret, tick.
  destruct (String.eqb (SNS_TOPIC_ARN cfg) ""); [discriminate|].
  destruct (pillow && negb (bool_decide (dimensions = ∅))) eqn:Hb.
  - destruct (Z.eqb_spec original_size 0) as [Hz|_].
    + intros _. left. split; [|exact Hz].
      apply andb_true_iff in Hb as [_ Hb]. apply negb_true_iff in Hb.
      apply bool_decide_eq_false in Hb. exact Hb.
    + cbn [clock]. 
      match goal with
      | |- context [sns_fault w ?n ?p] =>
          destruct (sns_fault w n p) as [e1|] eqn:Hf; [|discriminate];
          intros [= <- _]; right; exists n, p
      end.
      split_all; [exact Hf|reflexivity|reflexivity].
  - cbn [clock].
    match goal with
    | |- context [sns_fault w ?n ?p] =>
        destruct (sns_fault w n p) as [e1|] eqn:Hf; [|discriminate];
        intros [= <- _]; right; exists n, p
    end.
    split_all; [exact Hf|reflexivity|reflexivity].
Qed.

(** A record whose processing raises. *)
Lemma process_record_raise_inv pillow record st e st' :
  process_record cfg w pillow record st = (Raise e, st') ->
  sns st' = sns st /\
  (ddb st' = ddb st \/
   SNS_TOPIC_ARN cfg <> "" /\
   is_Some (s3 st' !! (RESIZED_BUCKET cfg, resized_key (object_key record))) /\
   (exists item, ddb st' = ddb st ++ [(DYNAMODB_TABLE cfg, item)]) /\
   exists n p, sns_fault w n p = Some e /\
     TopicArn p = SNS_TOPIC_ARN cfg /\ Subject p = complete_subject).
Proof.
  intros H.
  pose proof (process_record_effects cfg w pillow record st) as [_ P].
  rewrite H in P. cbn [fst snd] in P. destruct P as [N P].
  split; [exact N|].
  unfold process_record in H.
  apply bind_raise_inv in H as [H|(o & st1 & Hget & H)].
  { left. pose proof (s3_get_object_snd w (bucket_name record)
                        (object_key record) st) as G.
    rewrite H in G. cbn [snd] in G. subst st'. reflexivity. }
  pose proof (s3_get_object_snd w (bucket_name record)
                (object_key record) st) as G.
  rewrite Hget in G. cbn [snd] in G. subst st1.
  apply bind_raise_inv in H as [H|([rs dims] & st2 & Htr & H)].
  { left.
    match type of H with
    | resize_or_copy _ _ _ ?b ?k ?c ?s ?n ?t _ = _ =>
        pose proof (resize_or_copy_frame cfg w pillow b k c s n t (tick st))
          as (D2 & _)
    end.
    rewrite H in D2. exact D2. }
  match type of Htr with
  | resize_or_copy _ _ _ ?b ?k ?c ?s ?n ?t _ = _ =>
      pose proof (resize_or_copy_frame cfg w pillow b k c s n t (tick st))
        as (D2 & _)
  end.
  rewrite Htr in D2. cbn [snd] in D2.
  change (ddb (tick st)) with (ddb st) in D2.
  apply bind_raise_inv in H as [H|(image_id & st3 & Hsave & H)].
  { left.
    match type of H with
    | save_metadata _ _ _ ?a1 ?a2 ?a3 ?a4 ?a5 ?a6 ?a7 _ = _ =>
        pose proof (save_metadata_frame cfg w pillow a1 a2 a3 a4 a5 a6 a7 st2)
          as (_ & _ & D3)
    end.
    rewrite H in D3. cbn [fst snd] in D3. congruence. }
  destruct P as [P|(T & St & Item)]; [left; exact P|right].
  split_all; [exact T|exact St|exact Item|].
  apply send_notification_raise_inv in H as [[Hne Hz]|F]; [|exact F].
  apply resize_or_copy_dims_size in Htr as [?|?]; contradiction.
Qed.

End Outcomes.

(** ** The destination key *)

(** Lines 43-44, for every object key: [os.path.splitext] cuts the key in
    two parts that make it up again, and the destination key is the first
    part, "_resized" and the second.  The second part is empty or starts at
    a dot and holds no other dot and no slash.  The destination key is eight
    characters longer than the key, so it is never the key itself. *)
Theorem resized_key_keeps_name_and_extension object_key :
  exists name ext : string,
    object_key = name +:+ ext /\
    resized_key object_key = name +:+ "_resized" +:+ ext /\
    (ext = "" \/
     exists rest, ext = String "." rest /\
       Forall (fun a => a <> "."%char /\ a <> "/"%char)
         (list_ascii_of_string rest)) /\
    String.length (resized_key object_key)
    = (String.length object_key + 8)%nat /\
    resized_key object_key <> object_key.
Proof.
  pose proof (splitext_spec object_key) as H.
  pose proof (resized_key_length object_key) as L.
  pose proof (resized_key_neq object_key) as N.
  unfold resized_key in *.
  destruct (splitext object_key) as [name ext]. destruct H as [J E].
  exists name, ext. split_all; [|reflexivity| |exact L|exact N].
  - apply list_of_string_inj. rewrite list_of_append. exact J.
  - destruct E as [->|(rest & E & Fd & Fs)]; [left; reflexivity|right].
    exists (string_of_list_ascii rest). split.
    + apply list_of_string_inj. cbn [list_ascii_of_string].
      rewrite list_ascii_of_string_of_list_ascii. exact E.
    + rewrite list_ascii_of_string_of_list_ascii.
      apply Forall_and. split; assumption.
Qed.

(** Lines 43-44, for a key whose last dot follows a character that is
    neither a dot nor a slash and is followed by no slash (photo.jpg,
    a/b.c/photo.tar.gz): "_resized" goes in front of that dot. *)
Theorem resized_key_of_ordinary_name stem c rest :
  c <> "."%char -> c <> "/"%char ->
  Forall (fun a => a <> "."%char /\ a <> "/"%char)
    (list_ascii_of_string rest) ->
  resized_key (stem +:+ String c (String "." rest))
  = stem +:+ String c ("_resized" +:+ String "." rest).
Proof.
  intros Hc1 Hc2 F. apply Forall_and in F as [Fd Fs].
  unfold resized_key.
  rewrite (splitext_ordinary _ (list_ascii_of_string stem) c
             (list_ascii_of_string rest)); try assumption.
  2:{ rewrite list_of_append. reflexivity. }
  apply list_of_string_inj.
  rewrite !list_of_append, !list_ascii_of_string_of_list_ascii.
  cbn [list_ascii_of_string]. rewrite list_of_append, <- !app_assoc.
  reflexivity.
Qed.

Lemma resized_key_of_ordinary_name_witness :
  resized_key ("a/b.c/phot" +:+ String "o" (String "." "jpg"))
  = "a/b.c/phot" +:+ String "o" ("_resized" +:+ String "." "jpg").
Proof.
  apply (resized_key_of_ordinary_name "a/b.c/phot" "o" "jpg").
  - discriminate.
  - discriminate.
  - repeat constructor; discriminate.
Defined.

(** ** What a run leaves in the buckets, the table and the topic *)

Section Runs.

Variable cfg : config.
Variable w : world.

Lemma lambda_handler_ok_inv event st r st' :
  lambda_handler cfg w event st = (Ok r, st') ->
  for_each (process_record cfg w (pillow_available w)) event st
    = (Ok tt, st') /\
  r = {| statusCode := 200;
         body_message := "Image processing completed successfully";
         body_pillow_available := pillow_available w |}.
Proof.
  unfold lambda_handler, try_except.
  destruct (for_each (process_record cfg w (pillow_available w)) event st)
    as [[[]|e] st1] eqn:E.
  - erewrite bind_ok by exact E. unfold mret, M_ret, ret.
    intros [= <- <-]. split; reflexivity.
  - erewrite bind_raise by exact E.
    destruct (report_and_reraise_spec cfg w (A := response) e st1)
      as (st2 & -> & _). discriminate.
Qed.

(** The outer [except] with no topic configured publishes nothing. *)
Lemma report_and_reraise_sns {A} e st :
  let st' := snd (report_and_reraise cfg w (A := A) e st) in
  if String.eqb (SNS_TOPIC_ARN cfg) "" then sns st' = sns st
  else sns st' = sns st \/
       exists time,
         sns st' = sns st ++ [{| TopicArn := SNS_TOPIC_ARN cfg;
                                 Subject := failed_subject;
                                 Message := MsgError (str e) time |}].
Proof.
  unfold report_and_reraise, try_except, raise, sns_publish, now_isoformat.
  unfold mbind, M_bind, bind, mret, M_ret, ret, tick. cbn [clock s3 ddb sns].
  destruct (String.eqb (SNS_TOPIC_ARN cfg) ""); [reflexivity|].
  destruct (sns_fault w _ _); cbn [snd sns]; [left; reflexivity|].
  right. eexists. reflexivity.
Qed.

(** The handler, whatever its outcome, in terms of its loop. *)
Lemma lambda_handler_run event st :
  let loop := for_each (process_record cfg w (pillow_available w)) event st in
  let out := lambda_handler cfg w event st in
  match fst loop with
  | Ok _ =>
      out = (Ok {| statusCode := 200;
                   body_message := "Image processing completed successfully";
                   body_pillow_available := pillow_available w |}, snd loop)
  | Raise e =>
      fst out = Raise e /\
      s3 (snd out) = s3 (snd loop) /\ ddb (snd out) = ddb (snd loop) /\
      if String.eqb (SNS_TOPIC_ARN cfg) "" then sns (snd out) = sns (snd loop)
      else sns (snd out) = sns (snd loop) \/
           exists time,
             sns (snd out) = sns (snd loop) ++
               [{| TopicArn := SNS_TOPIC_ARN cfg; Subject := failed_subject;
                   Message := MsgError (str e) time |}]
  end.
Proof.
  intros loop out. subst loop out. unfold lambda_handler, try_except.
  destruct (for_each (process_record cfg w (pillow_available w)) event st)
    as [[[]|e] st1] eqn:E; cbn [fst snd].
  - erewrite bind_ok by exact E. reflexivity.
  - erewrite bind_raise by exact E.
    pose proof (report_and_reraise_sns (A := response) e st1) as N.
    destruct (report_and_reraise_spec cfg w (A := response) e st1)
      as (st2 & R & S3 & D3 & _).
    rewrite R in N |- *. cbn [fst snd] in N |- *.
    split_all; [reflexivity|exact S3|exact D3|exact N].
Qed.

End Runs.

(** Lines 83-88, 103-108 and 113-118, for every batch and whatever the
    outcome of the invocation: the handler writes no object but the
    destination objects of the records of the batch (the destination bucket,
    under the destination keys), and it deletes none. *)
Theorem handler_writes_only_destinations cfg w event st :
  let st' := snd (lambda_handler cfg w event st) in
  (forall k,
     (forall record, record ∈ event ->
        k <> (RESIZED_BUCKET cfg, resized_key (object_key record))) ->
     s3 st' !! k = s3 st !! k) /\
  (forall k, is_Some (s3 st !! k) -> is_Some (s3 st' !! k)).
Proof.
  intros st'. subst st'.
  pose proof (lambda_handler_run cfg w event st) as R.
  pose proof (for_each_s3 cfg w (pillow_available w) event st) as F.
  cbv zeta in R, F.
  destruct (for_each (process_record cfg w (pillow_available w)) event st)
    as [[[]|e] st1]; cbn [fst snd] in R, F.
  - rewrite R. exact F.
  - destruct R as (_ & -> & _). exact F.
Qed.

(** Lines 43-44 with the three writes to S3: processing a record, whatever
    its outcome, leaves the source object of the record as it was, even when
    the destination bucket is the source bucket. *)
Theorem source_object_left_in_place cfg w pillow record st :
  let st' := snd (process_record cfg w pillow record st) in
  s3 st' !! (bucket_name record, object_key record)
  = s3 st !! (bucket_name record, object_key record).
Proof.
  intros st'. subst st'.
  pose proof (process_record_effects cfg w pillow record st) as [[W _] _].
  apply W. intros [= _ E]. symmetry in E. revert E. apply resized_key_neq.
Qed.

(** Lines 149 and 209: with no topic configured (SNS_TOPIC_ARN empty) an
    invocation publishes nothing, whether it returns or raises. *)
Theorem no_topic_no_publication cfg w event st :
  SNS_TOPIC_ARN cfg = "" ->
  sns (snd (lambda_handler cfg w event st)) = sns st.
Proof.
  intros T.
  pose proof (lambda_handler_run cfg w event st) as R.
  destruct (for_each_effects cfg w (pillow_available w) event st)
    as (n & items & ps & _ & N & _ & _ & L & _).
  cbv zeta in R. rewrite T in R, L. cbn [String.eqb] in R, L.
  destruct ps; [|discriminate]. rewrite app_nil_r in N.
  destruct (for_each (process_record cfg w (pillow_available w)) event st)
    as [[[]|e] st1]; cbn [fst snd] in R, N.
  - rewrite R. exact N.
  - destruct R as (_ & _ & _ & ->). exact N.
Qed.

Lemma no_topic_no_publication_witness :
  sns (snd (lambda_handler default_config Scenario.sns_down
              Scenario.missing_then_photo Scenario.st0))
  = sns Scenario.st0.
Proof.
  apply (no_topic_no_publication default_config Scenario.sns_down
           Scenario.missing_then_photo Scenario.st0).
  reflexivity.
Defined.

(** Lines 31, 145 and 197-203, for every batch: the table only grows, by
    items of the configured table.  When the handler returns, it returns
    status 200 and has written exactly one item per record of the batch;
    when it raises, it has written at most one item per record. *)
Theorem one_item_per_processed_record cfg w event st :
  let out := lambda_handler cfg w event st in
  exists items : list (string * gmap string value),
    ddb (snd out) = ddb st ++ items /\
    Forall (fun it => fst it = DYNAMODB_TABLE cfg) items /\
    match fst out with
    | Ok r =>
        length items = length event /\ statusCode r = 200 /\
        body_pillow_available r = pillow_available w
    | Raise _ => (length items <= length event)%nat
    end.
Proof.
  intros out. subst out.
  pose proof (lambda_handler_run cfg w event st) as R.
  destruct (for_each_effects cfg w (pillow_available w) event st)
    as (n & items & ps & D & _ & Fi & _ & _ & O).
  cbv zeta in R. exists items.
  destruct (for_each (process_record cfg w (pillow_available w)) event st)
    as [[[]|e] st1]; cbn [fst snd] in R, D, O.
  - rewrite R. cbn [fst snd statusCode body_pillow_available].
    destruct O as [-> O]. split_all; auto.
  - destruct R as (-> & _ & -> & _). split_all; [exact D|exact Fi|].
    destruct O as [O1 [O2|[_ O2]]]; lia.
Qed.

(** Lines 149-191 and 209-217, with a topic configured: an invocation that
    returns has published exactly one message of success per record of the
    batch and nothing else.  One that raises has stopped at a record of the
    batch, the first whose processing raises; it has published exactly one
    message of success for each record before that one and after them at
    most one message of failure, which carries the text of the error
    raised. *)
Theorem one_message_per_processed_record cfg w event st :
  SNS_TOPIC_ARN cfg <> "" ->
  let out := lambda_handler cfg w event st in
  match fst out with
  | Ok _ =>
      exists ps : list publication,
        sns (snd out) = sns st ++ ps /\
        length ps = length event /\
        Forall (fun p => TopicArn p = SNS_TOPIC_ARN cfg /\
                         Subject p = complete_subject) ps
  | Raise e =>
      exists before record after st1 st2 (ps tail : list publication),
        event = before ++ record :: after /\
        for_each (process_record cfg w (pillow_available w)) before st
          = (Ok tt, st1) /\
        process_record cfg w (pillow_available w) record st1
          = (Raise e, st2) /\
        sns (snd out) = sns st ++ ps ++ tail /\
        length ps = length before /\
        Forall (fun p => TopicArn p = SNS_TOPIC_ARN cfg /\
                         Subject p = complete_subject) ps /\
        (tail = [] \/
         exists time,
           tail = [{| TopicArn := SNS_TOPIC_ARN cfg;
                      Subject := failed_subject;
                      Message := MsgError (str e) time |}])
  end.
Proof.
  intros T out. subst out.
  pose proof (lambda_handler_run cfg w event st) as R. cbv zeta in R.
  destruct (String.eqb_spec (SNS_TOPIC_ARN cfg) "") as [?|_]; [contradiction|].
  destruct (for_each (process_record cfg w (pillow_available w)) event st)
    as [[[]|e] st2] eqn:E; cbn [fst snd] in R.
  - rewrite R. cbn [fst snd].
    destruct (for_each_effects cfg w (pillow_available w) event st)
      as (n & items & ps & _ & N & _ & Fp & L & O).
    rewrite E in N, O. cbn [fst snd] in N, O. destruct O as [-> _].
    exists ps. split; [exact N|]. split; [|exact Fp].
    rewrite L. destruct (String.eqb_spec (SNS_TOPIC_ARN cfg) "");
      [contradiction|reflexivity].
  - destruct R as (-> & _ & _ & R).
    apply for_each_raise_inv in E
      as (before & record & after & st1 & -> & Hb & Hr).
    destruct (for_each_effects cfg w (pillow_available w) before st)
      as (n & items & ps & _ & N & _ & Fp & L & O).
    rewrite Hb in N, O. cbn [fst snd] in N, O. destruct O as [-> _].
    assert (Lp : length ps = length before).
    { rewrite L. destruct (String.eqb_spec (SNS_TOPIC_ARN cfg) "");
        [contradiction|reflexivity]. }
    pose proof (process_record_effects cfg w (pillow_available w) record st1)
      as [_ P].
    rewrite Hr in P. cbn [fst snd] in P. destruct P as [N2 _].
    destruct R as [R|[time R]].
    + exists before, record, after, st1, st2, ps, [].
      rewrite app_nil_r, R, N2, N.
      split_all; try reflexivity; try assumption. left. reflexivity.
    + eexists before, record, after, st1, st2, ps, [_].
      rewrite R, N2, N, <- app_assoc.
      split_all; try reflexivity; try assumption.
      right. exists time. reflexivity.
Qed.

Lemma one_message_per_processed_record_witness :
  let cfg := Scenario.cfg in
  let w := Scenario.no_pillow in
  let event := Scenario.photo_event ++ Scenario.missing_then_photo in
  let st := Scenario.st0 in
  let out := lambda_handler cfg w event st in
  match fst out with
  | Ok _ =>
      exists ps : list publication,
        sns (snd out) = sns st ++ ps /\
        length ps = length event /\
        Forall (fun p => TopicArn p = SNS_TOPIC_ARN cfg /\
                         Subject p = complete_subject) ps
  | Raise e =>
      exists before record after st1 st2 (ps tail : list publication),
        event = before ++ record :: after /\
        for_each (process_record cfg w (pillow_available w)) before st
          = (Ok tt, st1) /\
        process_record cfg w (pillow_available w) record st1
          = (Raise e, st2) /\
        sns (snd out) = sns st ++ ps ++ tail /\
        length ps = length before /\
        Forall (fun p => TopicArn p = SNS_TOPIC_ARN cfg /\
                         Subject p = complete_subject) ps /\
        (tail = [] \/
         exists time,
           tail = [{| TopicArn := SNS_TOPIC_ARN cfg;
                      Subject := failed_subject;
                      Message := MsgError (str e) time |}])
  end.
Proof.
  intros cfg w event st.
  apply (one_message_per_processed_record cfg w event st).
  discriminate.
Defined.

(** Lines 38-146, 151 and 187, for every record whose processing raises: the
    loop body has published nothing, and it has written no item, unless the
    error is the one [publish] raised for the message of success (with a
    topic configured): then the destination object is stored and the item
    written.  The division of line 151 never raises: it runs only after a
    resize, which has divided by the same size at line 91. *)
Theorem failed_record_leaves_no_item_unless_notifying
    cfg w pillow record st e st' :
  process_record cfg w pillow record st = (Raise e, st') ->
  sns st' = sns st /\
  (ddb st' = ddb st \/
   SNS_TOPIC_ARN cfg <> "" /\
   is_Some (s3 st' !! (RESIZED_BUCKET cfg, resized_key (object_key record))) /\
   (exists item, ddb st' = ddb st ++ [(DYNAMODB_TABLE cfg, item)]) /\
   exists n p, sns_fault w n p = Some e /\
     TopicArn p = SNS_TOPIC_ARN cfg /\ Subject p = complete_subject).
Proof.
  intros H.
  destruct (process_record_raise_inv cfg w pillow record st e st' H)
    as [N [D|(T & St & Item & F)]].
  - split; [exact N|left; exact D].
  - split; [exact N|right]. split_all; assumption.
Qed.

Lemma failed_record_leaves_no_item_unless_notifying_witness :
  let record := Scenario.record_of "a/photo.jpg" in
  let e := ClientError "AuthorizationError on Publish" in
  let st' := snd (process_record Scenario.cfg Scenario.sns_down false record
                    Scenario.st0) in
  sns st' = sns Scenario.st0 /\
  (ddb st' = ddb Scenario.st0 \/
   SNS_TOPIC_ARN Scenario.cfg <> "" /\
   is_Some (s3 st' !! (RESIZED_BUCKET Scenario.cfg,
                       resized_key (object_key record))) /\
   (exists item, ddb st' = ddb Scenario.st0
                           ++ [(DYNAMODB_TABLE Scenario.cfg, item)]) /\
   exists n p, sns_fault Scenario.sns_down n p = Some e /\
     TopicArn p = SNS_TOPIC_ARN Scenario.cfg /\ Subject p = complete_subject).
Proof.
  intros record e st'.
  apply (failed_record_leaves_no_item_unless_notifying Scenario.cfg
           Scenario.sns_down false record Scenario.st0 e st').
  vm_compute. reflexivity.
Defined.

(** ** What is stored and recorded for a processed record *)

(** Lines 38-44 and 127-145, for every record processed to the end, with or
    without Pillow and whichever branch ran: the item names the source
    (bucket and key of the record) and the destination (the configured
    bucket, the destination key), an object is stored under the destination
    it names, original_size is the length of the source object, and
    content_type is that of the source object, or image/jpeg when it has
    none. *)
Theorem item_locates_source_and_destination cfg w pillow record st st' :
  process_record cfg w pillow record st = (Ok tt, st') ->
  exists (o : s3_object) (item : gmap string value),
    s3 st !! (bucket_name record, object_key record) = Some o /\
    ddb st' = ddb st ++ [(DYNAMODB_TABLE cfg, item)] /\
    item !! "original_bucket" = Some (VStr (bucket_name record)) /\
    item !! "original_key" = Some (VStr (object_key record)) /\
    item !! "processed_bucket" = Some (VStr (RESIZED_BUCKET cfg)) /\
    item !! "processed_key" = Some (VStr (resized_key (object_key record))) /\
    is_Some (s3 st' !! (RESIZED_BUCKET cfg, resized_key (object_key record))) /\
    item !! "original_size" = Some (VInt (Z.of_nat (length (Body o)))) /\
    item !! "content_type"
    = Some (VStr (default "image/jpeg" (ContentType o))).
Proof.
  intros H.
  destruct (process_record_item_base cfg w pillow record st st' H)
    as (o & item & rs & image_id & processed_at & Ho & D & St & B).
  exists o, item.
  split_all; [exact Ho|exact D| | | | |exact St| |];
    (rewrite B by repeat constructor; reflexivity).
Qed.

Lemma item_locates_source_and_destination_witness :
  let record := Scenario.record_of "a/photo.jpg" in
  let st' := snd (process_record Scenario.cfg Scenario.unreadable true record
                    Scenario.st0) in
  exists (o : s3_object) (item : gmap string value),
    s3 Scenario.st0 !! (bucket_name record, object_key record) = Some o /\
    ddb st' = ddb Scenario.st0 ++ [(DYNAMODB_TABLE Scenario.cfg, item)] /\
    item !! "original_bucket" = Some (VStr (bucket_name record)) /\
    item !! "original_key" = Some (VStr (object_key record)) /\
    item !! "processed_bucket" = Some (VStr (RESIZED_BUCKET Scenario.cfg)) /\
    item !! "processed_key" = Some (VStr (resized_key (object_key record))) /\
    is_Some (s3 st' !! (RESIZED_BUCKET Scenario.cfg,
                        resized_key (object_key record))) /\
    item !! "original_size" = Some (VInt (Z.of_nat (length (Body o)))) /\
    item !! "content_type"
    = Some (VStr (default "image/jpeg" (ContentType o))).
Proof.
  intros record st'.
  apply (item_locates_source_and_destination Scenario.cfg Scenario.unreadable
           true record Scenario.st0 st').
  vm_compute. reflexivity.
Defined.

(** Lines 100-110, for every record processed to the end whose resize
    attempt raised (at any of its steps, the upload of line 83 and the
    division of line 91 included): the destination holds the source object
    as it is stored, the item has resized_size equal to original_size, no
    dimension key and pillow_used true, and with a topic configured the
    message published is the one of lines 174-185. *)
Theorem failed_resize_stores_source_object cfg w record st st' o e st1 :
  s3 st !! (bucket_name record, object_key record) = Some o ->
  try_resize cfg w (Body o) (Z.of_nat (length (Body o)))
    (resized_key (object_key record))
    (default "image/jpeg" (ContentType o)) (tick st) = (Raise e, st1) ->
  process_record cfg w true record st = (Ok tt, st') ->
  exists item : gmap string value,
    s3 st' !! (RESIZED_BUCKET cfg, resized_key (object_key record)) = Some o /\
    ddb st' = ddb st ++ [(DYNAMODB_TABLE cfg, item)] /\
    item !! "original_size" = Some (VInt (Z.of_nat (length (Body o)))) /\
    item !! "resized_size" = Some (VInt (Z.of_nat (length (Body o)))) /\
    item !! "pillow_used" = Some (VBool true) /\
    item !! "original_width" = None /\ item !! "original_height" = None /\
    item !! "resized_width" = None /\ item !! "resized_height" = None /\
    (SNS_TOPIC_ARN cfg <> "" ->
     exists image_id time,
       sns st' = sns st ++
         [{| TopicArn := SNS_TOPIC_ARN cfg; Subject := complete_subject;
             Message := MsgProcessed (object_key record)
                          (resized_key (object_key record))
                          (Z.of_nat (length (Body o))) (RESIZED_BUCKET cfg)
                          image_id time |}]).
Proof.
  intros Ho Hfail H.
  apply process_record_ok_inv in H.
  destruct H as (o' & rs & dims & item & image_id & st2 & Ho' & Htr & S2 & D
                 & Hnone & _ & Hmsg).
  rewrite Ho in Ho'. injection Ho' as <-.
  unfold resize_or_copy, try_except in Htr. rewrite Hfail in Htr.
  pose proof (try_resize_frame cfg w (Body o) (Z.of_nat (length (Body o)))
                (resized_key (object_key record))
                (default "image/jpeg" (ContentType o)) (tick st)) as F.
  rewrite Hfail in F. cbn [snd] in F. destruct F as (_ & _ & F).
  apply copy_original_ok_inv in Htr as ([= -> ->] & o1 & Ho1 & S1 & _).
  assert (Hsrc : s3 st1 !! (bucket_name record, object_key record) = Some o).
  { destruct F as [->|[o2 ->]]; [exact Ho|].
    rewrite lookup_insert_ne; [exact Ho|].
    intros [= _ E]. revert E. apply resized_key_neq. }
  rewrite Hsrc in Ho1. injection Ho1 as <-.
  exists item.
  split_all; [rewrite S2, S1; apply lookup_insert_eq|exact D| | | | | | | |];
    try (rewrite Hnone; [reflexivity|apply lookup_empty]).
  intros T. destruct (Hmsg T) as [time N]. exists image_id, time.
  rewrite N. reflexivity.
Qed.

Lemma failed_resize_stores_source_object_witness :
  let record := Scenario.record_of "a/photo.jpg" in
  let st' := snd (process_record Scenario.cfg (Scenario.with_pillow (1000, 1))
                    true record Scenario.st0) in
  exists item : gmap string value,
    s3 st' !! (RESIZED_BUCKET Scenario.cfg, resized_key (object_key record))
    = Some Scenario.photo /\
    ddb st' = ddb Scenario.st0 ++ [(DYNAMODB_TABLE Scenario.cfg, item)] /\
    item !! "original_size"
    = Some (VInt (Z.of_nat (length (Body Scenario.photo)))) /\
    item !! "resized_size"
    = Some (VInt (Z.of_nat (length (Body Scenario.photo)))) /\
    item !! "pillow_used" = Some (VBool true) /\
    item !! "original_width" = None /\ item !! "original_height" = None /\
    item !! "resized_width" = None /\ item !! "resized_height" = None /\
    (SNS_TOPIC_ARN Scenario.cfg <> "" ->
     exists image_id time,
       sns st' = sns Scenario.st0 ++
         [{| TopicArn := SNS_TOPIC_ARN Scenario.cfg;
             Subject := complete_subject;
             Message := MsgProcessed (object_key record)
                          (resized_key (object_key record))
                          (Z.of_nat (length (Body Scenario.photo)))
                          (RESIZED_BUCKET Scenario.cfg) image_id time |}]).
Proof.
  intros record st'.
  apply (failed_resize_stores_source_object Scenario.cfg
           (Scenario.with_pillow (1000, 1)) record Scenario.st0 st'
           Scenario.photo (ValueError "height and width must be > 0")
           (tick Scenario.st0)).
  - reflexivity.
  - vm_compute. reflexivity.
  - vm_compute. reflexivity.
Defined.

(** Lines 50-98, for every record processed to the end whose resize attempt
    returned: Pillow opened the source bytes, the size computed from the
    image's own is the one passed to [resize] and the one recorded, the
    destination holds the bytes [save] wrote in the image's format (JPEG
    when it has none) under the content type of the source, resized_size is
    their length, and with a topic configured the message published is the
    one of lines 152-172. *)
Theorem successful_resize_stores_encoded_image cfg w record st st' o r st1 :
  s3 st !! (bucket_name record, object_key record) = Some o ->
  try_resize cfg w (Body o) (Z.of_nat (length (Body o)))
    (resized_key (object_key record))
    (default "image/jpeg" (ContentType o)) (tick st) = (Ok r, st1) ->
  process_record cfg w true record st = (Ok tt, st') ->
  exists img nw nh resized (content : list byte) (item : gmap string value),
    image_open w (Body o) = Ok img /\
    resize_dims cfg (fst (size img)) (snd (size img)) = Ok (nw, nh) /\
    image_resize w img (nw, nh) = Ok resized /\
    image_save w resized (img_format img) = Ok content /\
    s3 st' !! (RESIZED_BUCKET cfg, resized_key (object_key record))
    = Some {| Body := content;
              ContentType := Some (default "image/jpeg" (ContentType o)) |} /\
    ddb st' = ddb st ++ [(DYNAMODB_TABLE cfg, item)] /\
    item !! "resized_size" = Some (VInt (Z.of_nat (length content))) /\
    item !! "original_width" = Some (VInt (fst (size img))) /\
    item !! "original_height" = Some (VInt (snd (size img))) /\
    item !! "resized_width" = Some (VInt nw) /\
    item !! "resized_height" = Some (VInt nh) /\
    (SNS_TOPIC_ARN cfg <> "" ->
     exists image_id time,
       sns st' = sns st ++
         [{| TopicArn := SNS_TOPIC_ARN cfg; Subject := complete_subject;
             Message := MsgResized (object_key record)
                          (resized_key (object_key record))
                          (dimensions_dict (fst (size img)) (snd (size img))
                             nw nh)
                          (Z.of_nat (length (Body o)))
                          (Z.of_nat (length content)) (RESIZED_BUCKET cfg)
                          image_id time |}]).
Proof.
  intros Ho Hok H.
  apply process_record_ok_inv in H.
  destruct H as (o' & rs & dims & item & image_id & st2 & Ho' & Htr & S2 & D
                 & Hnone & Hsome & Hmsg).
  rewrite Ho in Ho'. injection Ho' as <-.
  unfold resize_or_copy, try_except in Htr. rewrite Hok in Htr.
  injection Htr as -> ->.
  apply try_resize_ok_full in Hok
    as (img & nw & nh & resized & content & Hopen & Hdims & Hres & Hsave
        & _ & [= -> ->] & S1).
  exists img, nw, nh, resized, content, item.
  split_all; [exact Hopen|exact Hdims|exact Hres|exact Hsave
             |rewrite S2, S1; apply lookup_insert_eq|exact D| | | | | |].
  - rewrite Hnone; reflexivity.
  - apply Hsome. reflexivity.
  - apply Hsome. reflexivity.
  - apply Hsome. reflexivity.
  - apply Hsome. reflexivity.
  - intros T. destruct (Hmsg T) as [time N]. exists image_id, time.
    rewrite N, dimensions_dict_nonempty. reflexivity.
Qed.

Lemma successful_resize_stores_encoded_image_witness :
  let w := Scenario.with_pillow (1600, 1200) in
  let record := Scenario.record_of "a/photo.jpg" in
  let o := Scenario.photo in
  let st' := snd (process_record Scenario.cfg w true record Scenario.st0) in
  exists img nw nh resized (content : list byte) (item : gmap string value),
    image_open w (Body o) = Ok img /\
    resize_dims Scenario.cfg (fst (size img)) (snd (size img)) = Ok (nw, nh) /\
    image_resize w img (nw, nh) = Ok resized /\
    image_save w resized (img_format img) = Ok content /\
    s3 st' !! (RESIZED_BUCKET Scenario.cfg, resized_key (object_key record))
    = Some {| Body := content;
              ContentType := Some (default "image/jpeg" (ContentType o)) |} /\
    ddb st' = ddb Scenario.st0 ++ [(DYNAMODB_TABLE Scenario.cfg, item)] /\
    item !! "resized_size" = Some (VInt (Z.of_nat (length content))) /\
    item !! "original_width" = Some (VInt (fst (size img))) /\
    item !! "original_height" = Some (VInt (snd (size img))) /\
    item !! "resized_width" = Some (VInt nw) /\
    item !! "resized_height" = Some (VInt nh) /\
    (SNS_TOPIC_ARN Scenario.cfg <> "" ->
     exists image_id time,
       sns st' = sns Scenario.st0 ++
         [{| TopicArn := SNS_TOPIC_ARN Scenario.cfg;
             Subject := complete_subject;
             Message := MsgResized (object_key record)
                          (resized_key (object_key record))
                          (dimensions_dict (fst (size img)) (snd (size img))
                             nw nh)
                          (Z.of_nat (length (Body o)))
                          (Z.of_nat (length content))
                          (RESIZED_BUCKET Scenario.cfg) image_id time |}]).
Proof.
  intros w record o st'.
  eapply (successful_resize_stores_encoded_image Scenario.cfg w record
            Scenario.st0 st' o).
  - reflexivity.
  - apply (try_resize_ok Scenario.cfg w (Body o) (Z.of_nat (length (Body o)))
             (resized_key (object_key record))
             (default "image/jpeg" (ContentType o)) (tick Scenario.st0)
             {| size := (1600, 1200); format := Some "JPEG" |}
             1600 1200 800 600 {| size := (800, 600); format := None |}
             [x2a; x2b]);
      [reflexivity|reflexivity|vm_compute; reflexivity|reflexivity
      |reflexivity|reflexivity|discriminate].
  - vm_compute. reflexivity.
Defined.

(** Lines 38 and 205-219, for every batch whose first record names an object
    that is not in the bucket: the invocation raises the NoSuchKey error of
    the read, stores nothing, writes no item and publishes at most the
    message of failure with that error's text. *)
Theorem missing_object_fails_the_invocation cfg w record event st :
  s3_fault w (clock st)
    (GetObject (bucket_name record) (object_key record)) = None ->
  s3 st !! (bucket_name record, object_key record) = None ->
  exists st',
    lambda_handler cfg w (record :: event) st = (Raise no_such_key, st') /\
    s3 st' = s3 st /\ ddb st' = ddb st /\
    (sns st' = sns st \/
     exists time,
       sns st' = sns st ++ [{| TopicArn := SNS_TOPIC_ARN cfg;
                               Subject := failed_subject;
                               Message := MsgError (str no_such_key) time |}]).
Proof.
  intros Hf Hm.
  assert (G : s3_get_object w (bucket_name record) (object_key record) st
              = (Raise no_such_key, tick st)).
  { unfold s3_get_object. rewrite Hf, Hm. reflexivity. }
  assert (P : process_record cfg w (pillow_available w) record st
              = (Raise no_such_key, tick st)).
  { unfold process_record. erewrite bind_raise by exact G. reflexivity. }
  unfold lambda_handler, try_except. cbn [for_each].
  erewrite bind_raise by (erewrite bind_raise by exact P; reflexivity).
  apply (report_and_reraise_spec cfg w (A := response) no_such_key (tick st)).
Qed.

Lemma missing_object_fails_the_invocation_witness :
  exists st',
    lambda_handler Scenario.cfg Scenario.no_pillow
      (Scenario.record_of "a/missing.jpg" :: Scenario.photo_event) Scenario.st0
    = (Raise no_such_key, st') /\
    s3 st' = s3 Scenario.st0 /\ ddb st' = ddb Scenario.st0 /\
    (sns st' = sns Scenario.st0 \/
     exists time,
       sns st' = sns Scenario.st0 ++
         [{| TopicArn := SNS_TOPIC_ARN Scenario.cfg;
             Subject := failed_subject;
             Message := MsgError (str no_such_key) time |}]).
Proof.
  apply (missing_object_fails_the_invocation Scenario.cfg Scenario.no_pillow
           (Scenario.record_of "a/missing.jpg") Scenario.photo_event
           Scenario.st0).
  - reflexivity.
  - reflexivity.
Defined.

(** ** The pipeline test and the handler *)

Section PipelineTest.

Lemma replace_list_jpg new pre :
  Forall (fun a => a <> "."%char) pre ->
  replace_list (list_ascii_of_string ".jpg") new 0
    (pre ++ list_ascii_of_string ".jpg")
  = pre ++ new.
Proof.
  induction pre as [|a pre IH]; intros F.
  - cbn. rewrite app_nil_r. reflexivity.
  - inversion F as [|? ? Ha F']; subst.
    cbn [app replace_list list_ascii_of_string starts_with].
    replace (Ascii.eqb "." a) with false
      by (symmetry; apply Ascii.eqb_neq; congruence).
    cbn [andb]. f_equal. apply IH. exact F'.
Qed.

Lemma test_key_list uuid :
  list_ascii_of_string (TestPipeline.test_key uuid)
  = (list_ascii_of_string "test-" ++ list_ascii_of_string uuid)
    ++ list_ascii_of_string ".jpg".
Proof.
  unfold TestPipeline.test_key. rewrite !list_of_append, app_assoc.
  reflexivity.
Qed.

(** Line 25 of the test against lines 43-44 of the handler. *)
Lemma test_key_agreement uuid :
  Forall (fun a => a <> "."%char /\ a <> "/"%char)
    (list_ascii_of_string uuid) ->
  TestPipeline.resized_key (TestPipeline.test_key uuid)
  = resized_key (TestPipeline.test_key uuid).
Proof.
  intros F. apply Forall_and in F as [Fd Fs].
  set (pre := list_ascii_of_string "test-" ++ list_ascii_of_string uuid).
  assert (Fpre : Forall (fun a => a <> "."%char) pre).
  { apply Forall_app. split; [|exact Fd]. repeat constructor; discriminate. }
  assert (L : TestPipeline.resized_key (TestPipeline.test_key uuid)
              = string_of_list_ascii
                  (pre ++ list_ascii_of_string "_resized.jpg")).
  { unfold TestPipeline.resized_key, str_replace.
    rewrite test_key_list. fold pre.
    change (list_ascii_of_string ".jpg")
      with ("."%char :: list_ascii_of_string "jpg") at 1.
    cbv iota beta.
    change ("."%char :: list_ascii_of_string "jpg")
      with (list_ascii_of_string ".jpg").
    rewrite replace_list_jpg by exact Fpre. reflexivity. }
  rewrite L. clear L.
  assert (exists body c, pre = body ++ [c] /\ c <> "."%char /\ c <> "/"%char)
    as (body & c & Epre & Hc1 & Hc2).
  { unfold pre. destruct (list_ascii_of_string uuid) as [|a l] eqn:E
      using rev_ind.
    - exists (list_ascii_of_string "test"), "-"%char.
      split; [reflexivity|]. split; discriminate.
    - clear IHl. exists (list_ascii_of_string "test-" ++ l), a.
      rewrite app_assoc. split; [reflexivity|].
      apply Forall_app in Fd as [_ Fd]. apply Forall_app in Fs as [_ Fs].
      inversion Fd; inversion Fs; subst. split; assumption. }
  unfold resized_key.
  rewrite (splitext_ordinary _ body c (list_ascii_of_string "jpg")).
  - apply list_of_string_inj.
    rewrite !list_of_append, !list_ascii_of_string_of_list_ascii, <- Epre.
    reflexivity.
  - rewrite test_key_list. fold pre. rewrite Epre, <- app_assoc. reflexivity.
  - exact Hc1.
  - exact Hc2.
  - repeat constructor; discriminate.
  - repeat constructor; discriminate.
Qed.

Lemma scan_finds_written page table key st0 (item : gmap string value) st :
  ddb st = ddb st0 ++ [(table, item)] ->
  item !! "original_key" = Some (VStr key) ->
  (forall i, i ∈ TestPipeline.table_items table st ->
             i ∈ page (TestPipeline.table_items table st)) ->
  TestPipeline.scan page table key st <> [].
Proof.
  intros D K Hpage.
  assert (I : item ∈ TestPipeline.table_items table st).
  { unfold TestPipeline.table_items. rewrite D, List.filter_app, map_app.
    cbn [List.filter fst snd]. rewrite String.eqb_refl. cbn [map].
    apply elem_of_app. right. constructor. }
  apply Hpage, list_elem_of_In in I.
  unfold TestPipeline.scan. intros E.
  assert (J : In item
    (List.filter
       (fun item => bool_decide (item !! "original_key" = Some (VStr key)))
       (page (TestPipeline.table_items table st)))).
  { apply filter_In. split; [exact I|].
    apply bool_decide_eq_true_2. exact K. }
  rewrite E in J. destruct J.
Qed.

End PipelineTest.

(** [test_pipeline.py] against the handler, for a handler configured with
    the test's destination bucket and table and a uuid text with no dot and
    no slash: the key the test looks for (line 25) is the destination key
    the handler derives (lines 43-44).  Once the handler has returned on the
    event of the test's upload, the test finds the object, and it finds the
    item and returns True when the page its one scan reads holds the items
    of the table (a table of more than one page can hide the item from
    it). *)
Theorem pipeline_test_passes_after_processing cfg w uuid body page st r :
  RESIZED_BUCKET cfg = TestPipeline.dest_bucket ->
  DYNAMODB_TABLE cfg = "ImageMetadata" ->
  Forall (fun a => a <> "."%char /\ a <> "/"%char)
    (list_ascii_of_string uuid) ->
  let event := [{| bucket_name := TestPipeline.source_bucket;
                   object_key := TestPipeline.test_key uuid |}] in
  let run := lambda_handler cfg w event (TestPipeline.upload uuid body st) in
  fst run = Ok r ->
  (forall item,
     item ∈ TestPipeline.table_items "ImageMetadata" (snd run) ->
     item ∈ page (TestPipeline.table_items "ImageMetadata" (snd run))) ->
  TestPipeline.resized_key (TestPipeline.test_key uuid)
  = resized_key (TestPipeline.test_key uuid) /\
  is_Some (s3 (snd run)
             !! (TestPipeline.dest_bucket,
                 TestPipeline.resized_key (TestPipeline.test_key uuid))) /\
  fst (TestPipeline.test_image_pipeline uuid body
         (fun s => snd (lambda_handler cfg w event s)) page st) = true.
Proof.
  intros HB HT F event run H Hpage.
  pose proof (test_key_agreement uuid F) as A. split; [exact A|].
  unfold TestPipeline.test_image_pipeline. rewrite A. fold event. fold run.
  subst run.
  destruct (lambda_handler cfg w event (TestPipeline.upload uuid body st))
    as [res st'] eqn:E.
  cbn [fst snd] in H, Hpage |- *. subst res.
  apply lambda_handler_ok_inv in E as [E _].
  unfold event in E. cbn [for_each] in E.
  apply bind_ok_inv in E as ([] & st2 & P & R).
  injection R as ->.
  apply process_record_item_base in P
    as (o & item & rs & image_id & processed_at & _ & D & [o' St] & B).
  assert (K : item !! "original_key"
              = Some (VStr (TestPipeline.test_key uuid)))
    by (rewrite B by repeat constructor; reflexivity).
  cbn [bucket_name object_key] in D, St.
  rewrite HB in St. rewrite HT in D. rewrite St.
  split; [eauto|].
  pose proof (scan_finds_written page _ _ _ _ _ D K Hpage) as N.
  destruct (TestPipeline.scan page "ImageMetadata"
              (TestPipeline.test_key uuid) st');
    [contradiction|reflexivity].
Qed.

Lemma pipeline_test_passes_after_processing_witness :
  let cfg := {| RESIZED_BUCKET := TestPipeline.dest_bucket;
                DYNAMODB_TABLE := "ImageMetadata"; SNS_TOPIC_ARN := "";
                MAX_WIDTH := 800; MAX_HEIGHT := 600 |} in
  let uuid := "0a1b-2c3d" in
  let page := fun items : list (gmap string value) => items in
  let event := [{| bucket_name := TestPipeline.source_bucket;
                   object_key := TestPipeline.test_key uuid |}] in
  let run := lambda_handler cfg Scenario.no_pillow event
               (TestPipeline.upload uuid [x01] Scenario.st0) in
  TestPipeline.resized_key (TestPipeline.test_key uuid)
  = resized_key (TestPipeline.test_key uuid) /\
  is_Some (s3 (snd run)
             !! (TestPipeline.dest_bucket,
                 TestPipeline.resized_key (TestPipeline.test_key uuid))) /\
  fst (TestPipeline.test_image_pipeline uuid [x01]
         (fun s => snd (lambda_handler cfg Scenario.no_pillow event s))
         page Scenario.st0) = true.
Proof.
  intros cfg uuid page event run.
  apply (pipeline_test_passes_after_processing cfg Scenario.no_pillow uuid
           [x01] page Scenario.st0
           {| statusCode := 200;
              body_message := "Image processing completed successfully";
              body_pillow_available := false |}).
  - reflexivity.
  - reflexivity.
  - repeat constructor; discriminate.
  - vm_compute. reflexivity.
  - intros item Hitem. exact Hitem.
Defined.

(** The same run with a scan whose page stops before the item: the object is
    there, the test reports that the metadata is missing. *)
Example pipeline_test_misses_item_beyond_page :
  let cfg := {| RESIZED_BUCKET := TestPipeline.dest_bucket;
                DYNAMODB_TABLE := "ImageMetadata"; SNS_TOPIC_ARN := "";
                MAX_WIDTH := 800; MAX_HEIGHT := 600 |} in
  let uuid := "0a1b-2c3d" in
  let event := [{| bucket_name := TestPipeline.source_bucket;
                   object_key := TestPipeline.test_key uuid |}] in
  fst (TestPipeline.test_image_pipeline uuid [x01]
         (fun s => snd (lambda_handler cfg Scenario.no_pillow event s))
         (fun _ => []) Scenario.st0) = false.
Proof. vm_compute. reflexivity. Qed.

(** ** Repeated records *)

Section Sequencing.

Variable cfg : config.
Variable w : world.

(** Processing a record reads its source as it was before. *)
Lemma process_record_source pillow record st :
  s3 (snd (process_record cfg w pillow record st))
    !! (bucket_name record, object_key record)
  = s3 st !! (bucket_name record, object_key record).
Proof.
  pose proof (process_record_effects cfg w pillow record st) as [[W _] _].
  apply W. intros [= _ E]. symmetry in E. revert E. apply resized_key_neq.
Qed.

End Sequencing.

(** Lines 38-44 and 127-145, for a record processed to the end twice in a
    row: the first run leaves the source as it was, so the two items written
    agree on the source, the destination, original_size, content_type,
    status and pillow_used.  (image_id, processed_at and, when only one of
    the two resize attempts raised, resized_size and the dimensions can
    differ.) *)
Theorem reprocessing_records_same_source cfg w pillow record st st1 st2 :
  process_record cfg w pillow record st = (Ok tt, st1) ->
  process_record cfg w pillow record st1 = (Ok tt, st2) ->
  exists item1 item2 : gmap string value,
    ddb st2 = ddb st ++ [(DYNAMODB_TABLE cfg, item1);
                         (DYNAMODB_TABLE cfg, item2)] /\
    forall k,
      k ∈ ["original_bucket"; "original_key"; "processed_bucket";
           "processed_key"; "original_size"; "content_type"; "status";
           "pillow_used"] ->
      item1 !! k = item2 !! k.
Proof.
  intros H1 H2.
  pose proof (process_record_source cfg w pillow record st) as Src.
  rewrite H1 in Src. cbn [snd] in Src.
  apply process_record_item_base in H1
    as (o1 & item1 & rs1 & id1 & t1 & Ho1 & D1 & _ & B1).
  apply process_record_item_base in H2
    as (o2 & item2 & rs2 & id2 & t2 & Ho2 & D2 & _ & B2).
  rewrite Src, Ho1 in Ho2. injection Ho2 as <-.
  exists item1, item2. split.
  - rewrite D2, D1, <- app_assoc. reflexivity.
  - intros k Hk.
    repeat (apply elem_of_cons in Hk as [->|Hk];
            [rewrite B1, B2 by repeat constructor; reflexivity|]).
    apply elem_of_nil in Hk. contradiction.
Qed.

Lemma reprocessing_records_same_source_witness :
  let w := Scenario.no_pillow in
  let record := Scenario.record_of "a/photo.jpg" in
  let st1 := snd (process_record Scenario.cfg w false record Scenario.st0) in
  let st2 := snd (process_record Scenario.cfg w false record st1) in
  exists item1 item2 : gmap string value,
    ddb st2 = ddb Scenario.st0 ++ [(DYNAMODB_TABLE Scenario.cfg, item1);
                                   (DYNAMODB_TABLE Scenario.cfg, item2)] /\
    forall k,
      k ∈ ["original_bucket"; "original_key"; "processed_bucket";
           "processed_key"; "original_size"; "content_type"; "status";
           "pillow_used"] ->
      item1 !! k = item2 !! k.
Proof.
  intros w record st1 st2.
  apply (reprocessing_records_same_source Scenario.cfg w false record
           Scenario.st0 st1 st2).
  - vm_compute. reflexivity.
  - vm_compute. reflexivity.
Defined.
